(** * Auto-order engine: a shallow embedding of [src/lib/auto-order-engine.ts]

    The engine selects the recurring ("auto") orders scheduled for the
    current IST minute, decides for each whether it is due today and not
    already run, and executes the due ones inside one Firestore
    transaction per candidate.

    Conventions of the embedding:
    - the quantities, prices and balances that documents hold are
      integers ([Z]); the arithmetic on them is JavaScript's, on doubles:
      a product or a difference is the double nearest to the exact result
      ([Js.double]), which is the exact result as long as that is a safe
      integer; amounts stay below the largest double;
    - a document field that the code guards against being missing
      ([?? 0], [!== false], [Array.isArray], [===]) is an [option] or a
      [jsval]; the other fields carry their TypeScript type, a [userId]
      or [itemId] that is missing or not a string being the empty string,
      which [doc()] rejects with the same error;
    - the three keyed collections the engine reads ([users], [menuItems],
      [autoOrders]) are finite maps from document path to document, and a
      query snapshot lists its documents by ascending id; the four
      collections the engine only appends to are lists of (document id,
      document);
    - a transaction buffers its writes and applies them only if its body
      returns; a body that throws leaves the store as it was;
    - console logging is not modelled. *)

From Stdlib Require Import ZArith String Ascii.
From stdpp Require Import gmap strings list fin_maps pretty sorting.

Local Open Scope string_scope.
Local Open Scope Z_scope.
Local Open Scope list_scope.

(** ** JavaScript values and exceptions *)

Module Js.

Inductive jsval : Type :=
| JUndefined
| JNull
| JBool (b : bool)
| JNum (n : Z)
| JStr (s : string)
| JArr (items : list jsval).

(** [v === s] for a string [s]. *)
Definition strict_eq_str (v : jsval) (s : string) : bool :=
  match v with
  | JStr t => String.eqb t s
  | _ => false
  end.

(** [Array.isArray(v)]. *)
Definition isArray (v : jsval) : bool :=
  match v with
  | JArr _ => true
  | _ => false
  end.

(** [items.includes(s)] for a string [s]. *)
Definition includes_str (items : list jsval) (s : string) : bool :=
  existsb (fun v => strict_eq_str v s) items.

(** [o ?? d]: the default replaces a missing (or null) field. *)
Definition nullish {A : Type} (o : option A) (d : A) : A :=
  match o with
  | Some a => a
  | None => d
  end.

(** [o || d] on strings: a missing field and the empty string are falsy. *)
Definition or_str (o : option string) (d : string) : string :=
  match o with
  | Some s => if String.eqb s "" then d else s
  | None => d
  end.

(** What a [catch] clause receives: an [Error] with its message, or any
    other value, kept as its [String(...)] rendering. *)
Inductive thrown : Type :=
| ErrorObj (message : string)
| NonError (rendered : string).

(** The double-quote character, for the template strings that embed it. *)
Definition dq : string := String (ascii_of_nat 34) EmptyString.

(** [Number.MAX_SAFE_INTEGER], 2^53 - 1, and [Number.isSafeInteger(n)]
    for an integer [n]. *)
Definition MAX_SAFE_INTEGER : Z := 9007199254740991.

Definition isSafeInteger (n : Z) : bool :=
  (- MAX_SAFE_INTEGER <=? n) && (n <=? MAX_SAFE_INTEGER).

(** The double nearest to the magnitude [a]: [a] itself below 2^53;
    beyond, [a] rounded to 53 significant bits, a tie going to the even
    significand. *)
Definition roundMagnitude (a : Z) : Z :=
  if a <? 2 ^ 53 then a
  else
    let e := Z.log2 a - 52 in
    let significand := a / 2 ^ e in
    let rest := a mod 2 ^ e in
    let half := 2 ^ (e - 1) in
    let rounded :=
      if rest <? half then significand
      else if half <? rest then significand + 1
      else if Z.even significand then significand
      else significand + 1 in
    rounded * 2 ^ e.

(** The value a JavaScript number takes for the exact integer result [x]
    of an operation: the nearest double. *)
Definition double (x : Z) : Z :=
  if x <? 0 then - roundMagnitude (- x) else roundMagnitude x.

(** [a * b] and [a - b] on numbers. *)
Definition times (a b : Z) : Z := double (a * b).
Definition minus (a b : Z) : Z := double (a - b).

End Js.

Import Js.

Arguments Js.isSafeInteger : simpl never.
Arguments Js.double : simpl never.
Arguments Js.times : simpl never.
Arguments Js.minus : simpl never.

(** ** Days and the resolved clock *)

Inductive DayOfWeek : Type := Sun | Mon | Tue | Wed | Thu | Fri | Sat.

Definition day_str (d : DayOfWeek) : string :=
  match d with
  | Sun => "Sun" | Mon => "Mon" | Tue => "Tue" | Wed => "Wed"
  | Thu => "Thu" | Fri => "Fri" | Sat => "Sat"
  end.

Definition day_eqb (a b : DayOfWeek) : bool :=
  match a, b with
  | Sun, Sun | Mon, Mon | Tue, Tue | Wed, Wed
  | Thu, Thu | Fri, Fri | Sat, Sat => true
  | _, _ => false
  end.

Definition WEEKDAYS : list DayOfWeek := [Mon; Tue; Wed; Thu; Fri].

(** [days.includes(d)] on a typed list of days. *)
Definition includes_day (days : list DayOfWeek) (d : DayOfWeek) : bool :=
  existsb (day_eqb d) days.

(** The value of [getIST(now)]. *)
Record IST : Type := {
  ist_time : string;
  ist_day : DayOfWeek;
  ist_dateStr : string
}.

(** ** The clock: [Date] getters and [getIST] *)

(** The UTC getters of a JavaScript [Date], as ECMAScript defines them on
    the time value [t], the milliseconds since the epoch. *)
Module JsDate.

Definition msPerDay : Z := 86400000.
Definition msPerHour : Z := 3600000.
Definition msPerMinute : Z := 60000.

Definition Day (t : Z) : Z := t / msPerDay.

(** [getUTCHours], [getUTCMinutes], [getUTCDay]. *)
Definition HourFromTime (t : Z) : Z := (t / msPerHour) mod 24.
Definition MinFromTime (t : Z) : Z := (t / msPerMinute) mod 60.
Definition WeekDay (t : Z) : Z := (Day t + 4) mod 7.

Definition DaysInYear (y : Z) : Z :=
  if negb (y mod 4 =? 0) then 365
  else if negb (y mod 100 =? 0) then 366
  else if negb (y mod 400 =? 0) then 365
  else 366.

(** The day number of the first day of year [y]. *)
Definition DayFromYear (y : Z) : Z :=
  365 * (y - 1970) + (y - 1969) / 4 - (y - 1901) / 100 + (y - 1601) / 400.

(** [getUTCFullYear]: the largest year that starts no later than [t],
    found next to the estimate that the mean year length gives. *)
Definition YearFromTime (t : Z) : Z :=
  let y0 := 1970 + (400 * Day t) / 146097 in
  if DayFromYear (y0 + 1) <=? Day t then y0 + 1
  else if DayFromYear y0 <=? Day t then y0
  else y0 - 1.

Definition InLeapYear (t : Z) : Z :=
  if DaysInYear (YearFromTime t) =? 366 then 1 else 0.

Definition DayWithinYear (t : Z) : Z := Day t - DayFromYear (YearFromTime t).

(** [getUTCMonth], from 0 for January. *)
Definition MonthFromTime (t : Z) : Z :=
  let d := DayWithinYear t in
  let leap := InLeapYear t in
  if d <? 31 then 0
  else if d <? 59 + leap then 1
  else if d <? 90 + leap then 2
  else if d <? 120 + leap then 3
  else if d <? 151 + leap then 4
  else if d <? 181 + leap then 5
  else if d <? 212 + leap then 6
  else if d <? 243 + leap then 7
  else if d <? 273 + leap then 8
  else if d <? 304 + leap then 9
  else if d <? 334 + leap then 10
  else 11.

(** [getUTCDate], from 1. *)
Definition DateFromTime (t : Z) : Z :=
  let d := DayWithinYear t in
  let leap := InLeapYear t in
  match MonthFromTime t with
  | 0 => d + 1
  | 1 => d - 30
  | 2 => d - 58 - leap
  | 3 => d - 89 - leap
  | 4 => d - 119 - leap
  | 5 => d - 150 - leap
  | 6 => d - 180 - leap
  | 7 => d - 211 - leap
  | 8 => d - 242 - leap
  | 9 => d - 272 - leap
  | 10 => d - 303 - leap
  | _ => d - 333 - leap
  end.

(** [n.toString()] and a number inside a template string, for an
    integer. *)
Definition toString (n : Z) : string := pretty n.

Fixpoint repeated (fill : ascii) (n : nat) : string :=
  match n with
  | O => EmptyString
  | S k => String fill (repeated fill k)
  end.

(** [s.padStart(targetLength, fill)] for a one-character [fill]. *)
Definition padStart (targetLength : nat) (fill : ascii) (s : string) : string :=
  repeated fill (targetLength - String.length s) +:+ s.

End JsDate.

Import JsDate.

Definition DAY_MAP (n : Z) : option DayOfWeek :=
  match n with
  | 0 => Some Sun
  | 1 => Some Mon
  | 2 => Some Tue
  | 3 => Some Wed
  | 4 => Some Thu
  | 5 => Some Fri
  | 6 => Some Sat
  | _ => None
  end.

(** [5.5 * 60 * 60 * 1000]. *)
Definition IST_OFFSET_MS : Z := 19800000.

(** A [Date] holds a time value of at most 8.64e15 milliseconds either
    side of the epoch; [new Date(v)] beyond that is an invalid date, whose
    getters all return NaN. *)
Definition maxTime : Z := 8640000000000000.

Definition validTime (v : Z) : bool := (- maxTime <=? v) && (v <=? maxTime).

(** [getIST(date)] on the time value of a valid [date]. [None] stands for a
    result whose [day] is undefined: [DAY_MAP] has no entry for the weekday
    number, or the shifted date is invalid and the weekday number NaN. *)
Definition getIST (date : Z) : option IST :=
  let ist := date + IST_OFFSET_MS in
  if negb (validTime ist) then None else
  let hh := padStart 2 "0" (toString (HourFromTime ist)) in
  let mm := padStart 2 "0" (toString (MinFromTime ist)) in
  let yyyy := YearFromTime ist in
  let mo := padStart 2 "0" (toString (MonthFromTime ist + 1)) in
  let dd := padStart 2 "0" (toString (DateFromTime ist)) in
  match DAY_MAP (WeekDay ist) with
  | Some day =>
      Some {| ist_time := hh +:+ ":" +:+ mm;
              ist_day := day;
              ist_dateStr := toString yyyy +:+ "-" +:+ mo +:+ "-" +:+ dd |}
  | None => None
  end.

(** ** Documents *)

(** A document of [autoOrders]. *)
Record AutoOrder : Type := {
  ao_userId : string;
  ao_itemId : string;
  ao_itemName : string;
  ao_itemPrice : Z;
  ao_quantity : Z;
  ao_frequency : jsval;
  ao_customDays : jsval;
  ao_time : string;
  ao_status : string;
  ao_lastExecutedDate : option string;
  ao_lastExecutedAt : option string;
  ao_lastFailedAt : option string;
  ao_lastFailureReason : option string;
  ao_totalExecutions : option Z;
  ao_totalFailures : option Z;
  ao_updatedAt : option string
}.

(** A document of [users]. *)
Record UserDoc : Type := {
  u_walletBalance : option Z;
  u_name : option string;
  u_email : option string;
  u_rollNumber : option string
}.

(** A document of [menuItems]. *)
Record MenuItem : Type := {
  mi_name : option string;
  mi_quantity : option Z;
  mi_available : option bool;
  mi_updatedAt : option string
}.

Record OrderItem : Type := {
  oi_id : string;
  oi_name : string;
  oi_price : Z;
  oi_quantity : Z
}.

(** A document of [orders]. *)
Record OrderDoc : Type := {
  o_orderId : string;
  o_userId : string;
  o_userName : string;
  o_userEmail : string;
  o_userRollNumber : string;
  o_items : list OrderItem;
  o_total : Z;
  o_paymentMode : string;
  o_status : string;
  o_isAutoOrder : bool;
  o_autoOrderId : string;
  o_createdAt : string;
  o_updatedAt : string
}.

(** A document of [walletTransactions]. *)
Record WalletTransaction : Type := {
  wt_userId : string;
  wt_type : string;
  wt_amount : Z;
  wt_description : string;
  wt_transactionId : string;
  wt_createdAt : string
}.

(** A document of [notifications]. *)
Record Notification : Type := {
  n_userId : string;
  n_orderId : string;
  n_type : string;
  n_title : string;
  n_message : string;
  n_isRead : bool;
  n_createdAt : string
}.

(** A document of [autoOrderExecutions]: the success form carries the
    order id and the deltas, the failure form a reason. *)
Record Execution : Type := {
  ex_autoOrderId : string;
  ex_userId : string;
  ex_orderId : option string;
  ex_success : bool;
  ex_failureReason : option string;
  ex_amountDeducted : option Z;
  ex_stockBefore : option Z;
  ex_stockAfter : option Z;
  ex_executedAt : string
}.

(** ** The store and its transactions *)

Module Firestore.

(** [relativePath.split("/")]: the pieces between the slashes. *)
Fixpoint splitSlash (relativePath : string) : list string :=
  match relativePath with
  | EmptyString => [EmptyString]
  | String c rest =>
      if Ascii.eqb c "/" then EmptyString :: splitSlash rest
      else
        match splitSlash rest with
        | piece :: pieces => String c piece :: pieces
        | [] => [String c EmptyString]
        end
  end.

(** The segments a relative path appends to the path of its collection:
    a leading or a trailing slash adds none. *)
Definition segments (relativePath : string) : list string :=
  List.filter (fun segment => negb (String.eqb segment "")) (splitSlash relativePath).

(** [resourcePath.indexOf("//") >= 0]. *)
Fixpoint hasDoubleSlash (resourcePath : string) : bool :=
  match resourcePath with
  | String a rest =>
      match rest with
      | String b _ => (Ascii.eqb a "/" && Ascii.eqb b "/") || hasDoubleSlash rest
      | EmptyString => false
      end
  | EmptyString => false
  end.

(** The message of the error that [collection.doc(documentPath)] throws,
    when it throws: the path is empty, or contains [//], or is not the
    path of a document of the collection, which has an odd number of
    segments under it. *)
Definition docPathError (documentPath : string) : option string :=
  if String.eqb documentPath "" then
    Some ("Value for argument " +:+ dq +:+ "documentPath" +:+ dq
            +:+ " is not a valid resource path. Path must be a non-empty string.")
  else if hasDoubleSlash documentPath then
    Some ("Value for argument " +:+ dq +:+ "documentPath" +:+ dq
            +:+ " is not a valid resource path. Paths must not contain //.")
  else if Nat.even (length (segments documentPath)) then
    Some ("Value for argument " +:+ dq +:+ "documentPath" +:+ dq
            +:+ " must point to a document, but was " +:+ dq +:+ documentPath +:+ dq
            +:+ ". Your path does not contain an even number of components.")
  else None.

(** [collection.doc(documentPath)]: the reference, as the path of its
    document under the collection, or what is thrown. A path under which
    the collection holds a document is the path that document was written
    at: it is valid and is its own reference. Any other path is validated
    and its segments are joined again. *)
Definition doc {A : Type} (collection : gmap string A) (documentPath : string)
    : thrown + string :=
  match collection !! documentPath with
  | Some _ => inr documentPath
  | None =>
      match docPathError documentPath with
      | Some message => inl (ErrorObj message)
      | None => inr (String.concat "/" (segments documentPath))
      end
  end.

Record Store : Type := {
  users : gmap string UserDoc;
  menuItems : gmap string MenuItem;
  autoOrders : gmap string AutoOrder;
  orders : list (string * OrderDoc);
  walletTransactions : list (string * WalletTransaction);
  notifications : list (string * Notification);
  autoOrderExecutions : list (string * Execution)
}.

(** The fields of [transaction.update(autoOrderDoc.ref, {...})]: a field
    left out of the object is [None]; the two counters are
    [FieldValue.increment] operands. *)
Record AutoOrderPatch : Type := {
  pa_lastExecutedDate : option string;
  pa_lastExecutedAt : option string;
  pa_lastFailedAt : option string;
  pa_lastFailureReason : option string;
  pa_totalExecutions : option Z;
  pa_totalFailures : option Z;
  pa_updatedAt : option string
}.

(** The writes the engine issues on a transaction. *)
Inductive Write : Type :=
| UpdateMenuItem (id : string) (quantity : Z) (available : bool) (updatedAt : string)
| UpdateUserWallet (id : string) (increment : Z)
| SetOrder (ref : string) (d : OrderDoc)
| SetWalletTransaction (ref : string) (d : WalletTransaction)
| SetNotification (ref : string) (d : Notification)
| SetExecution (ref : string) (d : Execution)
| UpdateAutoOrder (id : string) (p : AutoOrderPatch).

(** An updated field replaces the old one; an absent one keeps it. *)
Definition overwrite {A : Type} (new old : option A) : option A :=
  match new with
  | Some a => Some a
  | None => old
  end.

(** [FieldValue.increment(k)]: a missing field counts as 0. The store
    adds an integer operand exactly; an operand that is not a safe integer
    reaches it as a double, and the sum is then a double. *)
Definition increment (k : option Z) (old : option Z) : option Z :=
  match k with
  | Some n =>
      Some (if isSafeInteger n then nullish old 0 + n
            else double (nullish old 0 + n))
  | None => old
  end.

Definition patch_menuItem (quantity : Z) (available : bool) (updatedAt : string)
    (d : MenuItem) : MenuItem :=
  {| mi_name := mi_name d;
     mi_quantity := Some quantity;
     mi_available := Some available;
     mi_updatedAt := Some updatedAt |}.

Definition patch_wallet (k : Z) (d : UserDoc) : UserDoc :=
  {| u_walletBalance := increment (Some k) (u_walletBalance d);
     u_name := u_name d;
     u_email := u_email d;
     u_rollNumber := u_rollNumber d |}.

Definition patch_autoOrder (p : AutoOrderPatch) (d : AutoOrder) : AutoOrder :=
  {| ao_userId := ao_userId d;
     ao_itemId := ao_itemId d;
     ao_itemName := ao_itemName d;
     ao_itemPrice := ao_itemPrice d;
     ao_quantity := ao_quantity d;
     ao_frequency := ao_frequency d;
     ao_customDays := ao_customDays d;
     ao_time := ao_time d;
     ao_status := ao_status d;
     ao_lastExecutedDate := overwrite (pa_lastExecutedDate p) (ao_lastExecutedDate d);
     ao_lastExecutedAt := overwrite (pa_lastExecutedAt p) (ao_lastExecutedAt d);
     ao_lastFailedAt := overwrite (pa_lastFailedAt p) (ao_lastFailedAt d);
     ao_lastFailureReason := overwrite (pa_lastFailureReason p) (ao_lastFailureReason d);
     ao_totalExecutions := increment (pa_totalExecutions p) (ao_totalExecutions d);
     ao_totalFailures := increment (pa_totalFailures p) (ao_totalFailures d);
     ao_updatedAt := overwrite (pa_updatedAt p) (ao_updatedAt d) |}.

Definition with_users (m : gmap string UserDoc) (db : Store) : Store :=
  {| users := m; menuItems := menuItems db; autoOrders := autoOrders db;
     orders := orders db; walletTransactions := walletTransactions db;
     notifications := notifications db;
     autoOrderExecutions := autoOrderExecutions db |}.

Definition with_menuItems (m : gmap string MenuItem) (db : Store) : Store :=
  {| users := users db; menuItems := m; autoOrders := autoOrders db;
     orders := orders db; walletTransactions := walletTransactions db;
     notifications := notifications db;
     autoOrderExecutions := autoOrderExecutions db |}.

Definition with_autoOrders (m : gmap string AutoOrder) (db : Store) : Store :=
  {| users := users db; menuItems := menuItems db; autoOrders := m;
     orders := orders db; walletTransactions := walletTransactions db;
     notifications := notifications db;
     autoOrderExecutions := autoOrderExecutions db |}.

Definition with_orders (l : list (string * OrderDoc)) (db : Store) : Store :=
  {| users := users db; menuItems := menuItems db; autoOrders := autoOrders db;
     orders := l; walletTransactions := walletTransactions db;
     notifications := notifications db;
     autoOrderExecutions := autoOrderExecutions db |}.

Definition with_walletTransactions (l : list (string * WalletTransaction))
    (db : Store) : Store :=
  {| users := users db; menuItems := menuItems db; autoOrders := autoOrders db;
     orders := orders db; walletTransactions := l;
     notifications := notifications db;
     autoOrderExecutions := autoOrderExecutions db |}.

Definition with_notifications (l : list (string * Notification)) (db : Store) : Store :=
  {| users := users db; menuItems := menuItems db; autoOrders := autoOrders db;
     orders := orders db; walletTransactions := walletTransactions db;
     notifications := l;
     autoOrderExecutions := autoOrderExecutions db |}.

Definition with_autoOrderExecutions (l : list (string * Execution)) (db : Store) : Store :=
  {| users := users db; menuItems := menuItems db; autoOrders := autoOrders db;
     orders := orders db; walletTransactions := walletTransactions db;
     notifications := notifications db;
     autoOrderExecutions := l |}.

(** One write applied to the store. [update] needs its document to
    exist and fails otherwise; [set] on a freshly made reference adds
    the document. *)
Definition apply_write (w : Write) (db : Store) : option Store :=
  match w with
  | UpdateMenuItem id q a t =>
      match menuItems db !! id with
      | Some d => Some (with_menuItems (<[id := patch_menuItem q a t d]> (menuItems db)) db)
      | None => None
      end
  | UpdateUserWallet id k =>
      match users db !! id with
      | Some d => Some (with_users (<[id := patch_wallet k d]> (users db)) db)
      | None => None
      end
  | SetOrder ref d => Some (with_orders (orders db ++ [(ref, d)]) db)
  | SetWalletTransaction ref d =>
      Some (with_walletTransactions (walletTransactions db ++ [(ref, d)]) db)
  | SetNotification ref d => Some (with_notifications (notifications db ++ [(ref, d)]) db)
  | SetExecution ref d =>
      Some (with_autoOrderExecutions (autoOrderExecutions db ++ [(ref, d)]) db)
  | UpdateAutoOrder id p =>
      match autoOrders db !! id with
      | Some d => Some (with_autoOrders (<[id := patch_autoOrder p d]> (autoOrders db)) db)
      | None => None
      end
  end.

(** The buffered writes applied in the order they were issued. *)
Fixpoint commit (ws : list Write) (db : Store) : option Store :=
  match ws with
  | [] => Some db
  | w :: ws' =>
      match apply_write w db with
      | Some db' => commit ws' db'
      | None => None
      end
  end.

(** The body of a transaction: it reads the store as it is when the
    transaction starts, appends to the write buffer, and either throws
    or returns. *)
Definition Tx (A : Type) : Type :=
  Store -> list Write -> (thrown + A) * list Write.

Definition ret {A : Type} (a : A) : Tx A :=
  fun _ ws => (inr a, ws).

Definition bind {A B : Type} (m : Tx A) (k : A -> Tx B) : Tx B :=
  fun db ws =>
    match m db ws with
    | (inl e, ws') => (inl e, ws')
    | (inr a, ws') => k a db ws'
    end.

Definition throw {A : Type} (e : thrown) : Tx A :=
  fun _ ws => (inl e, ws).

(** [adminDb.collection("users").doc(id)] and
    [adminDb.collection("menuItems").doc(id)], called inside the body. *)
Definition users_doc (id : string) : Tx string :=
  fun db ws =>
    match doc (users db) id with
    | inl e => (inl e, ws)
    | inr ref => (inr ref, ws)
    end.

Definition menuItems_doc (id : string) : Tx string :=
  fun db ws =>
    match doc (menuItems db) id with
    | inl e => (inl e, ws)
    | inr ref => (inr ref, ws)
    end.

(** [transaction.get(ref)]: [None] is a snapshot whose [exists] is
    false. *)
Definition get_user (ref : string) : Tx (option UserDoc) :=
  fun db ws => (inr (users db !! ref), ws).

Definition get_menuItem (ref : string) : Tx (option MenuItem) :=
  fun db ws => (inr (menuItems db !! ref), ws).

(** [transaction.set] and [transaction.update]: buffered, not applied. *)
Definition write (w : Write) : Tx unit :=
  fun _ ws => (inr tt, ws ++ [w]).

(** [adminDb.runTransaction(body)]: the writes reach the store only when
    the body returns; when it throws, the promise rejects with what was
    thrown and the buffer is dropped. [rejection] is what the store
    raises when the commit itself cannot be applied. *)
Definition runTransaction {A : Type} (rejection : thrown) (body : Tx A)
    (db : Store) : (thrown + A) * Store :=
  match body db [] with
  | (inl e, _) => (inl e, db)
  | (inr a, ws) =>
      match commit ws db with
      | Some db' => (inr a, db')
      | None => (inl rejection, db)
      end
  end.

End Firestore.

Import Firestore.

Declare Scope tx_scope.
Delimit Scope tx_scope with tx.
Notation "x <- m ;; k" := (bind m (fun x => k))
  (at level 100, m at next level, right associativity) : tx_scope.
Notation "m ;;; k" := (bind m (fun _ => k))
  (at level 100, right associativity) : tx_scope.

(** ** The engine *)

Module Engine.

(** What the generators hand out while one candidate is processed:
    [generateOrderId()] and the auto-ids of the references made with
    [adminDb.collection(...).doc()]. *)
Record TxRefs : Type := {
  generateOrderId : string;
  execRef : string;
  orderRef : string;
  txnRef : string;
  notifRef : string
}.

(** What one run takes from outside the store: whether the Admin SDK
    handle works, whether the candidate query rejects, what the store
    raises on a commit it cannot apply, the clock ([now.toISOString()]
    and [getIST(now)]), and the generators, by candidate id. *)
Record Env : Type := {
  adminDb_fault : option thrown;
  query_fault : option thrown;
  commit_rejection : thrown;
  now_iso : string;
  ist : IST;
  fresh : string -> TxRefs
}.

Record AutoOrderResult : Type := {
  success : bool;
  time : string;
  day : DayOfWeek;
  date : string;
  candidates : nat;
  skipped : nat;
  processed : nat;
  succeeded : nat;
  failed : nat;
  errors : list string;
  message : option string
}.

(** A number inside a template string. *)
Definition num (z : Z) : string := pretty z.

(** [menuItemData.available !== false]. *)
Definition isnt_false (o : option bool) : bool :=
  match o with
  | Some false => false
  | _ => true
  end.

(** The execution log of a failed attempt. *)
Definition failedExecution (E : Env) (autoOrderId : string) (autoOrder : AutoOrder)
    (failureReason : string) : Execution :=
  {| ex_autoOrderId := autoOrderId;
     ex_userId := ao_userId autoOrder;
     ex_orderId := None;
     ex_success := false;
     ex_failureReason := Some failureReason;
     ex_amountDeducted := None;
     ex_stockBefore := None;
     ex_stockAfter := None;
     ex_executedAt := now_iso E |}.

(** The tracking update of a failed attempt. *)
Definition failureTracking (E : Env) (lastFailureReason : string) : AutoOrderPatch :=
  {| pa_lastExecutedDate := Some (ist_dateStr (ist E));
     pa_lastExecutedAt := Some (now_iso E);
     pa_lastFailedAt := Some (now_iso E);
     pa_lastFailureReason := Some lastFailureReason;
     pa_totalExecutions := None;
     pa_totalFailures := Some 1;
     pa_updatedAt := Some (now_iso E) |}.

(** The tracking update of a successful attempt (W7). *)
Definition successTracking (E : Env) : AutoOrderPatch :=
  {| pa_lastExecutedDate := Some (ist_dateStr (ist E));
     pa_lastExecutedAt := Some (now_iso E);
     pa_lastFailedAt := None;
     pa_lastFailureReason := None;
     pa_totalExecutions := Some 1;
     pa_totalFailures := None;
     pa_updatedAt := Some (now_iso E) |}.

(** The order document (W3). *)
Definition newOrder (E : Env) (autoOrderId : string) (autoOrder : AutoOrder)
    (userData : UserDoc) (orderId : string) (total : Z) : OrderDoc :=
  {| o_orderId := orderId;
     o_userId := ao_userId autoOrder;
     o_userName := or_str (u_name userData) "Auto Order";
     o_userEmail := or_str (u_email userData) "";
     o_userRollNumber := or_str (u_rollNumber userData) "";
     o_items := [ {| oi_id := ao_itemId autoOrder;
                     oi_name := ao_itemName autoOrder;
                     oi_price := ao_itemPrice autoOrder;
                     oi_quantity := ao_quantity autoOrder |} ];
     o_total := total;
     o_paymentMode := "Wallet";
     o_status := "pending";
     o_isAutoOrder := true;
     o_autoOrderId := autoOrderId;
     o_createdAt := now_iso E;
     o_updatedAt := now_iso E |}.

(** The wallet transaction record (W4). *)
Definition newWalletTransaction (E : Env) (autoOrder : AutoOrder)
    (orderId txnRefId : string) (total : Z) : WalletTransaction :=
  {| wt_userId := ao_userId autoOrder;
     wt_type := "debit";
     wt_amount := total;
     wt_description :=
       "Auto Order #" +:+ orderId +:+ " — " +:+ ao_itemName autoOrder
         +:+ " x" +:+ num (ao_quantity autoOrder);
     wt_transactionId := txnRefId;
     wt_createdAt := now_iso E |}.

(** The notification (W5). *)
Definition newNotification (E : Env) (autoOrder : AutoOrder)
    (orderId : string) (total : Z) : Notification :=
  {| n_userId := ao_userId autoOrder;
     n_orderId := orderId;
     n_type := "auto_order";
     n_title := "Auto Order Placed ✅";
     n_message :=
       ao_itemName autoOrder +:+ " x" +:+ num (ao_quantity autoOrder)
         +:+ " (₹" +:+ num total +:+ ") placed automatically.";
     n_isRead := false;
     n_createdAt := now_iso E |}.

(** The execution log of a successful attempt (W6). *)
Definition successExecution (E : Env) (autoOrderId : string) (autoOrder : AutoOrder)
    (orderId : string) (total currentStock newStock : Z) : Execution :=
  {| ex_autoOrderId := autoOrderId;
     ex_userId := ao_userId autoOrder;
     ex_orderId := Some orderId;
     ex_success := true;
     ex_failureReason := None;
     ex_amountDeducted := Some total;
     ex_stockBefore := Some currentStock;
     ex_stockAfter := Some newStock;
     ex_executedAt := now_iso E |}.

(** The function passed to [adminDb.runTransaction] for one candidate. *)
Definition transactionBody (E : Env) (autoOrderId : string) (autoOrder : AutoOrder)
    (total : Z) : Tx unit :=
  (* READ PHASE *)
  (userRef <- users_doc (ao_userId autoOrder) ;;
   userDoc <- get_user userRef ;;
   match userDoc with
   | None => throw (ErrorObj "USER_NOT_FOUND")
   | Some userData =>
     let walletBalance := nullish (u_walletBalance userData) 0 in
     menuItemRef <- menuItems_doc (ao_itemId autoOrder) ;;
     menuItemDoc <- get_menuItem menuItemRef ;;
     match menuItemDoc with
     | None => throw (ErrorObj "ITEM_NOT_FOUND")
     | Some menuItemData =>
       let currentStock := nullish (mi_quantity menuItemData) 0 in
       let isAvailable := isnt_false (mi_available menuItemData) in
       (* VALIDATION PHASE *)
       if negb isAvailable then
         write (SetExecution (execRef (fresh E autoOrderId))
                  (failedExecution E autoOrderId autoOrder
                     ("Item " +:+ dq +:+ ao_itemName autoOrder +:+ dq
                        +:+ " is unavailable"))) ;;;
         write (UpdateAutoOrder autoOrderId
                  (failureTracking E
                     ("Item " +:+ dq +:+ ao_itemName autoOrder +:+ dq
                        +:+ " is currently unavailable"))) ;;;
         throw (ErrorObj "ITEM_UNAVAILABLE")
       else if currentStock <? ao_quantity autoOrder then
         write (SetExecution (execRef (fresh E autoOrderId))
                  (failedExecution E autoOrderId autoOrder
                     ("Insufficient stock: " +:+ num currentStock
                        +:+ " available, " +:+ num (ao_quantity autoOrder)
                        +:+ " needed"))) ;;;
         write (UpdateAutoOrder autoOrderId
                  (failureTracking E
                     ("Insufficient stock for " +:+ dq +:+ ao_itemName autoOrder
                        +:+ dq +:+ " (" +:+ num currentStock +:+ " left, "
                        +:+ num (ao_quantity autoOrder) +:+ " needed)"))) ;;;
         throw (ErrorObj "INSUFFICIENT_STOCK")
       else if walletBalance <? total then
         write (SetExecution (execRef (fresh E autoOrderId))
                  (failedExecution E autoOrderId autoOrder
                     ("Insufficient balance: ₹" +:+ num walletBalance
                        +:+ " < ₹" +:+ num total))) ;;;
         write (UpdateAutoOrder autoOrderId
                  (failureTracking E
                     ("Insufficient balance (₹" +:+ num walletBalance
                        +:+ " available, ₹" +:+ num total +:+ " needed)"))) ;;;
         throw (ErrorObj "INSUFFICIENT_BALANCE")
       else
         (* WRITE PHASE *)
         let orderId := generateOrderId (fresh E autoOrderId) in
         let newStock := Js.minus currentStock (ao_quantity autoOrder) in
         write (UpdateMenuItem menuItemRef newStock (0 <? newStock)
                  (now_iso E)) ;;;
         write (UpdateUserWallet userRef (- total)) ;;;
         write (SetOrder (orderRef (fresh E autoOrderId))
                  (newOrder E autoOrderId autoOrder userData orderId total)) ;;;
         write (SetWalletTransaction (txnRef (fresh E autoOrderId))
                  (newWalletTransaction E autoOrder orderId
                     (txnRef (fresh E autoOrderId)) total)) ;;;
         write (SetNotification (notifRef (fresh E autoOrderId))
                  (newNotification E autoOrder orderId total)) ;;;
         write (SetExecution (execRef (fresh E autoOrderId))
                  (successExecution E autoOrderId autoOrder orderId total
                     currentStock newStock)) ;;;
         write (UpdateAutoOrder autoOrderId (successTracking E))
     end
   end)%tx.

(** The day-of-week check. *)
Definition shouldRun (today : DayOfWeek) (autoOrder : AutoOrder) : bool :=
  if strict_eq_str (ao_frequency autoOrder) "daily" then true
  else if strict_eq_str (ao_frequency autoOrder) "weekdays" then
    includes_day WEEKDAYS today
  else if strict_eq_str (ao_frequency autoOrder) "custom"
          && isArray (ao_customDays autoOrder) then
    match ao_customDays autoOrder with
    | JArr customDays => includes_str customDays (day_str today)
    | _ => false
    end
  else false.

(** The duplicate guard: [autoOrder.lastExecutedDate === ist.dateStr]. *)
Definition alreadyRan (dateStr : string) (autoOrder : AutoOrder) : bool :=
  match ao_lastExecutedDate autoOrder with
  | Some d => String.eqb d dateStr
  | None => false
  end.

(** [err instanceof Error ? err.message : "Unknown error"]. *)
Definition errMsg (err : thrown) : string :=
  match err with
  | ErrorObj m => m
  | NonError _ => "Unknown error"
  end.

(** The line the per-candidate [catch] pushes on [errors]. *)
Definition errorLine (autoOrderId : string) (err : thrown) : string :=
  if String.eqb (errMsg err) "INSUFFICIENT_BALANCE" then
    autoOrderId +:+ ": insufficient balance"
  else if String.eqb (errMsg err) "USER_NOT_FOUND" then
    autoOrderId +:+ ": user not found"
  else if String.eqb (errMsg err) "ITEM_NOT_FOUND" then
    autoOrderId +:+ ": menu item not found"
  else if String.eqb (errMsg err) "ITEM_UNAVAILABLE" then
    autoOrderId +:+ ": item unavailable"
  else if String.eqb (errMsg err) "INSUFFICIENT_STOCK" then
    autoOrderId +:+ ": insufficient stock"
  else
    autoOrderId +:+ ": " +:+ errMsg err.

(** The variables of the candidate loop, with the store it acts on. *)
Record LoopState : Type := {
  st_db : Store;
  st_processed : nat;
  st_succeeded : nat;
  st_failed : nat;
  st_skipped : nat;
  st_errors : list string
}.

(** [skipped++]. *)
Definition skip (st : LoopState) : LoopState :=
  {| st_db := st_db st;
     st_processed := st_processed st;
     st_succeeded := st_succeeded st;
     st_failed := st_failed st;
     st_skipped := S (st_skipped st);
     st_errors := st_errors st |}.

(** [processed++], before the transaction starts. *)
Definition markProcessed (st : LoopState) : LoopState :=
  {| st_db := st_db st;
     st_processed := S (st_processed st);
     st_succeeded := st_succeeded st;
     st_failed := st_failed st;
     st_skipped := st_skipped st;
     st_errors := st_errors st |}.

(** [succeeded++], once the transaction has resolved. *)
Definition succeed (db' : Store) (st : LoopState) : LoopState :=
  {| st_db := db';
     st_processed := st_processed st;
     st_succeeded := S (st_succeeded st);
     st_failed := st_failed st;
     st_skipped := st_skipped st;
     st_errors := st_errors st |}.

(** The per-candidate [catch]: [errors.push(line)] and [failed++]. *)
Definition fail (db' : Store) (line : string) (st : LoopState) : LoopState :=
  {| st_db := db';
     st_processed := st_processed st;
     st_succeeded := st_succeeded st;
     st_failed := S (st_failed st);
     st_skipped := st_skipped st;
     st_errors := st_errors st ++ [line] |}.

(** One iteration of [for (const autoOrderDoc of snapshot.docs)]: the
    candidate is the document as the query read it. *)
Definition processCandidate (E : Env) (st : LoopState)
    (autoOrderDoc : string * AutoOrder) : LoopState :=
  let autoOrderId := fst autoOrderDoc in
  let autoOrder := snd autoOrderDoc in
  if negb (shouldRun (ist_day (ist E)) autoOrder) then skip st
  else if alreadyRan (ist_dateStr (ist E)) autoOrder then skip st
  else
    let st := markProcessed st in
    let total := Js.times (ao_itemPrice autoOrder) (ao_quantity autoOrder) in
    match runTransaction (commit_rejection E)
            (transactionBody E autoOrderId autoOrder total) (st_db st) with
    | (inr _, db') => succeed db' st
    | (inl err, db') => fail db' (errorLine autoOrderId err) st
    end.

(** [.where("status", "==", "active").where("time", "==", queryTime)]. *)
Definition selected (queryTime : string) (d : AutoOrder) : bool :=
  String.eqb (ao_status d) "active" && String.eqb (ao_time d) queryTime.

(** The order of two documents of a collection: by id, byte by byte. *)
Definition byId (a b : string * AutoOrder) : Prop := String.le (fst a) (fst b).

#[global] Instance byId_dec : RelDecision byId :=
  fun a b => String.le_dec (fst a) (fst b).

(** The documents of the query snapshot, in the store's order: by
    ascending document id. *)
Definition query (queryTime : string) (db : Store) : list (string * AutoOrder) :=
  List.filter (fun c => selected queryTime (snd c))
    (merge_sort byId (map_to_list (autoOrders db))).

Definition initial (db : Store) : LoopState :=
  {| st_db := db;
     st_processed := 0%nat;
     st_succeeded := 0%nat;
     st_failed := 0%nat;
     st_skipped := 0%nat;
     st_errors := [] |}.

Definition loop (E : Env) (docs : list (string * AutoOrder)) (st : LoopState)
    : LoopState :=
  fold_left (processCandidate E) docs st.

(** [err instanceof Error ? err.message : String(err)]. *)
Definition errString (err : thrown) : string :=
  match err with
  | ErrorObj m => m
  | NonError s => s
  end.

(** [error instanceof Error ? error.message : "Execution failed"]. *)
Definition fatalMsg (error : thrown) : string :=
  match error with
  | ErrorObj m => m
  | NonError _ => "Execution failed"
  end.

(** [overrideTime || ist.time]. *)
Definition queryTimeOf (E : Env) (overrideTime : option string) : string :=
  or_str overrideTime (ist_time (ist E)).

(** The entry point: the run's summary and the store it leaves. *)
Definition executeAutoOrders (E : Env) (overrideTime : option string) (db : Store)
    : AutoOrderResult * Store :=
  match adminDb_fault E with
  | Some err =>
      ({| success := false;
          time := "??:??";
          day := Mon;
          date := "unknown";
          candidates := 0%nat;
          skipped := 0%nat;
          processed := 0%nat;
          succeeded := 0%nat;
          failed := 0%nat;
          errors := ["Firebase Admin SDK init failed: " +:+ errString err];
          message := Some "Firebase Admin SDK is not working" |}, db)
  | None =>
      let queryTime := queryTimeOf E overrideTime in
      match query_fault E with
      | Some error =>
          ({| success := false;
              time := queryTime;
              day := ist_day (ist E);
              date := ist_dateStr (ist E);
              candidates := 0%nat;
              skipped := 0%nat;
              processed := 0%nat;
              succeeded := 0%nat;
              failed := 0%nat;
              errors := [fatalMsg error];
              message := Some (fatalMsg error) |}, db)
      | None =>
          let docs := query queryTime db in
          match docs with
          | [] =>
              ({| success := true;
                  time := queryTime;
                  day := ist_day (ist E);
                  date := ist_dateStr (ist E);
                  candidates := 0%nat;
                  skipped := 0%nat;
                  processed := 0%nat;
                  succeeded := 0%nat;
                  failed := 0%nat;
                  errors := [];
                  message :=
                    Some ("No active auto orders for " +:+ queryTime +:+ " IST") |},
               db)
          | _ :: _ =>
              let st := loop E docs (initial db) in
              ({| success := true;
                  time := queryTime;
                  day := ist_day (ist E);
                  date := ist_dateStr (ist E);
                  candidates := length docs;
                  skipped := st_skipped st;
                  processed := st_processed st;
                  succeeded := st_succeeded st;
                  failed := st_failed st;
                  errors := st_errors st;
                  message := None |}, st_db st)
          end
      end
  end.

End Engine.

Import Engine.

(** ** A small cafe, for concrete runs *)

Module Cafe.

(** A Monday 09:00 IST run. *)
Definition env : Env :=
  {| adminDb_fault := None;
     query_fault := None;
     commit_rejection := ErrorObj "5 NOT_FOUND: No document to update";
     now_iso := "2024-01-01T03:30:00.000Z";
     ist := {| ist_time := "09:00"; ist_day := Mon; ist_dateStr := "2024-01-01" |};
     fresh := fun id =>
       {| generateOrderId := "ORD-" +:+ id;
          execRef := "exec-" +:+ id;
          orderRef := "order-" +:+ id;
          txnRef := "txn-" +:+ id;
          notifRef := "notif-" +:+ id |} |}.

(** The same minute on the following day, a Tuesday. *)
Definition tuesday : Env :=
  {| adminDb_fault := None;
     query_fault := None;
     commit_rejection := commit_rejection env;
     now_iso := "2024-01-02T03:30:00.000Z";
     ist := {| ist_time := "09:00"; ist_day := Tue; ist_dateStr := "2024-01-02" |};
     fresh := fresh env |}.

Definition tea (frequency customDays : jsval) : AutoOrder :=
  {| ao_userId := "asha";
     ao_itemId := "tea";
     ao_itemName := "Masala Tea";
     ao_itemPrice := 40;
     ao_quantity := 2;
     ao_frequency := frequency;
     ao_customDays := customDays;
     ao_time := "09:00";
     ao_status := "active";
     ao_lastExecutedDate := None;
     ao_lastExecutedAt := None;
     ao_lastFailedAt := None;
     ao_lastFailureReason := None;
     ao_totalExecutions := None;
     ao_totalFailures := None;
     ao_updatedAt := None |}.

Definition daily_tea : AutoOrder := tea (JStr "daily") JUndefined.

Definition account (walletBalance : option Z) : UserDoc :=
  {| u_walletBalance := walletBalance;
     u_name := Some "Asha";
     u_email := Some "asha@example.org";
     u_rollNumber := None |}.

Definition item (quantity : option Z) (available : option bool) : MenuItem :=
  {| mi_name := Some "Masala Tea";
     mi_quantity := quantity;
     mi_available := available;
     mi_updatedAt := None |}.

Definition shop (u : option UserDoc) (m : option MenuItem)
    (standing : gmap string AutoOrder) : Store :=
  {| users := match u with Some d => {[ "asha" := d ]} | None => ∅ end;
     menuItems := match m with Some d => {[ "tea" := d ]} | None => ∅ end;
     autoOrders := standing;
     orders := [];
     walletTransactions := [];
     notifications := [];
     autoOrderExecutions := [] |}.

(** Asha has 500 in her wallet, ten teas are in stock, and one daily
    order for two teas stands at 09:00. *)
Definition open_shop : Store :=
  shop (Some (account (Some 500))) (Some (item (Some 10) (Some true)))
       {[ "ao1" := daily_tea ]}.

(** The same shop with the tea sold out. *)
Definition sold_out : Store :=
  shop (Some (account (Some 500))) (Some (item (Some 0) (Some true)))
       {[ "ao1" := daily_tea ]}.

(** The standing order once it has been served on that Monday. *)
Definition served_tea : AutoOrder :=
  patch_autoOrder (successTracking env) daily_tea.

(** A daily order for an account that does not exist. *)
Definition orphan_tea : AutoOrder :=
  {| ao_userId := "ravi";
     ao_itemId := "tea";
     ao_itemName := "Masala Tea";
     ao_itemPrice := 40;
     ao_quantity := 1;
     ao_frequency := JStr "daily";
     ao_customDays := JUndefined;
     ao_time := "09:00";
     ao_status := "active";
     ao_lastExecutedDate := None;
     ao_lastExecutedAt := None;
     ao_lastFailedAt := None;
     ao_lastFailureReason := None;
     ao_totalExecutions := None;
     ao_totalFailures := None;
     ao_updatedAt := None |}.

(** The open shop with the orphan order standing next to Asha's. *)
Definition busy_shop : Store :=
  shop (Some (account (Some 500))) (Some (item (Some 10) (Some true)))
       {[ "ao0" := orphan_tea; "ao1" := daily_tea ]}.

(** A run whose Admin SDK handle is not initialised. *)
Definition offline : Env :=
  {| adminDb_fault := Some (ErrorObj "The default Firebase app does not exist.");
     query_fault := None;
     commit_rejection := commit_rejection env;
     now_iso := now_iso env;
     ist := ist env;
     fresh := fresh env |}.

(** A standing order whose quantity is minus one. *)
Definition negative_tea : AutoOrder :=
  {| ao_userId := "asha";
     ao_itemId := "tea";
     ao_itemName := "Masala Tea";
     ao_itemPrice := 40;
     ao_quantity := -1;
     ao_frequency := JStr "daily";
     ao_customDays := JUndefined;
     ao_time := "09:00";
     ao_status := "active";
     ao_lastExecutedDate := None;
     ao_lastExecutedAt := None;
     ao_lastFailedAt := None;
     ao_lastFailureReason := None;
     ao_totalExecutions := None;
     ao_totalFailures := None;
     ao_updatedAt := None |}.

(** An order for three units at the largest safe price. *)
Definition bulk_tea : AutoOrder :=
  {| ao_userId := "asha";
     ao_itemId := "tea";
     ao_itemName := "Masala Tea";
     ao_itemPrice := 9007199254740991;
     ao_quantity := 3;
     ao_frequency := JStr "daily";
     ao_customDays := JUndefined;
     ao_time := "09:00";
     ao_status := "active";
     ao_lastExecutedDate := None;
     ao_lastExecutedAt := None;
     ao_lastFailedAt := None;
     ao_lastFailureReason := None;
     ao_totalExecutions := None;
     ao_totalFailures := None;
     ao_updatedAt := None |}.


(** The same with a wallet that holds one less than three times that
    price. *)
Definition short_shop : Store :=
  shop (Some (account (Some 27021597764222972))) (Some (item (Some 10) (Some true)))
       {[ "ao1" := bulk_tea ]}.

(** A daily order whose [userId] is missing. *)
Definition unowned_tea : AutoOrder :=
  {| ao_userId := "";
     ao_itemId := "tea";
     ao_itemName := "Masala Tea";
     ao_itemPrice := 40;
     ao_quantity := 2;
     ao_frequency := JStr "daily";
     ao_customDays := JUndefined;
     ao_time := "09:00";
     ao_status := "active";
     ao_lastExecutedDate := None;
     ao_lastExecutedAt := None;
     ao_lastFailedAt := None;
     ao_lastFailureReason := None;
     ao_totalExecutions := None;
     ao_totalFailures := None;
     ao_updatedAt := None |}.

(** A shop whose one order is that one. *)
Definition unowned_shop : Store :=
  shop None (Some (item (Some 10) (Some true))) {[ "ao1" := unowned_tea ]}.

(** A shop whose account has no [walletBalance] and whose tea has neither
    [quantity] nor [available]. *)
Definition unfilled : Store :=
  shop (Some (account None)) (Some (item None None)) {[ "ao1" := daily_tea ]}.

(** A shop whose account has no [walletBalance] and whose tea is marked
    unavailable. *)
Definition withdrawn : Store :=
  shop (Some (account None)) (Some (item (Some 10) (Some false)))
       {[ "ao1" := daily_tea ]}.

(** The open shop with that order standing alone. *)
Definition refund_shop : Store :=
  shop (Some (account (Some 500))) (Some (item (Some 10) (Some true)))
       {[ "ao1" := negative_tea ]}.

(** The open shop with only two teas left. *)
Definition last_two : Store :=
  shop (Some (account (Some 500))) (Some (item (Some 2) (Some true)))
       {[ "ao1" := daily_tea ]}.

End Cafe.

(** ** Vocabulary of the statements *)

(** The writes of the write phase, in the order they are issued, on the
    references [userRef] and [menuItemRef]. *)
Definition successWrites (E : Env) (autoOrderId : string) (autoOrder : AutoOrder)
    (total : Z) (userRef menuItemRef : string) (userData : UserDoc)
    (currentStock : Z) : list Write :=
  let orderId := generateOrderId (fresh E autoOrderId) in
  let newStock := Js.minus currentStock (ao_quantity autoOrder) in
  [ UpdateMenuItem menuItemRef newStock (0 <? newStock) (now_iso E);
    UpdateUserWallet userRef (- total);
    SetOrder (orderRef (fresh E autoOrderId))
      (newOrder E autoOrderId autoOrder userData orderId total);
    SetWalletTransaction (txnRef (fresh E autoOrderId))
      (newWalletTransaction E autoOrder orderId (txnRef (fresh E autoOrderId)) total);
    SetNotification (notifRef (fresh E autoOrderId))
      (newNotification E autoOrder orderId total);
    SetExecution (execRef (fresh E autoOrderId))
      (successExecution E autoOrderId autoOrder orderId total currentStock newStock);
    UpdateAutoOrder autoOrderId (successTracking E) ].

(** The two writes of a validation failure. *)
Definition failureWrites (E : Env) (autoOrderId : string) (autoOrder : AutoOrder)
    (failureReason lastFailureReason : string) : list Write :=
  [ SetExecution (execRef (fresh E autoOrderId))
      (failedExecution E autoOrderId autoOrder failureReason);
    UpdateAutoOrder autoOrderId (failureTracking E lastFailureReason) ].

(** What the body of a candidate's transaction can come to on a store:
    the value it throws or returns, with the writes buffered by then. *)
Inductive BodyOutcome (E : Env) (autoOrderId : string) (autoOrder : AutoOrder)
    (total : Z) (db : Store) : (thrown + unit) * list Write -> Prop :=
| UserPathRejected e :
    doc (users db) (ao_userId autoOrder) = inl e ->
    BodyOutcome E autoOrderId autoOrder total db (inl e, [])
| UserNotFound userRef :
    doc (users db) (ao_userId autoOrder) = inr userRef ->
    users db !! userRef = None ->
    BodyOutcome E autoOrderId autoOrder total db
      (inl (ErrorObj "USER_NOT_FOUND"), [])
| ItemPathRejected userRef userData e :
    doc (users db) (ao_userId autoOrder) = inr userRef ->
    users db !! userRef = Some userData ->
    doc (menuItems db) (ao_itemId autoOrder) = inl e ->
    BodyOutcome E autoOrderId autoOrder total db (inl e, [])
| ItemNotFound userRef userData menuItemRef :
    doc (users db) (ao_userId autoOrder) = inr userRef ->
    users db !! userRef = Some userData ->
    doc (menuItems db) (ao_itemId autoOrder) = inr menuItemRef ->
    menuItems db !! menuItemRef = None ->
    BodyOutcome E autoOrderId autoOrder total db
      (inl (ErrorObj "ITEM_NOT_FOUND"), [])
| ItemUnavailable userRef userData menuItemRef menuItemData :
    doc (users db) (ao_userId autoOrder) = inr userRef ->
    users db !! userRef = Some userData ->
    doc (menuItems db) (ao_itemId autoOrder) = inr menuItemRef ->
    menuItems db !! menuItemRef = Some menuItemData ->
    mi_available menuItemData = Some false ->
    BodyOutcome E autoOrderId autoOrder total db
      (inl (ErrorObj "ITEM_UNAVAILABLE"),
       failureWrites E autoOrderId autoOrder
         ("Item " +:+ dq +:+ ao_itemName autoOrder +:+ dq +:+ " is unavailable")
         ("Item " +:+ dq +:+ ao_itemName autoOrder +:+ dq
            +:+ " is currently unavailable"))
| InsufficientStock userRef userData menuItemRef menuItemData :
    doc (users db) (ao_userId autoOrder) = inr userRef ->
    users db !! userRef = Some userData ->
    doc (menuItems db) (ao_itemId autoOrder) = inr menuItemRef ->
    menuItems db !! menuItemRef = Some menuItemData ->
    mi_available menuItemData <> Some false ->
    nullish (mi_quantity menuItemData) 0 < ao_quantity autoOrder ->
    BodyOutcome E autoOrderId autoOrder total db
      (inl (ErrorObj "INSUFFICIENT_STOCK"),
       failureWrites E autoOrderId autoOrder
         ("Insufficient stock: " +:+ num (nullish (mi_quantity menuItemData) 0)
            +:+ " available, " +:+ num (ao_quantity autoOrder) +:+ " needed")
         ("Insufficient stock for " +:+ dq +:+ ao_itemName autoOrder +:+ dq
            +:+ " (" +:+ num (nullish (mi_quantity menuItemData) 0) +:+ " left, "
            +:+ num (ao_quantity autoOrder) +:+ " needed)"))
| InsufficientBalance userRef userData menuItemRef menuItemData :
    doc (users db) (ao_userId autoOrder) = inr userRef ->
    users db !! userRef = Some userData ->
    doc (menuItems db) (ao_itemId autoOrder) = inr menuItemRef ->
    menuItems db !! menuItemRef = Some menuItemData ->
    mi_available menuItemData <> Some false ->
    ao_quantity autoOrder <= nullish (mi_quantity menuItemData) 0 ->
    nullish (u_walletBalance userData) 0 < total ->
    BodyOutcome E autoOrderId autoOrder total db
      (inl (ErrorObj "INSUFFICIENT_BALANCE"),
       failureWrites E autoOrderId autoOrder
         ("Insufficient balance: ₹" +:+ num (nullish (u_walletBalance userData) 0)
            +:+ " < ₹" +:+ num total)
         ("Insufficient balance (₹" +:+ num (nullish (u_walletBalance userData) 0)
            +:+ " available, ₹" +:+ num total +:+ " needed)"))
| Valid userRef userData menuItemRef menuItemData :
    doc (users db) (ao_userId autoOrder) = inr userRef ->
    users db !! userRef = Some userData ->
    doc (menuItems db) (ao_itemId autoOrder) = inr menuItemRef ->
    menuItems db !! menuItemRef = Some menuItemData ->
    mi_available menuItemData <> Some false ->
    ao_quantity autoOrder <= nullish (mi_quantity menuItemData) 0 ->
    total <= nullish (u_walletBalance userData) 0 ->
    BodyOutcome E autoOrderId autoOrder total db
      (inr tt,
       successWrites E autoOrderId autoOrder total userRef menuItemRef userData
         (nullish (mi_quantity menuItemData) 0)).

(** The store a committed attempt leaves, the user and the menu item
    being held under [userRef] and [menuItemRef]. *)
Definition committedAt (E : Env) (autoOrderId : string) (autoOrder : AutoOrder)
    (total : Z) (userRef menuItemRef : string) (userData : UserDoc)
    (menuItemData : MenuItem) (tracked : AutoOrder) (db : Store) : Store :=
  let currentStock := nullish (mi_quantity menuItemData) 0 in
  let newStock := Js.minus currentStock (ao_quantity autoOrder) in
  let orderId := generateOrderId (fresh E autoOrderId) in
  {| users :=
       <[userRef :=
           {| u_walletBalance := increment (Some (- total)) (u_walletBalance userData);
              u_name := u_name userData;
              u_email := u_email userData;
              u_rollNumber := u_rollNumber userData |}]> (users db);
     menuItems :=
       <[menuItemRef :=
           {| mi_name := mi_name menuItemData;
              mi_quantity := Some newStock;
              mi_available := Some (0 <? newStock);
              mi_updatedAt := Some (now_iso E) |}]> (menuItems db);
     autoOrders :=
       <[autoOrderId := patch_autoOrder (successTracking E) tracked]> (autoOrders db);
     orders :=
       orders db
         ++ [(orderRef (fresh E autoOrderId),
              newOrder E autoOrderId autoOrder userData orderId total)];
     walletTransactions :=
       walletTransactions db
         ++ [(txnRef (fresh E autoOrderId),
              newWalletTransaction E autoOrder orderId
                (txnRef (fresh E autoOrderId)) total)];
     notifications :=
       notifications db
         ++ [(notifRef (fresh E autoOrderId),
              newNotification E autoOrder orderId total)];
     autoOrderExecutions :=
       autoOrderExecutions db
         ++ [(execRef (fresh E autoOrderId),
              successExecution E autoOrderId autoOrder orderId total
                currentStock newStock)] |}.

(** The same when the store holds them under the candidate's [userId] and
    [itemId] as they are. *)
Definition committed (E : Env) (autoOrderId : string) (autoOrder : AutoOrder)
    (total : Z) (userData : UserDoc) (menuItemData : MenuItem) (tracked : AutoOrder)
    (db : Store) : Store :=
  committedAt E autoOrderId autoOrder total (ao_userId autoOrder)
    (ao_itemId autoOrder) userData menuItemData tracked db.

(** A user document with its missing balance written out as 0. *)
Definition defaultedUser (userData : UserDoc) : UserDoc :=
  {| u_walletBalance := Some (nullish (u_walletBalance userData) 0);
     u_name := u_name userData;
     u_email := u_email userData;
     u_rollNumber := u_rollNumber userData |}.

(** A menu item with its missing quantity written out as 0 and its
    missing [available] as true. *)
Definition defaultedItem (menuItemData : MenuItem) : MenuItem :=
  {| mi_name := mi_name menuItemData;
     mi_quantity := Some (nullish (mi_quantity menuItemData) 0);
     mi_available := Some (isnt_false (mi_available menuItemData));
     mi_updatedAt := mi_updatedAt menuItemData |}.

(** The store with these defaults written out in every user and menu
    item. *)
Definition withDefaults (db : Store) : Store :=
  {| users := defaultedUser <$> users db;
     menuItems := defaultedItem <$> menuItems db;
     autoOrders := autoOrders db;
     orders := orders db;
     walletTransactions := walletTransactions db;
     notifications := notifications db;
     autoOrderExecutions := autoOrderExecutions db |}.

(** The loop variables over that store. *)
Definition overDefaults (st : LoopState) : LoopState :=
  {| st_db := withDefaults (st_db st);
     st_processed := st_processed st;
     st_succeeded := st_succeeded st;
     st_failed := st_failed st;
     st_skipped := st_skipped st;
     st_errors := st_errors st |}.

(** Stock and balances that are recorded are not negative. *)
Definition nonNegative (db : Store) : Prop :=
  (forall id d q, menuItems db !! id = Some d -> mi_quantity d = Some q -> 0 <= q)
  /\ (forall id d b, users db !! id = Some d -> u_walletBalance d = Some b -> 0 <= b).

(** Stock and balances are safe integers. *)
Definition withinSafeRange (db : Store) : Prop :=
  (forall id d,
     menuItems db !! id = Some d -> isSafeInteger (nullish (mi_quantity d) 0) = true)
  /\ (forall id d,
        users db !! id = Some d ->
        isSafeInteger (nullish (u_walletBalance d) 0) = true).

(** An order whose price and quantity are not negative and whose exact
    total is a safe integer. *)
Definition plainOrder (autoOrder : AutoOrder) : Prop :=
  0 <= ao_itemPrice autoOrder
  /\ 0 <= ao_quantity autoOrder
  /\ isSafeInteger (ao_itemPrice autoOrder * ao_quantity autoOrder) = true.

(** The day after. *)
Definition tomorrow (d : DayOfWeek) : DayOfWeek :=
  match d with
  | Sun => Mon | Mon => Tue | Tue => Wed | Wed => Thu
  | Thu => Fri | Fri => Sat | Sat => Sun
  end.

(** All the money in the wallets, a missing balance counting as 0. *)
Definition walletTotal (db : Store) : Z :=
  map_fold (fun _ u acc => nullish (u_walletBalance u) 0 + acc) 0 (users db).

(** All the stock on the menu, a missing quantity counting as 0. *)
Definition stockTotal (db : Store) : Z :=
  map_fold (fun _ m acc => nullish (mi_quantity m) 0 + acc) 0 (menuItems db).

(** The amounts of a list of wallet transactions, added up. *)
Definition debited (l : list (string * WalletTransaction)) : Z :=
  fold_right (fun d acc => wt_amount (snd d) + acc) 0 l.

(** The totals of a list of orders, added up. *)
Definition billed (l : list (string * OrderDoc)) : Z :=
  fold_right (fun d acc => o_total (snd d) + acc) 0 l.

(** The units on the lines of a list of orders, added up. *)
Definition unitsOrdered (l : list (string * OrderDoc)) : Z :=
  fold_right
    (fun d acc =>
       fold_right (fun i acc' => oi_quantity i + acc') 0 (o_items (snd d)) + acc)
    0 l.

(** A snapshot document that gets its transaction: due today and not yet
    run today. *)
Definition attemptable (E : Env) (autoOrder : AutoOrder) : bool :=
  shouldRun (ist_day (ist E)) autoOrder
  && negb (alreadyRan (ist_dateStr (ist E)) autoOrder).

(** Case analysis on every comparison of a month table. *)
Ltac split_ifs :=
  repeat match goal with
         | |- context [if ?a <? ?b then _ else _] =>
             let H := fresh "Hlt" in
             destruct (Z.ltb_spec a b) as [H|H]
         end.

(** * Properties *)

(** *** Numbers *)

Lemma roundMagnitude_nonneg a : 0 <= a -> 0 <= roundMagnitude a.
Proof.
  intros Ha. unfold roundMagnitude.
  destruct (Z.ltb_spec a (2 ^ 53)) as [_|Hbig]; [exact Ha|]. cbv zeta.
  assert (53 <= Z.log2 a) as Hlog by (apply Z.log2_le_pow2; lia).
  assert (0 < 2 ^ (Z.log2 a - 52)) as Hpow by (apply Z.pow_pos_nonneg; lia).
  assert (0 <= a / 2 ^ (Z.log2 a - 52)) as Hq by (apply Z.div_pos; lia).
  apply Z.mul_nonneg_nonneg; [|lia].
  repeat match goal with
         | |- context [if ?b then _ else _] => destruct b
         end; lia.
Qed.

(** The significand of a magnitude from 2^53 on has 53 bits. *)
Lemma significand_range a :
  2 ^ 53 <= a ->
  let e := Z.log2 a - 52 in
  1 <= e /\ 0 < 2 ^ e /\ 2 ^ Z.log2 a = 2 ^ 52 * 2 ^ e
  /\ 2 ^ 52 <= a / 2 ^ e < 2 ^ 53.
Proof.
  intros Hbig. cbv zeta.
  assert (0 < a) as Hpos by (change (2 ^ 53) with 9007199254740992 in Hbig; lia).
  assert (53 <= Z.log2 a) as Hlog by (apply Z.log2_le_pow2; lia).
  destruct (Z.log2_spec a Hpos) as [Hlo Hhi].
  assert (0 < 2 ^ (Z.log2 a - 52)) as Hpow by (apply Z.pow_pos_nonneg; lia).
  assert (2 ^ Z.log2 a = 2 ^ 52 * 2 ^ (Z.log2 a - 52)) as Hsplit.
  { rewrite <- Z.pow_add_r by lia. f_equal. lia. }
  assert (2 ^ Z.succ (Z.log2 a) = 2 ^ 53 * 2 ^ (Z.log2 a - 52)) as Hsplit'.
  { rewrite <- Z.pow_add_r by lia. f_equal. lia. }
  split; [lia|]. split; [exact Hpow|]. split; [exact Hsplit|]. split.
  - apply Z.div_le_lower_bound; [exact Hpow|]. rewrite Z.mul_comm, <- Hsplit. exact Hlo.
  - apply Z.div_lt_upper_bound; [exact Hpow|]. rewrite Z.mul_comm, <- Hsplit'. exact Hhi.
Qed.

(** A rounded magnitude stays within its binade. *)
Lemma roundMagnitude_binade a :
  2 ^ 53 <= a -> 2 ^ Z.log2 a <= roundMagnitude a <= 2 ^ Z.succ (Z.log2 a).
Proof.
  intros Hbig. destruct (significand_range a Hbig) as (He & Hpow & Hsplit & Hq).
  assert (2 ^ Z.succ (Z.log2 a) = 2 ^ 53 * 2 ^ (Z.log2 a - 52)) as Hsplit'.
  { rewrite <- Z.pow_add_r by lia. f_equal. lia. }
  unfold roundMagnitude. destruct (Z.ltb_spec a (2 ^ 53)) as [Hlt|_]; [lia|].
  cbv zeta. rewrite Hsplit, Hsplit'.
  set (P := 2 ^ (Z.log2 a - 52)) in *. set (q := a / P) in *.
  assert (2 ^ 52 <= (if a mod P <? 2 ^ (Z.log2 a - 52 - 1) then q
                     else if 2 ^ (Z.log2 a - 52 - 1) <? a mod P then q + 1
                     else if Z.even q then q else q + 1) <= 2 ^ 53) as Hr.
  { repeat match goal with
           | |- context [if ?b then _ else _] => destruct b
           end; lia. }
  split; apply Z.mul_le_mono_nonneg_r; lia.
Qed.

(** Rounding to a double is monotone. *)
Lemma roundMagnitude_mono a b : 0 <= a <= b -> roundMagnitude a <= roundMagnitude b.
Proof.
  intros [Ha Hab].
  destruct (Z_lt_le_dec b (2 ^ 53)) as [Hb|Hb].
  { unfold roundMagnitude.
    destruct (Z.ltb_spec a (2 ^ 53)), (Z.ltb_spec b (2 ^ 53)); lia. }
  destruct (Z_lt_le_dec a (2 ^ 53)) as [Hsmall|Hbig].
  { pose proof (roundMagnitude_binade b Hb) as [Hlo _].
    assert (2 ^ 53 <= 2 ^ Z.log2 b).
    { apply Z.pow_le_mono_r; [lia|]. apply Z.log2_le_pow2; lia. }
    unfold roundMagnitude at 1. destruct (Z.ltb_spec a (2 ^ 53)); lia. }
  assert (0 < a) as Hpos by (change (2 ^ 53) with 9007199254740992 in Hbig; lia).
  pose proof (Z.log2_le_mono a b Hab) as Hlog.
  destruct (Z_lt_le_dec (Z.log2 a) (Z.log2 b)) as [Hless|Hsame].
  { pose proof (roundMagnitude_binade a Hbig) as [_ Hhi].
    pose proof (roundMagnitude_binade b Hb) as [Hlo _].
    assert (2 ^ Z.succ (Z.log2 a) <= 2 ^ Z.log2 b)
      by (apply Z.pow_le_mono_r; lia).
    lia. }
  assert (Z.log2 a = Z.log2 b) as Heq by lia.
  destruct (significand_range a Hbig) as (He & Hpow & _ & _).
  unfold roundMagnitude.
  destruct (Z.ltb_spec a (2 ^ 53)) as [Hlt|_]; [lia|].
  destruct (Z.ltb_spec b (2 ^ 53)) as [Hlt|_]; [lia|].
  cbv zeta. rewrite <- Heq.
  set (P := 2 ^ (Z.log2 a - 52)) in *.
  set (half := 2 ^ (Z.log2 a - 52 - 1)).
  apply Z.mul_le_mono_nonneg_r; [lia|].
  pose proof (Z.div_le_mono a b P Hpow Hab) as Hq.
  pose proof (Z.div_mod a P ltac:(lia)) as Hda.
  pose proof (Z.div_mod b P ltac:(lia)) as Hdb.
  pose proof (Z.mod_pos_bound a P Hpow) as Hra.
  pose proof (Z.mod_pos_bound b P Hpow) as Hrb.
  destruct (Z_lt_le_dec (a / P) (b / P)) as [Hlt|Hge].
  - repeat match goal with
           | |- context [if ?c then _ else _] => destruct c
           end; lia.
  - assert (a / P = b / P) as Hsameq by lia.
    rewrite <- Hsameq in *.
    assert (a mod P <= b mod P) as Hr by lia.
    destruct (Z.ltb_spec (a mod P) half), (Z.ltb_spec half (a mod P)),
      (Z.ltb_spec (b mod P) half), (Z.ltb_spec half (b mod P)),
      (Z.even (a / P)); lia.
Qed.

Lemma double_mono x y : x <= y -> double x <= double y.
Proof.
  intros Hxy. unfold double.
  destruct (Z.ltb_spec x 0) as [Hx|Hx], (Z.ltb_spec y 0) as [Hy|Hy].
  - pose proof (roundMagnitude_mono (- y) (- x)). lia.
  - pose proof (roundMagnitude_nonneg (- x)). pose proof (roundMagnitude_nonneg y).
    lia.
  - lia.
  - apply roundMagnitude_mono. lia.
Qed.

(** A safe integer is a double. *)
Lemma double_safe x : isSafeInteger x = true -> double x = x.
Proof.
  unfold isSafeInteger, MAX_SAFE_INTEGER. intros H.
  apply andb_true_iff in H as [Hlo Hhi]. apply Z.leb_le in Hlo, Hhi.
  unfold double, roundMagnitude.
  destruct (Z.ltb_spec x 0).
  - destruct (Z.ltb_spec (- x) (2 ^ 53)) as [_|Hbig]; [lia|].
    change (2 ^ 53) with 9007199254740992 in Hbig. lia.
  - destruct (Z.ltb_spec x (2 ^ 53)) as [_|Hbig]; [reflexivity|].
    change (2 ^ 53) with 9007199254740992 in Hbig. lia.
Qed.

(** Rounding to a double keeps the sign. *)
Lemma double_nonneg x : 0 <= x -> 0 <= double x.
Proof.
  intros Hx. unfold double. destruct (Z.ltb_spec x 0); [lia|].
  apply roundMagnitude_nonneg, Hx.
Qed.

Lemma double_nonpos x : x <= 0 -> double x <= 0.
Proof.
  intros Hx. unfold double. destruct (Z.ltb_spec x 0) as [Hneg|Hpos].
  - pose proof (roundMagnitude_nonneg (- x)). lia.
  - replace x with 0 by lia. vm_compute. discriminate.
Qed.

Lemma times_safe a b : isSafeInteger (a * b) = true -> Js.times a b = a * b.
Proof. apply double_safe. Qed.

Lemma minus_safe a b : isSafeInteger (a - b) = true -> Js.minus a b = a - b.
Proof. apply double_safe. Qed.

Lemma isSafeInteger_opp x : isSafeInteger (- x) = isSafeInteger x.
Proof.
  unfold isSafeInteger.
  destruct (Z.leb_spec (- MAX_SAFE_INTEGER) x), (Z.leb_spec x MAX_SAFE_INTEGER),
    (Z.leb_spec (- MAX_SAFE_INTEGER) (- x)), (Z.leb_spec (- x) MAX_SAFE_INTEGER);
    cbn; try reflexivity; lia.
Qed.

(** An increment by a safe integer is exact. *)
Lemma increment_safe n old :
  isSafeInteger n = true -> increment (Some n) old = Some (nullish old 0 + n).
Proof. intros H. unfold increment. rewrite H. reflexivity. Qed.

(** An increment that keeps the sum at or above zero leaves it there. *)
Lemma increment_nonneg n old b :
  0 <= nullish old 0 + n -> increment (Some n) old = Some b -> 0 <= b.
Proof.
  intros Hsum. unfold increment. intros [= <-].
  destruct (isSafeInteger n); [exact Hsum|apply double_nonneg, Hsum].
Qed.

(** *** References *)

Lemma doc_found {A : Type} (collection : gmap string A) documentPath d :
  collection !! documentPath = Some d -> doc collection documentPath = inr documentPath.
Proof. intros H. unfold doc. rewrite H. reflexivity. Qed.

Lemma doc_rejected {A : Type} (collection : gmap string A) documentPath message :
  collection !! documentPath = None ->
  docPathError documentPath = Some message ->
  doc collection documentPath = inl (ErrorObj message).
Proof. intros H Hm. unfold doc. rewrite H, Hm. reflexivity. Qed.

(** What [doc] throws is an [Error] with one of the SDK's messages on the
    path. *)
Lemma doc_throws {A : Type} (collection : gmap string A) documentPath e :
  doc collection documentPath = inl e ->
  exists message, docPathError documentPath = Some message /\ e = ErrorObj message.
Proof.
  unfold doc. destruct (collection !! documentPath); [discriminate|].
  destruct (docPathError documentPath) as [message|]; [|discriminate].
  intros [= <-]. exists message. split; reflexivity.
Qed.

Lemma docPathError_message documentPath message :
  docPathError documentPath = Some message ->
  exists rest, message = "Value for argument " +:+ rest.
Proof.
  unfold docPathError.
  repeat match goal with
         | |- context [if ?b then _ else _] => destruct b
         end; intros [= <-]; eexists; reflexivity.
Qed.

(** None of them is one of the five messages the engine classifies. *)
Lemma docPathError_unclassified documentPath message :
  docPathError documentPath = Some message ->
  message <> "USER_NOT_FOUND" /\ message <> "ITEM_NOT_FOUND"
  /\ message <> "ITEM_UNAVAILABLE" /\ message <> "INSUFFICIENT_STOCK"
  /\ message <> "INSUFFICIENT_BALANCE".
Proof.
  intros H. apply docPathError_message in H as [rest ->].
  repeat split; discriminate.
Qed.

(** *** The body of the transaction *)

Section TransactionBody.

Variable E : Env.
Variable autoOrderId : string.
Variable autoOrder : AutoOrder.
Variable total : Z.
Variable db : Store.

Lemma body_user_rejected e :
  doc (users db) (ao_userId autoOrder) = inl e ->
  transactionBody E autoOrderId autoOrder total db [] = (inl e, []).
Proof.
  intros Hd. unfold transactionBody, bind, users_doc. rewrite Hd. reflexivity.
Qed.

Lemma body_user_missing userRef :
  doc (users db) (ao_userId autoOrder) = inr userRef ->
  users db !! userRef = None ->
  transactionBody E autoOrderId autoOrder total db []
  = (inl (ErrorObj "USER_NOT_FOUND"), []).
Proof.
  intros Hd Hu. unfold transactionBody, bind, users_doc, get_user.
  rewrite Hd, Hu. reflexivity.
Qed.

Lemma body_item_rejected userRef userData e :
  doc (users db) (ao_userId autoOrder) = inr userRef ->
  users db !! userRef = Some userData ->
  doc (menuItems db) (ao_itemId autoOrder) = inl e ->
  transactionBody E autoOrderId autoOrder total db [] = (inl e, []).
Proof.
  intros Hd Hu Hi. unfold transactionBody, bind, users_doc, get_user, menuItems_doc.
  rewrite Hd, Hu, Hi. reflexivity.
Qed.

Lemma body_item_missing_at userRef userData menuItemRef :
  doc (users db) (ao_userId autoOrder) = inr userRef ->
  users db !! userRef = Some userData ->
  doc (menuItems db) (ao_itemId autoOrder) = inr menuItemRef ->
  menuItems db !! menuItemRef = None ->
  transactionBody E autoOrderId autoOrder total db []
  = (inl (ErrorObj "ITEM_NOT_FOUND"), []).
Proof.
  intros Hd Hu Hi Hm.
  unfold transactionBody, bind, users_doc, get_user, menuItems_doc, get_menuItem.
  rewrite Hd, Hu, Hi, Hm. reflexivity.
Qed.

Lemma body_item_unavailable_at userRef userData menuItemRef menuItemData :
  doc (users db) (ao_userId autoOrder) = inr userRef ->
  users db !! userRef = Some userData ->
  doc (menuItems db) (ao_itemId autoOrder) = inr menuItemRef ->
  menuItems db !! menuItemRef = Some menuItemData ->
  mi_available menuItemData = Some false ->
  transactionBody E autoOrderId autoOrder total db []
  = (inl (ErrorObj "ITEM_UNAVAILABLE"),
     failureWrites E autoOrderId autoOrder
       ("Item " +:+ dq +:+ ao_itemName autoOrder +:+ dq +:+ " is unavailable")
       ("Item " +:+ dq +:+ ao_itemName autoOrder +:+ dq
          +:+ " is currently unavailable")).
Proof.
  intros Hd Hu Hi Hm Ha.
  unfold transactionBody, bind, users_doc, get_user, menuItems_doc, get_menuItem.
  rewrite Hd, Hu, Hi, Hm, Ha. reflexivity.
Qed.

Lemma body_insufficient_stock_at userRef userData menuItemRef menuItemData :
  doc (users db) (ao_userId autoOrder) = inr userRef ->
  users db !! userRef = Some userData ->
  doc (menuItems db) (ao_itemId autoOrder) = inr menuItemRef ->
  menuItems db !! menuItemRef = Some menuItemData ->
  mi_available menuItemData <> Some false ->
  nullish (mi_quantity menuItemData) 0 < ao_quantity autoOrder ->
  transactionBody E autoOrderId autoOrder total db []
  = (inl (ErrorObj "INSUFFICIENT_STOCK"),
     failureWrites E autoOrderId autoOrder
       ("Insufficient stock: " +:+ num (nullish (mi_quantity menuItemData) 0)
          +:+ " available, " +:+ num (ao_quantity autoOrder) +:+ " needed")
       ("Insufficient stock for " +:+ dq +:+ ao_itemName autoOrder +:+ dq
          +:+ " (" +:+ num (nullish (mi_quantity menuItemData) 0) +:+ " left, "
          +:+ num (ao_quantity autoOrder) +:+ " needed)")).
Proof.
  intros Hd Hu Hi Hm Ha Hq.
  unfold transactionBody, bind, users_doc, get_user, menuItems_doc, get_menuItem.
  rewrite Hd, Hu, Hi, Hm.
  assert (isnt_false (mi_available menuItemData) = true) as ->.
  { destruct (mi_available menuItemData) as [[]|]; try reflexivity. congruence. }
  apply Z.ltb_lt in Hq. cbn [negb]. cbv zeta. rewrite Hq. reflexivity.
Qed.

Lemma body_insufficient_balance_at userRef userData menuItemRef menuItemData :
  doc (users db) (ao_userId autoOrder) = inr userRef ->
  users db !! userRef = Some userData ->
  doc (menuItems db) (ao_itemId autoOrder) = inr menuItemRef ->
  menuItems db !! menuItemRef = Some menuItemData ->
  mi_available menuItemData <> Some false ->
  ao_quantity autoOrder <= nullish (mi_quantity menuItemData) 0 ->
  nullish (u_walletBalance userData) 0 < total ->
  transactionBody E autoOrderId autoOrder total db []
  = (inl (ErrorObj "INSUFFICIENT_BALANCE"),
     failureWrites E autoOrderId autoOrder
       ("Insufficient balance: ₹" +:+ num (nullish (u_walletBalance userData) 0)
          +:+ " < ₹" +:+ num total)
       ("Insufficient balance (₹" +:+ num (nullish (u_walletBalance userData) 0)
          +:+ " available, ₹" +:+ num total +:+ " needed)")).
Proof.
  intros Hd Hu Hi Hm Ha Hq Hb.
  unfold transactionBody, bind, users_doc, get_user, menuItems_doc, get_menuItem.
  rewrite Hd, Hu, Hi, Hm.
  assert (isnt_false (mi_available menuItemData) = true) as ->.
  { destruct (mi_available menuItemData) as [[]|]; try reflexivity. congruence. }
  apply Z.ltb_ge in Hq. apply Z.ltb_lt in Hb. cbn [negb]. cbv zeta.
  rewrite Hq, Hb. reflexivity.
Qed.

Lemma body_valid_at userRef userData menuItemRef menuItemData :
  doc (users db) (ao_userId autoOrder) = inr userRef ->
  users db !! userRef = Some userData ->
  doc (menuItems db) (ao_itemId autoOrder) = inr menuItemRef ->
  menuItems db !! menuItemRef = Some menuItemData ->
  mi_available menuItemData <> Some false ->
  ao_quantity autoOrder <= nullish (mi_quantity menuItemData) 0 ->
  total <= nullish (u_walletBalance userData) 0 ->
  transactionBody E autoOrderId autoOrder total db []
  = (inr tt,
     successWrites E autoOrderId autoOrder total userRef menuItemRef userData
       (nullish (mi_quantity menuItemData) 0)).
Proof.
  intros Hd Hu Hi Hm Ha Hq Hb.
  unfold transactionBody, bind, users_doc, get_user, menuItems_doc, get_menuItem.
  rewrite Hd, Hu, Hi, Hm.
  assert (isnt_false (mi_available menuItemData) = true) as ->.
  { destruct (mi_available menuItemData) as [[]|]; try reflexivity. congruence. }
  apply Z.ltb_ge in Hq. apply Z.ltb_ge in Hb. cbn [negb]. cbv zeta.
  rewrite Hq, Hb. reflexivity.
Qed.

(** The same where the store holds the two documents under the
    candidate's [userId] and [itemId]. *)
Lemma body_item_missing userData :
  users db !! ao_userId autoOrder = Some userData ->
  doc (menuItems db) (ao_itemId autoOrder) = inr (ao_itemId autoOrder) ->
  menuItems db !! ao_itemId autoOrder = None ->
  transactionBody E autoOrderId autoOrder total db []
  = (inl (ErrorObj "ITEM_NOT_FOUND"), []).
Proof.
  intros Hu Hi Hm.
  exact (body_item_missing_at _ _ _ (doc_found _ _ _ Hu) Hu Hi Hm).
Qed.

Lemma body_item_unavailable userData menuItemData :
  users db !! ao_userId autoOrder = Some userData ->
  menuItems db !! ao_itemId autoOrder = Some menuItemData ->
  mi_available menuItemData = Some false ->
  transactionBody E autoOrderId autoOrder total db []
  = (inl (ErrorObj "ITEM_UNAVAILABLE"),
     failureWrites E autoOrderId autoOrder
       ("Item " +:+ dq +:+ ao_itemName autoOrder +:+ dq +:+ " is unavailable")
       ("Item " +:+ dq +:+ ao_itemName autoOrder +:+ dq
          +:+ " is currently unavailable")).
Proof.
  intros Hu Hm.
  exact (body_item_unavailable_at _ _ _ _ (doc_found _ _ _ Hu) Hu
           (doc_found _ _ _ Hm) Hm).
Qed.

Lemma body_insufficient_stock userData menuItemData :
  users db !! ao_userId autoOrder = Some userData ->
  menuItems db !! ao_itemId autoOrder = Some menuItemData ->
  mi_available menuItemData <> Some false ->
  nullish (mi_quantity menuItemData) 0 < ao_quantity autoOrder ->
  transactionBody E autoOrderId autoOrder total db []
  = (inl (ErrorObj "INSUFFICIENT_STOCK"),
     failureWrites E autoOrderId autoOrder
       ("Insufficient stock: " +:+ num (nullish (mi_quantity menuItemData) 0)
          +:+ " available, " +:+ num (ao_quantity autoOrder) +:+ " needed")
       ("Insufficient stock for " +:+ dq +:+ ao_itemName autoOrder +:+ dq
          +:+ " (" +:+ num (nullish (mi_quantity menuItemData) 0) +:+ " left, "
          +:+ num (ao_quantity autoOrder) +:+ " needed)")).
Proof.
  intros Hu Hm.
  exact (body_insufficient_stock_at _ _ _ _ (doc_found _ _ _ Hu) Hu
           (doc_found _ _ _ Hm) Hm).
Qed.

Lemma body_insufficient_balance userData menuItemData :
  users db !! ao_userId autoOrder = Some userData ->
  menuItems db !! ao_itemId autoOrder = Some menuItemData ->
  mi_available menuItemData <> Some false ->
  ao_quantity autoOrder <= nullish (mi_quantity menuItemData) 0 ->
  nullish (u_walletBalance userData) 0 < total ->
  transactionBody E autoOrderId autoOrder total db []
  = (inl (ErrorObj "INSUFFICIENT_BALANCE"),
     failureWrites E autoOrderId autoOrder
       ("Insufficient balance: ₹" +:+ num (nullish (u_walletBalance userData) 0)
          +:+ " < ₹" +:+ num total)
       ("Insufficient balance (₹" +:+ num (nullish (u_walletBalance userData) 0)
          +:+ " available, ₹" +:+ num total +:+ " needed)")).
Proof.
  intros Hu Hm.
  exact (body_insufficient_balance_at _ _ _ _ (doc_found _ _ _ Hu) Hu
           (doc_found _ _ _ Hm) Hm).
Qed.

Lemma body_valid userData menuItemData :
  users db !! ao_userId autoOrder = Some userData ->
  menuItems db !! ao_itemId autoOrder = Some menuItemData ->
  mi_available menuItemData <> Some false ->
  ao_quantity autoOrder <= nullish (mi_quantity menuItemData) 0 ->
  total <= nullish (u_walletBalance userData) 0 ->
  transactionBody E autoOrderId autoOrder total db []
  = (inr tt,
     successWrites E autoOrderId autoOrder total (ao_userId autoOrder)
       (ao_itemId autoOrder) userData (nullish (mi_quantity menuItemData) 0)).
Proof.
  intros Hu Hm.
  exact (body_valid_at _ _ _ _ (doc_found _ _ _ Hu) Hu (doc_found _ _ _ Hm) Hm).
Qed.

(** The body always comes to one of the eight outcomes. *)
Lemma body_outcome :
  BodyOutcome E autoOrderId autoOrder total db
    (transactionBody E autoOrderId autoOrder total db []).
Proof.
  destruct (doc (users db) (ao_userId autoOrder)) as [e|userRef] eqn:Hd.
  { rewrite (body_user_rejected _ Hd). now constructor. }
  destruct (users db !! userRef) as [userData|] eqn:Hu.
  2: { rewrite (body_user_missing _ Hd Hu). econstructor; eassumption. }
  destruct (doc (menuItems db) (ao_itemId autoOrder)) as [e|menuItemRef] eqn:Hi.
  { rewrite (body_item_rejected _ _ _ Hd Hu Hi). econstructor; eassumption. }
  destruct (menuItems db !! menuItemRef) as [menuItemData|] eqn:Hm.
  2: { rewrite (body_item_missing_at _ _ _ Hd Hu Hi Hm). econstructor; eassumption. }
  destruct (decide (mi_available menuItemData = Some false)) as [Ha|Ha].
  { rewrite (body_item_unavailable_at _ _ _ _ Hd Hu Hi Hm Ha).
    econstructor; eassumption. }
  destruct (Z_lt_le_dec (nullish (mi_quantity menuItemData) 0) (ao_quantity autoOrder))
    as [Hq|Hq].
  { rewrite (body_insufficient_stock_at _ _ _ _ Hd Hu Hi Hm Ha Hq).
    eapply InsufficientStock; eassumption. }
  destruct (Z_lt_le_dec (nullish (u_walletBalance userData) 0) total) as [Hb|Hb].
  { rewrite (body_insufficient_balance_at _ _ _ _ Hd Hu Hi Hm Ha Hq Hb).
    eapply InsufficientBalance; eassumption. }
  rewrite (body_valid_at _ _ _ _ Hd Hu Hi Hm Ha Hq Hb). eapply Valid; eassumption.
Qed.

End TransactionBody.

(** Applying the seven writes of the write phase. *)
Lemma commit_successWrites E autoOrderId autoOrder total db userRef menuItemRef
    userData menuItemData :
  users db !! userRef = Some userData ->
  menuItems db !! menuItemRef = Some menuItemData ->
  commit (successWrites E autoOrderId autoOrder total userRef menuItemRef userData
            (nullish (mi_quantity menuItemData) 0)) db
  = match autoOrders db !! autoOrderId with
    | Some tracked =>
        Some (committedAt E autoOrderId autoOrder total userRef menuItemRef userData
                menuItemData tracked db)
    | None => None
    end.
Proof.
  intros Hu Hm. unfold successWrites. cbn. rewrite Hm. cbn. rewrite Hu. cbn.
  destruct (autoOrders db !! autoOrderId) as [tracked|]; reflexivity.
Qed.

(** A body that throws leaves the store as it was. *)
Lemma runTransaction_throw {A : Type} rejection (body : Tx A) db err ws :
  body db [] = (inl err, ws) ->
  runTransaction rejection body db = (inl err, db).
Proof. intros H. unfold runTransaction. rewrite H. reflexivity. Qed.

(** Whatever a transaction comes to, a rejected one changes nothing. *)
Lemma runTransaction_reject {A : Type} rejection (body : Tx A) db err db' :
  runTransaction rejection body db = (inl err, db') -> db' = db.
Proof.
  unfold runTransaction. destruct (body db []) as [[e|a] ws].
  - intros [= _ <-]. reflexivity.
  - destruct (commit ws db); [discriminate | intros [= _ <-]; reflexivity].
Qed.

(** The iteration on a candidate that is due and not yet run today. *)
Lemma processCandidate_attempt E st autoOrderId autoOrder :
  shouldRun (ist_day (ist E)) autoOrder = true ->
  alreadyRan (ist_dateStr (ist E)) autoOrder = false ->
  processCandidate E st (autoOrderId, autoOrder)
  = match runTransaction (commit_rejection E)
            (transactionBody E autoOrderId autoOrder
               (Js.times (ao_itemPrice autoOrder) (ao_quantity autoOrder)))
            (st_db st) with
    | (inr _, db') => succeed db' (markProcessed st)
    | (inl err, db') => fail db' (errorLine autoOrderId err) (markProcessed st)
    end.
Proof. intros Hd Hg. unfold processCandidate. cbn. rewrite Hd, Hg. reflexivity. Qed.

(** What [doc] throws is none of the engine's own errors. *)
Lemma doc_throws_unclassified {A : Type} (collection : gmap string A) documentPath e :
  doc collection documentPath = inl e ->
  e <> ErrorObj "USER_NOT_FOUND" /\ e <> ErrorObj "ITEM_NOT_FOUND"
  /\ e <> ErrorObj "ITEM_UNAVAILABLE" /\ e <> ErrorObj "INSUFFICIENT_STOCK"
  /\ e <> ErrorObj "INSUFFICIENT_BALANCE".
Proof.
  intros H. apply doc_throws in H as (message & Hm & ->).
  apply docPathError_unclassified in Hm as (H1 & H2 & H3 & H4 & H5).
  repeat split; congruence.
Qed.

(** The writes a throwing body has buffered: none before validation, the
    failure log and the failure tracking after. *)
Lemma body_throw_writes E autoOrderId autoOrder total db err ws :
  transactionBody E autoOrderId autoOrder total db [] = (inl err, ws) ->
  (err = ErrorObj "USER_NOT_FOUND" \/ err = ErrorObj "ITEM_NOT_FOUND" -> ws = [])
  /\ (err = ErrorObj "ITEM_UNAVAILABLE" \/ err = ErrorObj "INSUFFICIENT_STOCK"
      \/ err = ErrorObj "INSUFFICIENT_BALANCE" ->
      exists failureReason lastFailureReason,
        ws = failureWrites E autoOrderId autoOrder failureReason lastFailureReason).
Proof.
  intros Hbody.
  pose proof (body_outcome E autoOrderId autoOrder total db) as Hout.
  rewrite Hbody in Hout.
  inversion Hout as [e Hd|userRef Hd Hu|userRef userData e Hd Hu Hi| | | | | ];
    subst; split;
    try (intros _; reflexivity);
    try (intros [Herr|Herr]; discriminate Herr);
    try (intros [Herr|[Herr|Herr]]; discriminate Herr);
    try (intros _; eexists _, _; reflexivity).
  - intros Herr. apply doc_throws_unclassified in Hd. exfalso. tauto.
  - intros Herr. apply doc_throws_unclassified in Hi. exfalso. tauto.
Qed.

(** C1. A due, non-duplicate candidate whose transaction body throws, in
    the read phase or in the validation phase, leaves the store exactly as
    it was: stock, balance, orders, wallet transactions, notifications,
    execution logs and the candidate's own tracking fields are those of
    before. A read-phase failure has issued no write; a validation failure
    has issued the execution log and the tracking update (last executed
    date, last failure time and reason, failure counter), and both are
    dropped with the transaction. The candidate is counted as failed. *)
Theorem aborted_attempt_changes_nothing E st autoOrderId autoOrder err ws :
  shouldRun (ist_day (ist E)) autoOrder = true ->
  alreadyRan (ist_dateStr (ist E)) autoOrder = false ->
  transactionBody E autoOrderId autoOrder
    (Js.times (ao_itemPrice autoOrder) (ao_quantity autoOrder)) (st_db st) []
  = (inl err, ws) ->
  st_db (processCandidate E st (autoOrderId, autoOrder)) = st_db st
  /\ processCandidate E st (autoOrderId, autoOrder)
     = fail (st_db st) (errorLine autoOrderId err) (markProcessed st)
  /\ (err = ErrorObj "USER_NOT_FOUND" \/ err = ErrorObj "ITEM_NOT_FOUND" -> ws = [])
  /\ (err = ErrorObj "ITEM_UNAVAILABLE" \/ err = ErrorObj "INSUFFICIENT_STOCK"
      \/ err = ErrorObj "INSUFFICIENT_BALANCE" ->
      exists failureReason lastFailureReason,
        ws = [ SetExecution (execRef (fresh E autoOrderId))
                 (failedExecution E autoOrderId autoOrder failureReason);
               UpdateAutoOrder autoOrderId
                 {| pa_lastExecutedDate := Some (ist_dateStr (ist E));
                    pa_lastExecutedAt := Some (now_iso E);
                    pa_lastFailedAt := Some (now_iso E);
                    pa_lastFailureReason := Some lastFailureReason;
                    pa_totalExecutions := None;
                    pa_totalFailures := Some 1;
                    pa_updatedAt := Some (now_iso E) |} ]).
Proof.
  intros Hd Hg Hbody.
  rewrite (processCandidate_attempt _ _ _ _ Hd Hg).
  rewrite (runTransaction_throw _ _ _ _ _ Hbody). cbn.
  split; [reflexivity|]. split; [reflexivity|].
  exact (body_throw_writes _ _ _ _ _ _ _ Hbody).
Qed.

Lemma aborted_attempt_changes_nothing_witness :
  st_db (processCandidate Cafe.env (initial Cafe.sold_out) ("ao1", Cafe.daily_tea))
  = Cafe.sold_out.
Proof.
  refine (proj1 (aborted_attempt_changes_nothing Cafe.env (initial Cafe.sold_out)
                   "ao1" Cafe.daily_tea (ErrorObj "INSUFFICIENT_STOCK")
                   (failureWrites Cafe.env "ao1" Cafe.daily_tea
                      "Insufficient stock: 0 available, 2 needed"
                      (String.append "Insufficient stock for "
                         (String.append dq
                            (String.append "Masala Tea"
                               (String.append dq " (0 left, 2 needed)")))))
                   _ _ _)); vm_compute; reflexivity.
Defined.

(** A transaction of the engine that commits did so from a valid body, on
    a store that still holds the candidate's document. *)
Lemma runTransaction_commit E autoOrderId autoOrder total db db' :
  runTransaction (commit_rejection E)
    (transactionBody E autoOrderId autoOrder total) db = (inr tt, db') ->
  exists userRef menuItemRef userData menuItemData tracked,
    doc (users db) (ao_userId autoOrder) = inr userRef
    /\ users db !! userRef = Some userData
    /\ doc (menuItems db) (ao_itemId autoOrder) = inr menuItemRef
    /\ menuItems db !! menuItemRef = Some menuItemData
    /\ autoOrders db !! autoOrderId = Some tracked
    /\ mi_available menuItemData <> Some false
    /\ ao_quantity autoOrder <= nullish (mi_quantity menuItemData) 0
    /\ total <= nullish (u_walletBalance userData) 0
    /\ db' = committedAt E autoOrderId autoOrder total userRef menuItemRef userData
               menuItemData tracked db.
Proof.
  unfold runTransaction.
  pose proof (body_outcome E autoOrderId autoOrder total db) as Hout.
  destruct (transactionBody E autoOrderId autoOrder total db []) as [[e|[]] ws];
    [discriminate|].
  inversion Hout as [ | | | | | |
                      | userRef userData menuItemRef menuItemData Hd Hu Hi Hm Ha Hq Hb Hws];
    subst.
  rewrite (commit_successWrites _ _ _ _ _ _ _ _ _ Hu Hm).
  destruct (autoOrders db !! autoOrderId) as [tracked|] eqn:Ht; [|discriminate].
  intros [= <-]. exists userRef, menuItemRef, userData, menuItemData, tracked.
  repeat split; assumption.
Qed.

(** A valid body on a store that holds the candidate's document commits. *)
Lemma runTransaction_valid E autoOrderId autoOrder total db userRef menuItemRef
    userData menuItemData tracked :
  doc (users db) (ao_userId autoOrder) = inr userRef ->
  users db !! userRef = Some userData ->
  doc (menuItems db) (ao_itemId autoOrder) = inr menuItemRef ->
  menuItems db !! menuItemRef = Some menuItemData ->
  autoOrders db !! autoOrderId = Some tracked ->
  mi_available menuItemData <> Some false ->
  ao_quantity autoOrder <= nullish (mi_quantity menuItemData) 0 ->
  total <= nullish (u_walletBalance userData) 0 ->
  runTransaction (commit_rejection E)
    (transactionBody E autoOrderId autoOrder total) db
  = (inr tt,
     committedAt E autoOrderId autoOrder total userRef menuItemRef userData
       menuItemData tracked db).
Proof.
  intros Hd Hu Hi Hm Ht Ha Hq Hb. unfold runTransaction.
  rewrite (body_valid_at _ _ _ _ _ _ _ _ _ Hd Hu Hi Hm Ha Hq Hb).
  rewrite (commit_successWrites _ _ _ _ _ _ _ _ _ Hu Hm), Ht. reflexivity.
Qed.




(** C4, as stated, fails twice. An account reference that is not the path
    of a document has no account, yet the body does not throw
    USER_NOT_FOUND: it throws what [doc] throws, before reading anything.
    And a balance below price * quantity does not throw
    INSUFFICIENT_BALANCE when it is not below the double that the product
    is in the code. *)
Lemma read_then_validate_in_order_counterexample :
  let db := Cafe.unowned_shop in
  let total := Js.times (ao_itemPrice Cafe.unowned_tea) (ao_quantity Cafe.unowned_tea) in
  (users db !! ao_userId Cafe.unowned_tea = None
   /\ fst (transactionBody Cafe.env "ao1" Cafe.unowned_tea total db [])
      <> inl (ErrorObj "USER_NOT_FOUND")
   /\ errors (fst (executeAutoOrders Cafe.env None db))
      = [ "ao1: Value for argument " +:+ dq +:+ "documentPath" +:+ dq
            +:+ " is not a valid resource path. Path must be a non-empty string." ])
  /\ (u_walletBalance <$> users Cafe.short_shop !! ao_userId Cafe.bulk_tea
      = Some (Some 27021597764222972)
      /\ 27021597764222972 < ao_itemPrice Cafe.bulk_tea * ao_quantity Cafe.bulk_tea
      /\ fst (transactionBody Cafe.env "ao1" Cafe.bulk_tea
                (Js.times (ao_itemPrice Cafe.bulk_tea) (ao_quantity Cafe.bulk_tea))
                Cafe.short_shop [])
         = inr tt).
Proof.
  cbv zeta. split.
  - split; [reflexivity|]. split; [vm_compute; discriminate|].
    vm_compute. reflexivity.
  - split; [reflexivity|]. split; [reflexivity|]. vm_compute. reflexivity.
Qed.

(** C4. The body makes each reference and reads its document before it
    validates or writes, and the first failing step decides. A [userId]
    that [doc] rejects makes the body throw the SDK's path error; with a
    reference made, a missing user document throws USER_NOT_FOUND (the
    spec's ACCOUNT_NOT_FOUND) whatever the item is; with the user present,
    the same holds of [itemId], its path error and ITEM_NOT_FOUND; none of
    these has issued a write. With both present, [available] being false
    throws ITEM_UNAVAILABLE whatever the stock and balance; otherwise stock
    below the ordered quantity throws INSUFFICIENT_STOCK whatever the
    balance; otherwise a balance below the total throws
    INSUFFICIENT_BALANCE; otherwise the body returns. The total is the
    double price * quantity, which is the exact product when that is a
    safe integer. *)
Theorem read_then_validate_in_order E autoOrderId autoOrder db :
  let total := Js.times (ao_itemPrice autoOrder) (ao_quantity autoOrder) in
  let outcome := transactionBody E autoOrderId autoOrder total db [] in
  (forall e, doc (users db) (ao_userId autoOrder) = inl e -> outcome = (inl e, []))
  /\ (forall userRef,
        doc (users db) (ao_userId autoOrder) = inr userRef ->
        users db !! userRef = None ->
        outcome = (inl (ErrorObj "USER_NOT_FOUND"), []))
  /\ (forall userRef userData,
        doc (users db) (ao_userId autoOrder) = inr userRef ->
        users db !! userRef = Some userData ->
        (forall e,
           doc (menuItems db) (ao_itemId autoOrder) = inl e -> outcome = (inl e, []))
        /\ (forall menuItemRef,
              doc (menuItems db) (ao_itemId autoOrder) = inr menuItemRef ->
              menuItems db !! menuItemRef = None ->
              outcome = (inl (ErrorObj "ITEM_NOT_FOUND"), []))
        /\ (forall menuItemRef menuItemData,
              doc (menuItems db) (ao_itemId autoOrder) = inr menuItemRef ->
              menuItems db !! menuItemRef = Some menuItemData ->
              (mi_available menuItemData = Some false ->
               fst outcome = inl (ErrorObj "ITEM_UNAVAILABLE"))
              /\ (mi_available menuItemData <> Some false ->
                  nullish (mi_quantity menuItemData) 0 < ao_quantity autoOrder ->
                  fst outcome = inl (ErrorObj "INSUFFICIENT_STOCK"))
              /\ (mi_available menuItemData <> Some false ->
                  ao_quantity autoOrder <= nullish (mi_quantity menuItemData) 0 ->
                  nullish (u_walletBalance userData) 0 < total ->
                  fst outcome = inl (ErrorObj "INSUFFICIENT_BALANCE"))
              /\ (mi_available menuItemData <> Some false ->
                  ao_quantity autoOrder <= nullish (mi_quantity menuItemData) 0 ->
                  total <= nullish (u_walletBalance userData) 0 ->
                  fst outcome = inr tt)))
  /\ (forall (A : Type) (collection : gmap string A) documentPath,
        (is_Some (collection !! documentPath) ->
         doc collection documentPath = inr documentPath)
        /\ (collection !! documentPath = None ->
            forall message,
              docPathError documentPath = Some message ->
              doc collection documentPath = inl (ErrorObj message))
        /\ (forall e,
              doc collection documentPath = inl e ->
              collection !! documentPath = None
              /\ exists message,
                   docPathError documentPath = Some message /\ e = ErrorObj message))
  /\ (isSafeInteger (ao_itemPrice autoOrder * ao_quantity autoOrder) = true ->
      total = ao_itemPrice autoOrder * ao_quantity autoOrder).
Proof.
  intros total outcome. unfold outcome.
  split; [intros e; apply body_user_rejected|].
  split; [intros userRef; apply body_user_missing|].
  split.
  { intros userRef userData Hd Hu.
    split; [intros e; apply (body_item_rejected _ _ _ _ _ _ _ _ Hd Hu)|].
    split; [intros menuItemRef; apply (body_item_missing_at _ _ _ _ _ _ _ _ Hd Hu)|].
    intros menuItemRef menuItemData Hi Hm. repeat split.
    - intros Ha. erewrite body_item_unavailable_at by eassumption. reflexivity.
    - intros Ha Hq. erewrite body_insufficient_stock_at by eassumption. reflexivity.
    - intros Ha Hq Hb. erewrite body_insufficient_balance_at by eassumption.
      reflexivity.
    - intros Ha Hq Hb. erewrite body_valid_at by eassumption. reflexivity. }
  split; [|apply times_safe].
  intros A collection documentPath. split; [|split].
  - intros [d Hd]. exact (doc_found _ _ _ Hd).
  - intros Hnone message Hm. exact (doc_rejected _ _ _ Hnone Hm).
  - intros e He. split; [|exact (doc_throws _ _ _ He)].
    unfold doc in He. destruct (collection !! documentPath); [discriminate|reflexivity].
Qed.

Lemma read_then_validate_in_order_witness :
  transactionBody Cafe.env "ao1" Cafe.daily_tea 80
    (Cafe.shop None (Some (Cafe.item (Some 0) (Some false))) ∅) []
  = (inl (ErrorObj "USER_NOT_FOUND"), [])
  /\ fst (transactionBody Cafe.env "ao1" Cafe.daily_tea 80
            (Cafe.shop (Some (Cafe.account None))
               (Some (Cafe.item (Some 0) (Some false))) ∅) [])
     = inl (ErrorObj "ITEM_UNAVAILABLE").
Proof.
  split.
  - refine (proj1 (proj2
              (read_then_validate_in_order Cafe.env "ao1" Cafe.daily_tea
                 (Cafe.shop None (Some (Cafe.item (Some 0) (Some false))) ∅)))
              "asha" _ _); vm_compute; reflexivity.
  - refine (proj1 (proj2 (proj2 (proj1 (proj2 (proj2
              (read_then_validate_in_order Cafe.env "ao1" Cafe.daily_tea
                 (Cafe.shop (Some (Cafe.account None))
                    (Some (Cafe.item (Some 0) (Some false))) ∅))))
              "asha" (Cafe.account None) _ _))
              "tea" (Cafe.item (Some 0) (Some false)) _ _) _);
      vm_compute; reflexivity.
Defined.

(** *** The schedule evaluator and the duplicate guard *)

Lemma strict_eq_str_true v s : strict_eq_str v s = true <-> v = JStr s.
Proof.
  destruct v; cbn; try (split; [discriminate | intros [=]]).
  rewrite String.eqb_eq. split; [intros ->; reflexivity | intros [= ->]; reflexivity].
Qed.

Lemma strict_eq_str_false v s : strict_eq_str v s = false <-> v <> JStr s.
Proof.
  rewrite <- strict_eq_str_true. destruct (strict_eq_str v s); split; congruence.
Qed.

Lemma includes_str_In items s : includes_str items s = true <-> In (JStr s) items.
Proof.
  unfold includes_str. rewrite existsb_exists. split.
  - intros (v & Hin & Hv). apply strict_eq_str_true in Hv. subst. exact Hin.
  - intros Hin. exists (JStr s). split; [exact Hin|]. apply strict_eq_str_true. reflexivity.
Qed.

Lemma includes_weekdays today :
  includes_day WEEKDAYS today = true <-> In today [Mon; Tue; Wed; Thu; Fri].
Proof.
  destruct today; cbn; split; intros H; try reflexivity; try discriminate;
    try tauto; repeat (destruct H as [H|H]; try discriminate H); contradiction.
Qed.

(** C5. The schedule evaluator: [daily] is due every day; [weekdays] is
    due exactly from Monday to Friday; [custom] with an array of days is
    due exactly when today is in the array, and is not due (without any
    error) when [customDays] is not an array; any other frequency is never
    due. A candidate that is not due adds one to [skipped] and nothing
    else happens to it. *)
Theorem schedule_evaluator today autoOrder :
  (ao_frequency autoOrder = JStr "daily" -> shouldRun today autoOrder = true)
  /\ (ao_frequency autoOrder = JStr "weekdays" ->
      (shouldRun today autoOrder = true <-> In today [Mon; Tue; Wed; Thu; Fri]))
  /\ (forall customDays,
        ao_frequency autoOrder = JStr "custom" ->
        ao_customDays autoOrder = JArr customDays ->
        (shouldRun today autoOrder = true <-> In (JStr (day_str today)) customDays))
  /\ (ao_frequency autoOrder = JStr "custom" ->
      (forall customDays, ao_customDays autoOrder <> JArr customDays) ->
      shouldRun today autoOrder = false)
  /\ (ao_frequency autoOrder <> JStr "daily" ->
      ao_frequency autoOrder <> JStr "weekdays" ->
      ao_frequency autoOrder <> JStr "custom" ->
      shouldRun today autoOrder = false)
  /\ (forall E st autoOrderId,
        ist_day (ist E) = today ->
        shouldRun today autoOrder = false ->
        processCandidate E st (autoOrderId, autoOrder)
        = {| st_db := st_db st;
             st_processed := st_processed st;
             st_succeeded := st_succeeded st;
             st_failed := st_failed st;
             st_skipped := S (st_skipped st);
             st_errors := st_errors st |}).
Proof.
  split; [|split; [|split; [|split; [|split]]]].
  - intros Hf. unfold shouldRun. rewrite Hf. reflexivity.
  - intros Hf. unfold shouldRun. rewrite Hf. cbn. apply includes_weekdays.
  - intros customDays Hf Hc. unfold shouldRun. rewrite Hf, Hc. cbn.
    apply includes_str_In.
  - intros Hf Hc. unfold shouldRun. rewrite Hf. cbn.
    destruct (ao_customDays autoOrder) eqn:Hd; try reflexivity.
    exfalso. eapply Hc. reflexivity.
  - intros H1 H2 H3. unfold shouldRun.
    apply strict_eq_str_false in H1, H2, H3. rewrite H1, H2, H3. reflexivity.
  - intros E st autoOrderId <- Hs. unfold processCandidate. cbn. rewrite Hs. reflexivity.
Qed.

Lemma schedule_evaluator_witness :
  shouldRun Tue (Cafe.tea (JStr "custom") (JArr [JStr "Mon"])) = false
  /\ shouldRun Sat (Cafe.tea (JStr "weekdays") JUndefined) = false
  /\ shouldRun Sun (Cafe.tea (JStr "custom") (JStr "Sun")) = false.
Proof.
  split; [|split].
  - destruct (schedule_evaluator Tue (Cafe.tea (JStr "custom") (JArr [JStr "Mon"])))
      as (_ & _ & Hcustom & _).
    destruct (Hcustom [JStr "Mon"] eq_refl eq_refl) as [Hdue _].
    destruct (shouldRun Tue (Cafe.tea (JStr "custom") (JArr [JStr "Mon"])));
      [|reflexivity].
    destruct (Hdue eq_refl) as [Hin|[]]. discriminate Hin.
  - destruct (schedule_evaluator Sat (Cafe.tea (JStr "weekdays") JUndefined))
      as (_ & Hweek & _).
    destruct (Hweek eq_refl) as [Hdue _].
    destruct (shouldRun Sat (Cafe.tea (JStr "weekdays") JUndefined)); [|reflexivity].
    exfalso. destruct (Hdue eq_refl) as [H|[H|[H|[H|[H|[]]]]]]; discriminate H.
  - destruct (schedule_evaluator Sun (Cafe.tea (JStr "custom") (JStr "Sun")))
      as (_ & _ & _ & Hmalformed & _).
    apply Hmalformed; [reflexivity|]. intros customDays. discriminate.
Defined.

Lemma alreadyRan_today dateStr autoOrder :
  ao_lastExecutedDate autoOrder = Some dateStr -> alreadyRan dateStr autoOrder = true.
Proof. intros H. unfold alreadyRan. rewrite H. apply String.eqb_refl. Qed.

Lemma processCandidate_guarded E st autoOrderId autoOrder :
  ao_lastExecutedDate autoOrder = Some (ist_dateStr (ist E)) ->
  processCandidate E st (autoOrderId, autoOrder) = skip st.
Proof.
  intros Hlast. unfold processCandidate. cbn.
  destruct (shouldRun (ist_day (ist E)) autoOrder); cbn; [|reflexivity].
  rewrite (alreadyRan_today _ _ Hlast). reflexivity.
Qed.

(** C6. A candidate whose [lastExecutedDate], as the query snapshot holds
    it, is today's date is skipped: [skipped] goes up by one, [processed],
    [succeeded] and [failed] stay, no error is recorded, and the store is
    not touched, whatever the store holds for that candidate by now and
    whether or not the candidate is due. *)
Theorem duplicate_guard_skips E st autoOrderId autoOrder :
  ao_lastExecutedDate autoOrder = Some (ist_dateStr (ist E)) ->
  processCandidate E st (autoOrderId, autoOrder)
  = {| st_db := st_db st;
       st_processed := st_processed st;
       st_succeeded := st_succeeded st;
       st_failed := st_failed st;
       st_skipped := S (st_skipped st);
       st_errors := st_errors st |}.
Proof. intros Hlast. rewrite (processCandidate_guarded _ _ _ _ Hlast). reflexivity. Qed.

Lemma duplicate_guard_skips_witness :
  st_skipped (processCandidate Cafe.env (initial Cafe.open_shop)
                ("ao1", Cafe.served_tea)) = 1%nat
  /\ st_db (processCandidate Cafe.env (initial Cafe.open_shop)
              ("ao1", Cafe.served_tea)) = Cafe.open_shop.
Proof.
  rewrite (duplicate_guard_skips Cafe.env (initial Cafe.open_shop) "ao1"
             Cafe.served_tea eq_refl).
  split; reflexivity.
Defined.

(** *** The candidate loop *)

(** What an iteration does depends on the loop state only through the
    store: it adds fixed amounts to the counters and a fixed suffix to
    the errors. *)
Lemma processCandidate_frame E c db :
  exists db' p s f k es,
    forall st, st_db st = db ->
      processCandidate E st c
      = {| st_db := db';
           st_processed := (p + st_processed st)%nat;
           st_succeeded := (s + st_succeeded st)%nat;
           st_failed := (f + st_failed st)%nat;
           st_skipped := (k + st_skipped st)%nat;
           st_errors := st_errors st ++ es |}.
Proof.
  destruct c as [autoOrderId autoOrder]. unfold processCandidate. cbn.
  destruct (shouldRun (ist_day (ist E)) autoOrder); cbn.
  2: { exists db, 0%nat, 0%nat, 0%nat, 1%nat, []. intros st <-.
       unfold skip. cbn. rewrite app_nil_r. reflexivity. }
  destruct (alreadyRan (ist_dateStr (ist E)) autoOrder).
  { exists db, 0%nat, 0%nat, 0%nat, 1%nat, []. intros st <-.
    unfold skip. cbn. rewrite app_nil_r. reflexivity. }
  destruct (runTransaction (commit_rejection E)
              (transactionBody E autoOrderId autoOrder
                 (Js.times (ao_itemPrice autoOrder) (ao_quantity autoOrder))) db)
    as [[err|[]] db'] eqn:Hrun.
  - exists db', 1%nat, 0%nat, 1%nat, 0%nat, [errorLine autoOrderId err].
    intros st ->. rewrite Hrun. reflexivity.
  - exists db', 1%nat, 1%nat, 0%nat, 0%nat, [].
    intros st ->. rewrite Hrun. unfold succeed. cbn. rewrite app_nil_r. reflexivity.
Qed.

Lemma loop_frame E docs :
  forall db,
  exists db' p s f k es,
    forall st, st_db st = db ->
      loop E docs st
      = {| st_db := db';
           st_processed := (p + st_processed st)%nat;
           st_succeeded := (s + st_succeeded st)%nat;
           st_failed := (f + st_failed st)%nat;
           st_skipped := (k + st_skipped st)%nat;
           st_errors := st_errors st ++ es |}.
Proof.
  induction docs as [|c docs IH]; intros db.
  - exists db, 0%nat, 0%nat, 0%nat, 0%nat, []. intros [] <-. cbn.
    rewrite app_nil_r. reflexivity.
  - destruct (processCandidate_frame E c db) as (db1 & p1 & s1 & f1 & k1 & es1 & H1).
    destruct (IH db1) as (db2 & p2 & s2 & f2 & k2 & es2 & H2).
    exists db2, (p2 + p1)%nat, (s2 + s1)%nat, (f2 + f1)%nat, (k2 + k1)%nat, (es1 ++ es2).
    intros st Hst. cbn. rewrite (H1 st Hst). unfold loop in H2. rewrite H2 by reflexivity.
    cbn. rewrite !Nat.add_assoc, app_assoc. reflexivity.
Qed.

Lemma loop_app E pre post st :
  loop E (pre ++ post) st = loop E post (loop E pre st).
Proof. unfold loop. apply fold_left_app. Qed.

Lemma loop_cons E c docs st :
  loop E (c :: docs) st = loop E docs (processCandidate E st c).
Proof. reflexivity. Qed.

(** What the body throws: one of the engine's five errors, or what [doc]
    throws on the candidate's [userId] or [itemId]. *)
Lemma body_throws E autoOrderId autoOrder total db err ws :
  transactionBody E autoOrderId autoOrder total db [] = (inl err, ws) ->
  In err [ ErrorObj "USER_NOT_FOUND"; ErrorObj "ITEM_NOT_FOUND";
           ErrorObj "ITEM_UNAVAILABLE"; ErrorObj "INSUFFICIENT_STOCK";
           ErrorObj "INSUFFICIENT_BALANCE" ]
  \/ exists message,
       (docPathError (ao_userId autoOrder) = Some message
        \/ docPathError (ao_itemId autoOrder) = Some message)
       /\ err = ErrorObj message.
Proof.
  intros Hbody.
  pose proof (body_outcome E autoOrderId autoOrder total db) as Hout.
  rewrite Hbody in Hout.
  inversion Hout as [e Hd|userRef Hd Hu|userRef userData e Hd Hu Hi| | | | | ];
    subst; try (left; cbn; tauto).
  - right. apply doc_throws in Hd as (message & Hm & ->). eauto.
  - right. apply doc_throws in Hi as (message & Hm & ->). eauto.
Qed.

Lemma success_iff_no_fault E overrideTime db :
  success (fst (executeAutoOrders E overrideTime db)) = false
  <-> adminDb_fault E <> None \/ query_fault E <> None.
Proof.
  unfold executeAutoOrders.
  destruct (adminDb_fault E) as [e|]; cbn.
  { split; [intros _; left; discriminate | reflexivity]. }
  destruct (query_fault E) as [e|]; cbn.
  { split; [intros _; right; discriminate | reflexivity]. }
  destruct (query (queryTimeOf E overrideTime) db); cbn;
    (split; [discriminate | intros [H|H]; contradiction]).
Qed.

Lemma errorLine_tagged autoOrderId err :
  exists reason, errorLine autoOrderId err = autoOrderId +:+ ": " +:+ reason.
Proof.
  unfold errorLine.
  repeat match goal with
         | |- context [if ?b then _ else _] => destruct b
         end; eexists; reflexivity.
Qed.

(** A message that is none of the five is reported as it is. *)
Lemma errorLine_unclassified autoOrderId message :
  message <> "USER_NOT_FOUND" /\ message <> "ITEM_NOT_FOUND"
  /\ message <> "ITEM_UNAVAILABLE" /\ message <> "INSUFFICIENT_STOCK"
  /\ message <> "INSUFFICIENT_BALANCE" ->
  errorLine autoOrderId (ErrorObj message) = autoOrderId +:+ ": " +:+ message.
Proof.
  intros (H1 & H2 & H3 & H4 & H5). unfold errorLine, errMsg.
  apply String.eqb_neq in H1, H2, H3, H4, H5. rewrite H1, H2, H3, H4, H5.
  reflexivity.
Qed.

(** The three ways an iteration can go. *)
Lemma processCandidate_cases E st autoOrderId autoOrder :
  let total := Js.times (ao_itemPrice autoOrder) (ao_quantity autoOrder) in
  let st' := processCandidate E st (autoOrderId, autoOrder) in
  (attemptable E autoOrder = false /\ st' = skip st)
  \/ (attemptable E autoOrder = true
      /\ exists userRef menuItemRef userData menuItemData tracked,
           users (st_db st) !! userRef = Some userData
           /\ menuItems (st_db st) !! menuItemRef = Some menuItemData
           /\ autoOrders (st_db st) !! autoOrderId = Some tracked
           /\ mi_available menuItemData <> Some false
           /\ ao_quantity autoOrder <= nullish (mi_quantity menuItemData) 0
           /\ total <= nullish (u_walletBalance userData) 0
           /\ st' = succeed
                      (committedAt E autoOrderId autoOrder total userRef menuItemRef
                         userData menuItemData tracked (st_db st))
                      (markProcessed st))
  \/ (attemptable E autoOrder = true
      /\ exists err,
           st' = fail (st_db st) (errorLine autoOrderId err) (markProcessed st)).
Proof.
  intros total st'. unfold st', attemptable, processCandidate. cbn [fst snd].
  destruct (shouldRun (ist_day (ist E)) autoOrder); cbn [negb andb];
    [|left; split; reflexivity].
  destruct (alreadyRan (ist_dateStr (ist E)) autoOrder); cbn [negb];
    [left; split; reflexivity|].
  right. cbv zeta. change (st_db (markProcessed st)) with (st_db st).
  destruct (runTransaction (commit_rejection E)
              (transactionBody E autoOrderId autoOrder
                 (Js.times (ao_itemPrice autoOrder) (ao_quantity autoOrder)))
              (st_db st))
    as [[err|[]] db'] eqn:Hrun.
  - right. split; [reflexivity|]. exists err.
    apply runTransaction_reject in Hrun as ->. reflexivity.
  - left. split; [reflexivity|].
    apply runTransaction_commit in Hrun
      as (userRef & menuItemRef & userData & menuItemData & tracked
          & _ & Hu & _ & Hm & Ht & Ha & Hq & Hb & ->).
    exists userRef, menuItemRef, userData, menuItemData, tracked.
    repeat split; assumption.
Qed.

(** What a commit does to the keys and to the append-only collections. *)
Lemma committedAt_dom E autoOrderId autoOrder total userRef menuItemRef userData
    menuItemData tracked db :
  users db !! userRef = Some userData ->
  menuItems db !! menuItemRef = Some menuItemData ->
  autoOrders db !! autoOrderId = Some tracked ->
  let db' := committedAt E autoOrderId autoOrder total userRef menuItemRef userData
               menuItemData tracked db in
  dom (users db') = dom (users db)
  /\ dom (menuItems db') = dom (menuItems db)
  /\ dom (autoOrders db') = dom (autoOrders db).
Proof.
  intros Hu Hm Ht. cbv zeta. unfold committedAt. cbn [users menuItems autoOrders].
  rewrite !dom_insert_lookup_L by eauto. repeat split; reflexivity.
Qed.

Lemma loop_only_appends E docs :
  forall st,
    let st' := loop E docs st in
    dom (users (st_db st')) = dom (users (st_db st))
    /\ dom (menuItems (st_db st')) = dom (menuItems (st_db st))
    /\ dom (autoOrders (st_db st')) = dom (autoOrders (st_db st))
    /\ exists os ws ns xs,
         orders (st_db st') = orders (st_db st) ++ os
         /\ walletTransactions (st_db st') = walletTransactions (st_db st) ++ ws
         /\ notifications (st_db st') = notifications (st_db st) ++ ns
         /\ autoOrderExecutions (st_db st') = autoOrderExecutions (st_db st) ++ xs
         /\ st_succeeded st' = (st_succeeded st + length os)%nat
         /\ length ws = length os /\ length ns = length os /\ length xs = length os
         /\ Forall (fun x => ex_success (snd x) = true) xs
         /\ Forall (fun o => o_status (snd o) = "pending"
                             /\ o_paymentMode (snd o) = "Wallet"
                             /\ o_isAutoOrder (snd o) = true) os
         /\ Forall (fun w => wt_type (snd w) = "debit") ws.
Proof.
  induction docs as [|[autoOrderId autoOrder] docs IH]; intros st; cbn zeta.
  - repeat split. exists [], [], [], []. cbn. rewrite !app_nil_r.
    repeat split; try constructor. lia.
  - rewrite loop_cons. specialize (IH (processCandidate E st (autoOrderId, autoOrder))).
    cbn zeta in IH.
    destruct (processCandidate_cases E st autoOrderId autoOrder)
      as [[_ Heq]|[(_ & ur & mr & u & m & t & Hu & Hm & Ht & _ & _ & _ & Heq)
                  |(_ & err & Heq)]];
      cbv zeta in Heq; rewrite Heq in *; clear Heq.
    + exact IH.
    + destruct (committedAt_dom E autoOrderId autoOrder
                  (Js.times (ao_itemPrice autoOrder) (ao_quantity autoOrder))
                  ur mr u m t (st_db st) Hu Hm Ht) as (Hdu & Hdm & Hda).
      cbn [succeed markProcessed st_db st_succeeded] in IH.
      destruct IH as (Iu & Im & Ia & os & ws & ns & xs
                      & Ho & Hw & Hn & Hx & Hs & Lw & Ln & Lx & Fx & Fo & Fw).
      rewrite Iu, Im, Ia, Hdu, Hdm, Hda. repeat split.
      unfold committedAt in Ho, Hw, Hn, Hx.
      cbn [orders walletTransactions notifications autoOrderExecutions] in Ho, Hw, Hn, Hx.
      rewrite <- app_assoc in Ho, Hw, Hn, Hx.
      eexists _, _, _, _.
      split; [exact Ho|]. split; [exact Hw|]. split; [exact Hn|]. split; [exact Hx|].
      cbn [length app]. repeat split; try lia.
      * constructor; [reflexivity|exact Fx].
      * constructor; [repeat split; reflexivity|exact Fo].
      * constructor; [reflexivity|exact Fw].
    + exact IH.
Qed.

(** *** The candidate query *)

Lemma selected_true queryTime d :
  selected queryTime d = true <-> ao_status d = "active" /\ ao_time d = queryTime.
Proof.
  unfold selected. rewrite andb_true_iff, !String.eqb_eq. reflexivity.
Qed.

(** The snapshot lists the documents of the collection, each once. *)
Lemma snapshot_Permutation (m : gmap string AutoOrder) :
  merge_sort byId (map_to_list m) ≡ₚ map_to_list m.
Proof. apply merge_sort_Permutation. Qed.

Lemma query_In queryTime db autoOrderId d :
  In (autoOrderId, d) (query queryTime db)
  <-> autoOrders db !! autoOrderId = Some d /\ selected queryTime d = true.
Proof.
  unfold query. rewrite filter_In, <- list_elem_of_In, snapshot_Permutation.
  rewrite elem_of_map_to_list. reflexivity.
Qed.

Lemma query_empty queryTime db :
  (forall autoOrderId d,
     autoOrders db !! autoOrderId = Some d ->
     ~ (ao_status d = "active" /\ ao_time d = queryTime)) ->
  query queryTime db = [].
Proof.
  intros Hnone. destruct (query queryTime db) as [|[autoOrderId d] docs] eqn:Hq;
    [reflexivity|].
  exfalso.
  assert (In (autoOrderId, d) (query queryTime db)) as Hin
    by (rewrite Hq; left; reflexivity).
  apply query_In in Hin as [Hlook Hsel]. apply selected_true in Hsel.
  exact (Hnone _ _ Hlook Hsel).
Qed.

(** C9. With a working store, when no recurring order is active at the
    query time the run stops after the query: it reports success, zero
    candidates and zero in every counter, no error, the message that no
    active auto order matches that time, and the store is left as it
    was. *)
Theorem no_candidate_short_circuit E overrideTime db :
  adminDb_fault E = None ->
  query_fault E = None ->
  (forall autoOrderId d,
     autoOrders db !! autoOrderId = Some d ->
     ~ (ao_status d = "active" /\ ao_time d = queryTimeOf E overrideTime)) ->
  executeAutoOrders E overrideTime db
  = ({| success := true;
        time := queryTimeOf E overrideTime;
        day := ist_day (ist E);
        date := ist_dateStr (ist E);
        candidates := 0;
        skipped := 0;
        processed := 0;
        succeeded := 0;
        failed := 0;
        errors := [];
        message :=
          Some ("No active auto orders for " +:+ queryTimeOf E overrideTime
                  +:+ " IST") |}, db).
Proof.
  intros Ha Hq Hnone. unfold executeAutoOrders. rewrite Ha, Hq.
  rewrite (query_empty _ _ Hnone). reflexivity.
Qed.

Lemma no_candidate_short_circuit_witness :
  executeAutoOrders Cafe.env (Some "10:00") Cafe.open_shop
  = ({| success := true;
        time := "10:00";
        day := Mon;
        date := "2024-01-01";
        candidates := 0;
        skipped := 0;
        processed := 0;
        succeeded := 0;
        failed := 0;
        errors := [];
        message := Some "No active auto orders for 10:00 IST" |}, Cafe.open_shop).
Proof.
  refine (no_candidate_short_circuit Cafe.env (Some "10:00") Cafe.open_shop
            eq_refl eq_refl _).
  intros autoOrderId d Hlook [_ Htime].
  unfold Cafe.open_shop, Cafe.shop in Hlook. cbn [autoOrders] in Hlook.
  apply lookup_singleton_Some in Hlook as [_ <-]. vm_compute in Htime.
  discriminate Htime.
Defined.

(** *** Stock and balance never go below zero *)

Lemma committedAt_nonNegative E autoOrderId autoOrder total userRef menuItemRef
    userData menuItemData tracked db :
  ao_quantity autoOrder <= nullish (mi_quantity menuItemData) 0 ->
  total <= nullish (u_walletBalance userData) 0 ->
  nonNegative db ->
  nonNegative (committedAt E autoOrderId autoOrder total userRef menuItemRef userData
                 menuItemData tracked db).
Proof.
  intros Hq Hb [Hstock Hbal]. unfold nonNegative, committedAt.
  cbn [users menuItems]. split.
  - intros id d q Hlook Hd.
    destruct (decide (menuItemRef = id)) as [<-|Hne].
    + rewrite lookup_insert_eq in Hlook. injection Hlook as <-. cbn in Hd.
      injection Hd as <-. apply double_nonneg. lia.
    + rewrite lookup_insert_ne in Hlook by exact Hne. eauto.
  - intros id d b Hlook Hd.
    destruct (decide (userRef = id)) as [<-|Hne].
    + rewrite lookup_insert_eq in Hlook. injection Hlook as <-.
      cbn [u_walletBalance] in Hd. apply increment_nonneg in Hd; [exact Hd|lia].
    + rewrite lookup_insert_ne in Hlook by exact Hne. eauto.
Qed.

Lemma processCandidate_nonNegative E st c :
  nonNegative (st_db st) -> nonNegative (st_db (processCandidate E st c)).
Proof.
  intros Hnn. destruct c as [autoOrderId autoOrder].
  destruct (processCandidate_cases E st autoOrderId autoOrder)
    as [[_ Heq]|[(_ & ur & mr & u & m & t & _ & _ & _ & _ & Hq & Hb & Heq)
                |(_ & err & Heq)]];
    cbv zeta in Heq; rewrite Heq; cbn [skip succeed fail st_db]; try exact Hnn.
  apply committedAt_nonNegative; assumption.
Qed.

Lemma loop_nonNegative E docs :
  forall st, nonNegative (st_db st) -> nonNegative (st_db (loop E docs st)).
Proof.
  induction docs as [|c docs IH]; intros st Hnn; [exact Hnn|].
  rewrite loop_cons. apply IH, processCandidate_nonNegative, Hnn.
Qed.

(** C8. A run that starts on a store whose recorded stock and balances
    are not negative ends on such a store: every quantity and every
    wallet balance the engine lowered is still at least zero, since a
    transaction lowers them only after checking, on the values it read
    itself, that the stock covers the quantity and the balance the
    total. *)
Theorem stock_and_balance_stay_non_negative E overrideTime db :
  nonNegative db ->
  nonNegative (snd (executeAutoOrders E overrideTime db)).
Proof.
  intros Hnn. unfold executeAutoOrders.
  destruct (adminDb_fault E); [exact Hnn|].
  destruct (query_fault E); [exact Hnn|].
  destruct (query (queryTimeOf E overrideTime) db) as [|c docs]; [exact Hnn|].
  cbn [snd]. apply loop_nonNegative. exact Hnn.
Qed.

Lemma stock_and_balance_stay_non_negative_witness :
  nonNegative (snd (executeAutoOrders Cafe.env None Cafe.open_shop)).
Proof.
  apply (stock_and_balance_stay_non_negative Cafe.env None Cafe.open_shop).
  unfold nonNegative, Cafe.open_shop, Cafe.shop. cbn [users menuItems]. split.
  - intros id d q Hlook Hd. apply lookup_singleton_Some in Hlook as [_ <-].
    injection Hd as <-. lia.
  - intros id d b Hlook Hd. apply lookup_singleton_Some in Hlook as [_ <-].
    injection Hd as <-. lia.
Defined.

(** *** Running twice on the same day *)

(** An iteration touches no recurring order but its own candidate's. *)
Lemma processCandidate_other E st c autoOrderId :
  fst c <> autoOrderId ->
  autoOrders (st_db (processCandidate E st c)) !! autoOrderId
  = autoOrders (st_db st) !! autoOrderId.
Proof.
  intros Hne. destruct c as [id autoOrder]. cbn in Hne.
  destruct (processCandidate_cases E st id autoOrder)
    as [[_ Heq]|[(_ & ur & mr & u & m & t & _ & _ & _ & _ & _ & _ & Heq)
                |(_ & err & Heq)]];
    cbv zeta in Heq; rewrite Heq; cbn [skip succeed fail st_db]; try reflexivity.
  unfold committedAt. cbn [autoOrders]. apply lookup_insert_ne. exact Hne.
Qed.

Lemma loop_others E docs autoOrderId :
  Forall (fun c => fst c <> autoOrderId) docs ->
  forall st,
    autoOrders (st_db (loop E docs st)) !! autoOrderId
    = autoOrders (st_db st) !! autoOrderId.
Proof.
  induction 1 as [|c docs Hc _ IH]; intros st; [reflexivity|].
  rewrite loop_cons, IH. apply processCandidate_other, Hc.
Qed.

Lemma filter_fst_NoDup {A : Type} (f : string * A -> bool) (l : list (string * A)) :
  NoDup (map fst l) -> NoDup (map fst (List.filter f l)).
Proof.
  induction l as [|x l IH]; cbn; intros Hnd; [constructor|].
  apply NoDup_cons in Hnd as [Hx Hnd].
  destruct (f x); cbn; [|auto].
  apply NoDup_cons. split; [|auto].
  rewrite list_elem_of_In in *. rewrite in_map_iff in *.
  intros (y & Hy & Hin). apply Hx. exists y. split; [exact Hy|].
  apply filter_In in Hin. tauto.
Qed.

Lemma query_NoDup queryTime db : NoDup (map fst (query queryTime db)).
Proof.
  apply filter_fst_NoDup.
  rewrite (Permutation_map fst (snapshot_Permutation (autoOrders db))).
  apply NoDup_fst_map_to_list.
Qed.

(** The other candidates of a snapshot have other identifiers. *)
Lemma query_split_others queryTime db pre autoOrderId autoOrder post :
  query queryTime db = pre ++ (autoOrderId, autoOrder) :: post ->
  Forall (fun c => fst c <> autoOrderId) pre
  /\ Forall (fun c => fst c <> autoOrderId) post.
Proof.
  intros Hq. pose proof (query_NoDup queryTime db) as Hnd.
  rewrite Hq, map_app in Hnd. cbn in Hnd.
  apply NoDup_app in Hnd as (_ & Hpre & Hpost).
  apply NoDup_cons in Hpost as [Hpost _].
  split; apply Forall_forall; intros c Hc Heq.
  - apply (Hpre (fst c)).
    + apply list_elem_of_In, in_map, list_elem_of_In, Hc.
    + rewrite Heq. left.
  - apply Hpost. rewrite <- Heq.
    apply list_elem_of_In, in_map, list_elem_of_In, Hc.
Qed.

(** A run whose query finds candidates is the loop over them. *)
Lemma executeAutoOrders_loop E overrideTime db :
  adminDb_fault E = None ->
  query_fault E = None ->
  query (queryTimeOf E overrideTime) db <> [] ->
  executeAutoOrders E overrideTime db
  = (let st := loop E (query (queryTimeOf E overrideTime) db) (initial db) in
     ({| success := true;
         time := queryTimeOf E overrideTime;
         day := ist_day (ist E);
         date := ist_dateStr (ist E);
         candidates := length (query (queryTimeOf E overrideTime) db);
         skipped := st_skipped st;
         processed := st_processed st;
         succeeded := st_succeeded st;
         failed := st_failed st;
         errors := st_errors st;
         message := None |}, st_db st)).
Proof.
  intros Ha Hq Hne. unfold executeAutoOrders. rewrite Ha, Hq.
  destruct (query (queryTimeOf E overrideTime) db); [contradiction|reflexivity].
Qed.

(** When its turn comes, a candidate's document is still the one of the
    snapshot. *)
Lemma snapshot_document_kept E queryTime db pre autoOrderId autoOrder post :
  query queryTime db = pre ++ (autoOrderId, autoOrder) :: post ->
  autoOrders (st_db (loop E pre (initial db))) !! autoOrderId = Some autoOrder.
Proof.
  intros Hsnap. destruct (query_split_others _ _ _ _ _ _ Hsnap) as [Hpre _].
  rewrite (loop_others E pre autoOrderId Hpre). cbn [initial st_db].
  assert (In (autoOrderId, autoOrder) (query queryTime db)) as Hin
    by (rewrite Hsnap; apply in_elt).
  apply query_In in Hin as [Hlook _]. exact Hlook.
Qed.

(** C7. Let a first run execute a candidate: its transaction commits.
    In the store that run leaves, the candidate's [lastExecutedDate] is
    today's date. A second run on that store, on the same date and for
    the same query time, selects the candidate again and skips it: its
    iteration adds one to [skipped] and changes neither the store nor any
    other counter, so the second run ends as its other candidates alone
    make it end. *)
Theorem second_run_skips_executed E1 E2 overrideTime db pre post
    autoOrderId autoOrder dbc :
  adminDb_fault E1 = None -> query_fault E1 = None ->
  adminDb_fault E2 = None -> query_fault E2 = None ->
  ist_dateStr (ist E2) = ist_dateStr (ist E1) ->
  queryTimeOf E2 overrideTime = queryTimeOf E1 overrideTime ->
  query (queryTimeOf E1 overrideTime) db = pre ++ (autoOrderId, autoOrder) :: post ->
  shouldRun (ist_day (ist E1)) autoOrder = true ->
  alreadyRan (ist_dateStr (ist E1)) autoOrder = false ->
  runTransaction (commit_rejection E1)
    (transactionBody E1 autoOrderId autoOrder
       (Js.times (ao_itemPrice autoOrder) (ao_quantity autoOrder)))
    (st_db (loop E1 pre (initial db))) = (inr tt, dbc) ->
  let db1 := snd (executeAutoOrders E1 overrideTime db) in
  exists executed pre2 post2,
    autoOrders db1 !! autoOrderId = Some executed
    /\ ao_lastExecutedDate executed = Some (ist_dateStr (ist E1))
    /\ query (queryTimeOf E2 overrideTime) db1
       = pre2 ++ (autoOrderId, executed) :: post2
    /\ let before := loop E2 pre2 (initial db1) in
       let skipping :=
         {| st_db := st_db before;
            st_processed := st_processed before;
            st_succeeded := st_succeeded before;
            st_failed := st_failed before;
            st_skipped := S (st_skipped before);
            st_errors := st_errors before |} in
       let final := loop E2 post2 skipping in
       processCandidate E2 before (autoOrderId, executed) = skipping
       /\ snd (executeAutoOrders E2 overrideTime db1) = st_db final
       /\ skipped (fst (executeAutoOrders E2 overrideTime db1)) = st_skipped final
       /\ processed (fst (executeAutoOrders E2 overrideTime db1)) = st_processed final
       /\ succeeded (fst (executeAutoOrders E2 overrideTime db1)) = st_succeeded final
       /\ failed (fst (executeAutoOrders E2 overrideTime db1)) = st_failed final.
Proof.
  intros Ha1 Hq1 Ha2 Hq2 Hdate Htime Hsnap Hd Hg Hrun db1.
  destruct (query_split_others _ _ _ _ _ _ Hsnap) as [Hpre Hpost].
  assert (In (autoOrderId, autoOrder) (query (queryTimeOf E1 overrideTime) db)) as Hin
    by (rewrite Hsnap; apply in_elt).
  apply query_In in Hin as [Hlook Hsel].
  (* the document is still the snapshot's when its turn comes *)
  pose proof (snapshot_document_kept E1 _ _ _ _ _ _ Hsnap) as Hkept.
  destruct (runTransaction_commit _ _ _ _ _ _ Hrun)
    as (userRef & menuItemRef & userData & menuItemData & tracked
        & _ & _ & _ & _ & Ht & _ & _ & _ & Hdbc).
  rewrite Hkept in Ht. injection Ht as <-.
  set (executed := patch_autoOrder (successTracking E1) autoOrder).
  assert (autoOrders dbc !! autoOrderId = Some executed) as Hexec.
  { rewrite Hdbc. unfold committedAt. cbn [autoOrders]. apply lookup_insert_eq. }
  (* the rest of the first run leaves it alone *)
  assert (autoOrders db1 !! autoOrderId = Some executed) as Hafter.
  { unfold db1. rewrite executeAutoOrders_loop; try assumption.
    2: { rewrite Hsnap. intros Hnil. symmetry in Hnil.
         exact (app_cons_not_nil _ _ _ Hnil). }
    cbn [snd]. rewrite Hsnap, loop_app, loop_cons.
    rewrite (loop_others E1 post autoOrderId Hpost).
    rewrite (processCandidate_attempt _ _ _ _ Hd Hg), Hrun. exact Hexec. }
  (* so the second query selects it, guarded *)
  assert (In (autoOrderId, executed) (query (queryTimeOf E2 overrideTime) db1)) as Hin2.
  { apply query_In. split; [exact Hafter|]. rewrite Htime. exact Hsel. }
  apply in_split in Hin2 as (pre2 & post2 & Hsnap2).
  exists executed, pre2, post2.
  split; [exact Hafter|]. split; [reflexivity|]. split; [exact Hsnap2|].
  intros before skipping final.
  assert (processCandidate E2 before (autoOrderId, executed) = skipping) as Hskip.
  { unfold skipping. rewrite processCandidate_guarded; [reflexivity|].
    rewrite Hdate. reflexivity. }
  split; [exact Hskip|].
  rewrite executeAutoOrders_loop; try assumption.
  2: { rewrite Hsnap2. intros Hnil. symmetry in Hnil.
       exact (app_cons_not_nil _ _ _ Hnil). }
  cbn zeta. cbn [fst snd skipped processed succeeded failed].
  rewrite Hsnap2, loop_app, loop_cons. fold before. rewrite Hskip. fold final.
  repeat split; reflexivity.
Qed.

Lemma second_run_skips_executed_witness :
  exists executed pre2 post2,
    autoOrders (snd (executeAutoOrders Cafe.env None Cafe.open_shop)) !! "ao1"
    = Some executed
    /\ ao_lastExecutedDate executed = Some "2024-01-01"
    /\ query "09:00" (snd (executeAutoOrders Cafe.env None Cafe.open_shop))
       = pre2 ++ ("ao1", executed) :: post2
    /\ processCandidate Cafe.env
         (loop Cafe.env pre2
            (initial (snd (executeAutoOrders Cafe.env None Cafe.open_shop))))
         ("ao1", executed)
       = skip (loop Cafe.env pre2
                 (initial (snd (executeAutoOrders Cafe.env None Cafe.open_shop)))).
Proof.
  destruct (second_run_skips_executed Cafe.env Cafe.env None Cafe.open_shop [] []
              "ao1" Cafe.daily_tea
              (committed Cafe.env "ao1" Cafe.daily_tea 80 (Cafe.account (Some 500))
                 (Cafe.item (Some 10) (Some true)) Cafe.daily_tea Cafe.open_shop)
              eq_refl eq_refl eq_refl eq_refl eq_refl eq_refl
              ltac:(vm_compute; reflexivity) ltac:(vm_compute; reflexivity)
              ltac:(vm_compute; reflexivity) ltac:(vm_compute; reflexivity))
    as (executed & pre2 & post2 & H1 & H2 & H3 & H4 & _).
  exists executed, pre2, post2. repeat split; assumption.
Defined.

(** *** What the run reports for one candidate *)

(** A run whose snapshot holds a candidate whose iteration fails: the
    summary and the store are those of the run without it, but for one
    more in [processed] and [failed] and its line in [errors]. *)
Lemma run_with_failure E overrideTime db pre autoOrderId autoOrder post line :
  adminDb_fault E = None -> query_fault E = None ->
  query (queryTimeOf E overrideTime) db = pre ++ (autoOrderId, autoOrder) :: post ->
  let before := loop E pre (initial db) in
  processCandidate E before (autoOrderId, autoOrder)
  = fail (st_db before) line (markProcessed before) ->
  let r := executeAutoOrders E overrideTime db in
  let without := loop E post before in
  success (fst r) = true
  /\ snd r = st_db without
  /\ succeeded (fst r) = st_succeeded without
  /\ skipped (fst r) = st_skipped without
  /\ failed (fst r) = S (st_failed without)
  /\ processed (fst r) = S (st_processed without)
  /\ exists later,
       st_errors without = st_errors before ++ later
       /\ errors (fst r) = st_errors before ++ line :: later.
Proof.
  intros Ha Hq Hsnap before Hstep r without. unfold r.
  rewrite executeAutoOrders_loop; try assumption.
  2: { rewrite Hsnap. intros Hnil. symmetry in Hnil.
       exact (app_cons_not_nil _ _ _ Hnil). }
  cbv zeta. cbn [fst snd success succeeded skipped failed processed errors].
  rewrite Hsnap, loop_app, loop_cons. fold before. rewrite Hstep.
  destruct (loop_frame E post (st_db before)) as (db2 & p & s & f & k & es & Hframe).
  unfold without.
  rewrite (Hframe before eq_refl), (Hframe (fail _ _ (markProcessed before)) eq_refl).
  cbn. repeat split; try lia.
  exists es. split; [reflexivity|]. rewrite <- app_assoc. reflexivity.
Qed.

(** A run whose snapshot holds a candidate whose iteration succeeds: what
    that commit appended stays, and the candidate is counted. *)
Lemma run_with_success E overrideTime db pre autoOrderId autoOrder post db' :
  adminDb_fault E = None -> query_fault E = None ->
  query (queryTimeOf E overrideTime) db = pre ++ (autoOrderId, autoOrder) :: post ->
  let before := loop E pre (initial db) in
  processCandidate E before (autoOrderId, autoOrder)
  = succeed db' (markProcessed before) ->
  let r := executeAutoOrders E overrideTime db in
  success (fst r) = true
  /\ exists later,
       orders (snd r) = orders db' ++ later
       /\ succeeded (fst r) = S (st_succeeded before + length later).
Proof.
  intros Ha Hq Hsnap before Hstep r. unfold r.
  rewrite executeAutoOrders_loop; try assumption.
  2: { rewrite Hsnap. intros Hnil. symmetry in Hnil.
       exact (app_cons_not_nil _ _ _ Hnil). }
  cbv zeta. cbn [fst snd success succeeded]. split; [reflexivity|].
  rewrite Hsnap, loop_app, loop_cons. fold before. rewrite Hstep.
  destruct (loop_only_appends E post (succeed db' (markProcessed before)))
    as (_ & _ & _ & os & ws & ns & xs & Ho & _ & _ & _ & Hs & _).
  exists os. split; [exact Ho|]. rewrite Hs. reflexivity.
Qed.

(** C3. The run reports [success = false] only when the Admin SDK handle
    fails at startup or the candidate query rejects, and reports
    [success = true] otherwise, whatever the candidates did. A candidate
    of the snapshot whose transaction is rejected is caught in its own
    iteration and the store is as before it; the run returns the store,
    the successes and the skips of the run without that candidate, one
    more in [processed] and in [failed], and the errors of that run with
    one line inserted at the candidate's place, made of its identifier
    and the reason. For a failure thrown by the body the reason is one of
    user not found, menu item not found, item unavailable, insufficient
    stock, insufficient balance, or else the message of the path error
    that [doc] threw on the candidate's [userId] or [itemId]. *)
Theorem failures_are_contained :
  (forall E overrideTime db,
     success (fst (executeAutoOrders E overrideTime db)) = false ->
     adminDb_fault E <> None \/ query_fault E <> None)
  /\ (forall E overrideTime db,
        adminDb_fault E = None -> query_fault E = None ->
        success (fst (executeAutoOrders E overrideTime db)) = true)
  /\ (forall E overrideTime db pre post autoOrderId autoOrder err db',
        adminDb_fault E = None -> query_fault E = None ->
        query (queryTimeOf E overrideTime) db
        = pre ++ (autoOrderId, autoOrder) :: post ->
        shouldRun (ist_day (ist E)) autoOrder = true ->
        alreadyRan (ist_dateStr (ist E)) autoOrder = false ->
        let before := loop E pre (initial db) in
        let total := Js.times (ao_itemPrice autoOrder) (ao_quantity autoOrder) in
        runTransaction (commit_rejection E)
          (transactionBody E autoOrderId autoOrder total) (st_db before)
        = (inl err, db') ->
        let r := executeAutoOrders E overrideTime db in
        let without := loop E post before in
        db' = st_db before
        /\ success (fst r) = true
        /\ snd r = st_db without
        /\ succeeded (fst r) = st_succeeded without
        /\ skipped (fst r) = st_skipped without
        /\ failed (fst r) = S (st_failed without)
        /\ processed (fst r) = S (st_processed without)
        /\ (exists later,
              st_errors without = st_errors before ++ later
              /\ errors (fst r)
                 = st_errors before ++ errorLine autoOrderId err :: later)
        /\ (exists reason, errorLine autoOrderId err = autoOrderId +:+ ": " +:+ reason)
        /\ (forall ws,
              transactionBody E autoOrderId autoOrder total (st_db before) []
              = (inl err, ws) ->
              In (errorLine autoOrderId err)
                 [ autoOrderId +:+ ": user not found";
                   autoOrderId +:+ ": menu item not found";
                   autoOrderId +:+ ": item unavailable";
                   autoOrderId +:+ ": insufficient stock";
                   autoOrderId +:+ ": insufficient balance" ]
              \/ exists message,
                   (docPathError (ao_userId autoOrder) = Some message
                    \/ docPathError (ao_itemId autoOrder) = Some message)
                   /\ err = ErrorObj message
                   /\ errorLine autoOrderId err = autoOrderId +:+ ": " +:+ message))
  /\ (forall autoOrderId,
        errorLine autoOrderId (ErrorObj "USER_NOT_FOUND")
        = autoOrderId +:+ ": user not found"
        /\ errorLine autoOrderId (ErrorObj "ITEM_NOT_FOUND")
           = autoOrderId +:+ ": menu item not found"
        /\ errorLine autoOrderId (ErrorObj "ITEM_UNAVAILABLE")
           = autoOrderId +:+ ": item unavailable"
        /\ errorLine autoOrderId (ErrorObj "INSUFFICIENT_STOCK")
           = autoOrderId +:+ ": insufficient stock"
        /\ errorLine autoOrderId (ErrorObj "INSUFFICIENT_BALANCE")
           = autoOrderId +:+ ": insufficient balance").
Proof.
  split; [intros E overrideTime db; apply success_iff_no_fault|].
  split.
  { intros E overrideTime db Ha Hq.
    destruct (success (fst (executeAutoOrders E overrideTime db))) eqn:Hs;
      [reflexivity|].
    apply success_iff_no_fault in Hs as [Hs|Hs]; contradiction. }
  split; [|intros autoOrderId; repeat split; reflexivity].
  intros E overrideTime db pre post autoOrderId autoOrder err db' Ha Hq Hsnap Hd Hg
    before total Hrun r without.
  assert (db' = st_db before) as -> by (eapply runTransaction_reject; exact Hrun).
  split; [reflexivity|].
  assert (processCandidate E before (autoOrderId, autoOrder)
          = fail (st_db before) (errorLine autoOrderId err) (markProcessed before))
    as Hstep.
  { rewrite (processCandidate_attempt _ _ _ _ Hd Hg). fold total. rewrite Hrun.
    reflexivity. }
  destruct (run_with_failure E overrideTime db pre autoOrderId autoOrder post _
              Ha Hq Hsnap Hstep) as (H1 & H2 & H3 & H4 & H5 & H6 & H7).
  do 7 (split; [assumption|]).
  split; [apply errorLine_tagged|].
  intros ws Hbody. apply body_throws in Hbody as [Hin|(message & Hpath & ->)].
  - left. cbn in Hin. destruct Hin as [<-|[<-|[<-|[<-|[<-|[]]]]]]; cbn; tauto.
  - right. exists message. split; [exact Hpath|]. split; [reflexivity|].
    apply errorLine_unclassified.
    destruct Hpath as [Hm|Hm]; exact (docPathError_unclassified _ _ Hm).
Qed.

Lemma failures_are_contained_witness :
  let r := executeAutoOrders Cafe.env None Cafe.busy_shop in
  success (fst r) = true
  /\ failed (fst r)
     = S (st_failed (loop Cafe.env [("ao1", Cafe.daily_tea)] (initial Cafe.busy_shop)))
  /\ exists later,
       errors (fst r) = [] ++ "ao0: user not found" :: later.
Proof.
  destruct failures_are_contained as (_ & _ & Hrun & _).
  destruct (Hrun Cafe.env None Cafe.busy_shop [] [("ao1", Cafe.daily_tea)] "ao0"
              Cafe.orphan_tea (ErrorObj "USER_NOT_FOUND") Cafe.busy_shop
              eq_refl eq_refl ltac:(vm_compute; reflexivity)
              ltac:(vm_compute; reflexivity) ltac:(vm_compute; reflexivity)
              ltac:(vm_compute; reflexivity))
    as (_ & Hs & _ & _ & _ & Hf & _ & (later & _ & He) & _).
  cbv zeta. split; [exact Hs|]. split; [exact Hf|]. exists later. exact He.
Defined.

(** *** Missing fields *)

Lemma processCandidate_throw E st autoOrderId autoOrder err ws :
  shouldRun (ist_day (ist E)) autoOrder = true ->
  alreadyRan (ist_dateStr (ist E)) autoOrder = false ->
  transactionBody E autoOrderId autoOrder
    (Js.times (ao_itemPrice autoOrder) (ao_quantity autoOrder)) (st_db st) []
  = (inl err, ws) ->
  processCandidate E st (autoOrderId, autoOrder)
  = fail (st_db st) (errorLine autoOrderId err) (markProcessed st).
Proof.
  intros Hd Hg Hbody. rewrite (processCandidate_attempt _ _ _ _ Hd Hg).
  rewrite (runTransaction_throw _ _ _ _ _ Hbody). reflexivity.
Qed.

(** What the run records for each failing validation. *)
Lemma processCandidate_invalid E st autoOrderId autoOrder userData menuItemData :
  shouldRun (ist_day (ist E)) autoOrder = true ->
  alreadyRan (ist_dateStr (ist E)) autoOrder = false ->
  users (st_db st) !! ao_userId autoOrder = Some userData ->
  menuItems (st_db st) !! ao_itemId autoOrder = Some menuItemData ->
  let total := Js.times (ao_itemPrice autoOrder) (ao_quantity autoOrder) in
  let attempt := processCandidate E st (autoOrderId, autoOrder) in
  (mi_available menuItemData = Some false ->
   attempt = fail (st_db st) (autoOrderId +:+ ": item unavailable") (markProcessed st))
  /\ (mi_available menuItemData <> Some false ->
      nullish (mi_quantity menuItemData) 0 < ao_quantity autoOrder ->
      attempt = fail (st_db st) (autoOrderId +:+ ": insufficient stock") (markProcessed st))
  /\ (mi_available menuItemData <> Some false ->
      ao_quantity autoOrder <= nullish (mi_quantity menuItemData) 0 ->
      nullish (u_walletBalance userData) 0 < total ->
      attempt = fail (st_db st) (autoOrderId +:+ ": insufficient balance") (markProcessed st)).
Proof.
  intros Hd Hg Hu Hm total attempt. unfold attempt, total. repeat split.
  - intros Ha.
    rewrite (processCandidate_throw _ _ _ _ _ _ Hd Hg
               (body_item_unavailable _ _ _ _ _ _ _ Hu Hm Ha)).
    reflexivity.
  - intros Ha Hq.
    rewrite (processCandidate_throw _ _ _ _ _ _ Hd Hg
               (body_insufficient_stock _ _ _ _ _ _ _ Hu Hm Ha Hq)).
    reflexivity.
  - intros Ha Hq Hb.
    rewrite (processCandidate_throw _ _ _ _ _ _ Hd Hg
               (body_insufficient_balance _ _ _ _ _ _ _ Hu Hm Ha Hq Hb)).
    reflexivity.
Qed.

(** Whether [doc] makes a reference does not depend on what the documents
    of the collection hold. *)
Lemma doc_fmap {A B : Type} (f : A -> B) (collection : gmap string A) documentPath :
  doc (f <$> collection) documentPath = doc collection documentPath.
Proof.
  unfold doc. rewrite lookup_fmap.
  destruct (collection !! documentPath); reflexivity.
Qed.

(** The body reads a user document only through [walletBalance ?? 0] and
    the three contact fields, and a menu item only through
    [quantity ?? 0] and [available !== false]. *)
Lemma body_withDefaults E autoOrderId autoOrder total db :
  transactionBody E autoOrderId autoOrder total (withDefaults db) []
  = transactionBody E autoOrderId autoOrder total db [].
Proof.
  assert (forall p, doc (users (withDefaults db)) p = doc (users db) p) as Hdu
    by (intros p; apply doc_fmap).
  assert (forall p, doc (menuItems (withDefaults db)) p = doc (menuItems db) p) as Hdm
    by (intros p; apply doc_fmap).
  assert (forall k, users (withDefaults db) !! k = defaultedUser <$> users db !! k)
    as Hlu by (intros k; apply lookup_fmap).
  assert (forall k, menuItems (withDefaults db) !! k = defaultedItem <$> menuItems db !! k)
    as Hlm by (intros k; apply lookup_fmap).
  destruct (doc (users db) (ao_userId autoOrder)) as [e|userRef] eqn:Hd.
  { rewrite (body_user_rejected _ _ _ _ db e Hd).
    apply body_user_rejected. rewrite Hdu. exact Hd. }
  specialize (Hlu userRef).
  destruct (users db !! userRef) as [userData|] eqn:Hu.
  2: { rewrite (body_user_missing _ _ _ _ db userRef Hd Hu).
       apply (body_user_missing _ _ _ _ _ userRef); [rewrite Hdu; exact Hd|exact Hlu]. }
  specialize (Hdu (ao_userId autoOrder)). rewrite Hd in Hdu.
  destruct (doc (menuItems db) (ao_itemId autoOrder)) as [e|menuItemRef] eqn:Hi.
  { rewrite (body_item_rejected _ _ _ _ db _ _ e Hd Hu Hi).
    apply (body_item_rejected _ _ _ _ _ _ _ e Hdu Hlu). rewrite Hdm. exact Hi. }
  specialize (Hlm menuItemRef). specialize (Hdm (ao_itemId autoOrder)).
  rewrite Hi in Hdm.
  destruct (menuItems db !! menuItemRef) as [menuItemData|] eqn:Hm.
  2: { rewrite (body_item_missing_at _ _ _ _ db _ _ _ Hd Hu Hi Hm).
       exact (body_item_missing_at _ _ _ _ _ _ _ _ Hdu Hlu Hdm Hlm). }
  cbn [fmap option_fmap option_map] in Hlu, Hlm.
  destruct (decide (mi_available menuItemData = Some false)) as [Ha|Ha].
  { rewrite (body_item_unavailable_at _ _ _ _ db _ _ _ _ Hd Hu Hi Hm Ha).
    apply (body_item_unavailable_at _ _ _ _ _ _ _ _ _ Hdu Hlu Hdm Hlm).
    cbn. rewrite Ha. reflexivity. }
  assert (mi_available (defaultedItem menuItemData) <> Some false) as Ha'.
  { cbn. destruct (mi_available menuItemData) as [[]|]; cbn; congruence. }
  destruct (Z_lt_le_dec (nullish (mi_quantity menuItemData) 0) (ao_quantity autoOrder))
    as [Hq|Hq].
  { rewrite (body_insufficient_stock_at _ _ _ _ db _ _ _ _ Hd Hu Hi Hm Ha Hq).
    exact (body_insufficient_stock_at _ _ _ _ _ _ _ _ _ Hdu Hlu Hdm Hlm Ha' Hq). }
  destruct (Z_lt_le_dec (nullish (u_walletBalance userData) 0) total) as [Hb|Hb].
  { rewrite (body_insufficient_balance_at _ _ _ _ db _ _ _ _ Hd Hu Hi Hm Ha Hq Hb).
    exact (body_insufficient_balance_at _ _ _ _ _ _ _ _ _ Hdu Hlu Hdm Hlm Ha' Hq Hb). }
  rewrite (body_valid_at _ _ _ _ db _ _ _ _ Hd Hu Hi Hm Ha Hq Hb).
  exact (body_valid_at _ _ _ _ _ _ _ _ _ Hdu Hlu Hdm Hlm Ha' Hq Hb).
Qed.

Lemma apply_write_withDefaults w db :
  apply_write w (withDefaults db) = withDefaults <$> apply_write w db.
Proof.
  destruct w as [id q a t|id k|ref d|ref d|ref d|ref d|id p]; cbn [apply_write];
    try reflexivity.
  - cbn [withDefaults menuItems]. rewrite lookup_fmap.
    destruct (menuItems db !! id) as [d|]; [|reflexivity].
    cbn [fmap option_fmap option_map]. f_equal.
    unfold withDefaults, with_menuItems.
    cbn [users menuItems autoOrders orders walletTransactions notifications
           autoOrderExecutions].
    rewrite fmap_insert. f_equal. f_equal.
    unfold patch_menuItem, defaultedItem. cbn. destruct a; reflexivity.
  - cbn [withDefaults users]. rewrite lookup_fmap.
    destruct (users db !! id) as [d|]; [|reflexivity].
    cbn [fmap option_fmap option_map]. f_equal.
    unfold withDefaults, with_users.
    cbn [users menuItems autoOrders orders walletTransactions notifications
           autoOrderExecutions].
    rewrite fmap_insert. reflexivity.
  - cbn [withDefaults autoOrders].
    destruct (autoOrders db !! id) as [d|]; reflexivity.
Qed.

Lemma commit_withDefaults ws :
  forall db, commit ws (withDefaults db) = withDefaults <$> commit ws db.
Proof.
  induction ws as [|w ws IH]; intros db; [reflexivity|].
  cbn [commit]. rewrite apply_write_withDefaults.
  destruct (apply_write w db) as [db'|]; [|reflexivity].
  cbn [fmap option_fmap option_map]. apply IH.
Qed.

Lemma processCandidate_withDefaults E st c :
  processCandidate E (overDefaults st) c = overDefaults (processCandidate E st c).
Proof.
  destruct c as [autoOrderId autoOrder]. unfold processCandidate. cbn [fst snd].
  destruct (shouldRun (ist_day (ist E)) autoOrder); cbn [negb]; [|reflexivity].
  destruct (alreadyRan (ist_dateStr (ist E)) autoOrder); [reflexivity|].
  cbv zeta. unfold runTransaction.
  change (st_db (markProcessed (overDefaults st))) with (withDefaults (st_db st)).
  change (st_db (markProcessed st)) with (st_db st).
  rewrite body_withDefaults.
  destruct (transactionBody E autoOrderId autoOrder
              (Js.times (ao_itemPrice autoOrder) (ao_quantity autoOrder)) (st_db st) [])
    as [[e|[]] ws]; [reflexivity|].
  rewrite commit_withDefaults.
  destruct (commit ws (st_db st)) as [db'|]; reflexivity.
Qed.

Lemma loop_withDefaults E docs :
  forall st, loop E docs (overDefaults st) = overDefaults (loop E docs st).
Proof.
  induction docs as [|c docs IH]; intros st; [reflexivity|].
  rewrite !loop_cons, processCandidate_withDefaults. apply IH.
Qed.

(** The run on the store with the defaults written out. *)
Lemma executeAutoOrders_withDefaults E overrideTime db :
  executeAutoOrders E overrideTime (withDefaults db)
  = (fst (executeAutoOrders E overrideTime db),
     withDefaults (snd (executeAutoOrders E overrideTime db))).
Proof.
  unfold executeAutoOrders.
  destruct (adminDb_fault E); [reflexivity|].
  destruct (query_fault E); [reflexivity|].
  change (query (queryTimeOf E overrideTime) (withDefaults db))
    with (query (queryTimeOf E overrideTime) db).
  destruct (query (queryTimeOf E overrideTime) db) as [|c docs]; [reflexivity|].
  change (initial (withDefaults db)) with (overDefaults (initial db)).
  rewrite loop_withDefaults. reflexivity.
Qed.

(** C10, as stated, fails: an account without [walletBalance] and an
    order of positive total, yet the run does not report insufficient
    balance, the item being marked unavailable. *)
Lemma missing_fields_default_counterexample :
  let r := executeAutoOrders Cafe.env None Cafe.withdrawn in
  u_walletBalance <$> users Cafe.withdrawn !! ao_userId Cafe.daily_tea = Some None
  /\ 0 < ao_itemPrice Cafe.daily_tea * ao_quantity Cafe.daily_tea
  /\ failed (fst r) = 1%nat
  /\ errors (fst r) = ["ao1: item unavailable"]
  /\ errors (fst r) <> ["ao1: insufficient balance"].
Proof.
  cbv zeta. split; [reflexivity|]. split; [reflexivity|].
  split; [vm_compute; reflexivity|]. split; [vm_compute; reflexivity|].
  vm_compute. discriminate.
Qed.

(** C10. At the entry point, missing fields take lenient defaults. A run
    returns the same summary, and leaves the same store up to the
    defaults, whether or not every missing [walletBalance] is written out
    as 0, every missing [quantity] as 0 and every missing [available] as
    true. For a due, unguarded candidate of the snapshot whose user and
    menu item exist when its turn comes: without [walletBalance], a
    positive total makes the run report insufficient balance for it,
    provided that the item is not marked unavailable and the stock covers
    the quantity; without [quantity], a positive quantity makes the run
    report insufficient stock, provided that the item is not marked
    unavailable; an item marked unavailable makes it report item
    unavailable, whatever the other fields; and an item without
    [available] does not block: with stock and balance that suffice the
    run places the order. *)
Theorem missing_fields_default :
  (forall E overrideTime db,
     executeAutoOrders E overrideTime (withDefaults db)
     = (fst (executeAutoOrders E overrideTime db),
        withDefaults (snd (executeAutoOrders E overrideTime db))))
  /\ (forall E overrideTime db pre post autoOrderId autoOrder userData menuItemData,
        adminDb_fault E = None -> query_fault E = None ->
        query (queryTimeOf E overrideTime) db
        = pre ++ (autoOrderId, autoOrder) :: post ->
        shouldRun (ist_day (ist E)) autoOrder = true ->
        alreadyRan (ist_dateStr (ist E)) autoOrder = false ->
        let before := loop E pre (initial db) in
        users (st_db before) !! ao_userId autoOrder = Some userData ->
        menuItems (st_db before) !! ao_itemId autoOrder = Some menuItemData ->
        let r := executeAutoOrders E overrideTime db in
        let total := Js.times (ao_itemPrice autoOrder) (ao_quantity autoOrder) in
        let reports line :=
          exists later, errors (fst r) = st_errors before ++ line :: later in
        (u_walletBalance userData = None ->
         0 < total ->
         mi_available menuItemData <> Some false ->
         ao_quantity autoOrder <= nullish (mi_quantity menuItemData) 0 ->
         reports (autoOrderId +:+ ": insufficient balance"))
        /\ (mi_quantity menuItemData = None ->
            0 < ao_quantity autoOrder ->
            mi_available menuItemData <> Some false ->
            reports (autoOrderId +:+ ": insufficient stock"))
        /\ (mi_available menuItemData = Some false ->
            reports (autoOrderId +:+ ": item unavailable"))
        /\ (mi_available menuItemData = None ->
            ao_quantity autoOrder <= nullish (mi_quantity menuItemData) 0 ->
            total <= nullish (u_walletBalance userData) 0 ->
            exists later,
              orders (snd r)
              = orders (st_db before)
                  ++ (orderRef (fresh E autoOrderId),
                      newOrder E autoOrderId autoOrder userData
                        (generateOrderId (fresh E autoOrderId)) total) :: later
              /\ succeeded (fst r) = S (st_succeeded before + length later))).
Proof.
  split; [exact executeAutoOrders_withDefaults|].
  intros E overrideTime db pre post autoOrderId autoOrder userData menuItemData
    Ha Hq Hsnap Hd Hg before Hu Hm r total reports.
  destruct (processCandidate_invalid E before autoOrderId autoOrder userData
              menuItemData Hd Hg Hu Hm) as (Hunavailable & Hstock & Hbalance).
  fold total in Hbalance.
  assert (forall line,
            processCandidate E before (autoOrderId, autoOrder)
            = fail (st_db before) line (markProcessed before) ->
            reports line) as Hreport.
  { intros line Hstep.
    destruct (run_with_failure E overrideTime db pre autoOrderId autoOrder post line
                Ha Hq Hsnap Hstep) as (_ & _ & _ & _ & _ & _ & later & _ & He).
    exists later. exact He. }
  split; [|split; [|split]].
  - intros Hnone Hpos Hav Hcover. apply Hreport, Hbalance; try assumption.
    rewrite Hnone. exact Hpos.
  - intros Hnone Hpos Hav. apply Hreport, Hstock; try assumption.
    rewrite Hnone. exact Hpos.
  - intros Hav. apply Hreport, Hunavailable, Hav.
  - intros Hnone Hcover Hfunds.
    pose proof (snapshot_document_kept E _ _ _ _ _ _ Hsnap) as Ht. fold before in Ht.
    assert (processCandidate E before (autoOrderId, autoOrder)
            = succeed
                (committed E autoOrderId autoOrder total userData menuItemData
                   autoOrder (st_db before))
                (markProcessed before)) as Hstep.
    { rewrite (processCandidate_attempt _ _ _ _ Hd Hg). fold total.
      unfold committed.
      rewrite (runTransaction_valid E autoOrderId autoOrder total (st_db before)
                 _ _ userData menuItemData autoOrder
                 (doc_found _ _ _ Hu) Hu (doc_found _ _ _ Hm) Hm Ht);
        [reflexivity| |exact Hcover|exact Hfunds].
      rewrite Hnone. discriminate. }
    destruct (run_with_success E overrideTime db pre autoOrderId autoOrder post _
                Ha Hq Hsnap Hstep) as (_ & later & Ho & Hs).
    exists later. split; [|exact Hs].
    fold r in Ho. rewrite Ho. unfold committed, committedAt. cbn [orders].
    rewrite <- app_assoc. reflexivity.
Qed.

Lemma missing_fields_default_witness :
  exists later,
    errors (fst (executeAutoOrders Cafe.env None Cafe.unfilled))
    = [] ++ "ao1: insufficient stock" :: later.
Proof.
  destruct missing_fields_default as (_ & Hrun).
  destruct (Hrun Cafe.env None Cafe.unfilled [] [] "ao1" Cafe.daily_tea
              (Cafe.account None) (Cafe.item None None)
              eq_refl eq_refl ltac:(vm_compute; reflexivity)
              ltac:(vm_compute; reflexivity) ltac:(vm_compute; reflexivity)
              ltac:(vm_compute; reflexivity) ltac:(vm_compute; reflexivity))
    as (_ & Hstock & _).
  apply Hstock; [reflexivity|reflexivity|discriminate].
Defined.

(** *** The scenarios of the specification, run *)

(** One daily order at 09:00 with enough stock and balance. *)
Example scenario_sufficient :
  let run := executeAutoOrders Cafe.env None Cafe.open_shop in
  (succeeded (fst run), failed (fst run), skipped (fst run)) = (1%nat, 0%nat, 0%nat)
  /\ mi_quantity <$> menuItems (snd run) !! "tea" = Some (Some 8)
  /\ u_walletBalance <$> users (snd run) !! "asha" = Some (Some 420)
  /\ length (orders (snd run)) = 1%nat.
Proof. vm_compute. repeat split; reflexivity. Qed.

(** The item is out of stock. *)
Example scenario_sold_out :
  executeAutoOrders Cafe.env None Cafe.sold_out
  = ({| success := true;
        time := "09:00";
        day := Mon;
        date := "2024-01-01";
        candidates := 1;
        skipped := 0;
        processed := 1;
        succeeded := 0;
        failed := 1;
        errors := ["ao1: insufficient stock"];
        message := None |}, Cafe.sold_out).
Proof. vm_compute. reflexivity. Qed.

(** A custom order for Mondays, run on a Tuesday. *)
Example scenario_custom_other_day :
  let standing := Cafe.shop (Some (Cafe.account (Some 500)))
                    (Some (Cafe.item (Some 10) (Some true)))
                    {[ "ao1" := Cafe.tea (JStr "custom") (JArr [JStr "Mon"]) ]} in
  let run := executeAutoOrders Cafe.tuesday None standing in
  (skipped (fst run), processed (fst run)) = (1%nat, 0%nat) /\ snd run = standing.
Proof. vm_compute. split; reflexivity. Qed.

(** The served order is skipped later that Monday and served again on
    Tuesday. *)
Example scenario_next_day :
  let monday := snd (executeAutoOrders Cafe.env None Cafe.open_shop) in
  skipped (fst (executeAutoOrders Cafe.env None monday)) = 1%nat
  /\ succeeded (fst (executeAutoOrders Cafe.tuesday None monday)) = 1%nat.
Proof. vm_compute. split; reflexivity. Qed.

(** A failed attempt leaves no trace, so the same run fails the same way
    again. *)
Example scenario_failure_repeats :
  let again := executeAutoOrders Cafe.env None
                 (snd (executeAutoOrders Cafe.env None Cafe.sold_out)) in
  (failed (fst again), skipped (fst again)) = (1%nat, 0%nat)
  /\ autoOrderExecutions (snd again) = [].
Proof. vm_compute. split; reflexivity. Qed.

(** * Further properties *)

(** ** The clock *)

Lemma WeekDay_range t : 0 <= WeekDay t < 7.
Proof. unfold WeekDay. apply Z.mod_pos_bound. lia. Qed.

Lemma DAY_MAP_defined n : 0 <= n < 7 -> exists d, DAY_MAP n = Some d.
Proof.
  intros Hn.
  assert (n = 0 \/ n = 1 \/ n = 2 \/ n = 3 \/ n = 4 \/ n = 5 \/ n = 6) as Hc by lia.
  destruct Hc as [->|[->|[->|[->|[->|[->| ->]]]]]]; cbn; eauto.
Qed.

Lemma DAY_MAP_next n d :
  0 <= n < 7 -> DAY_MAP n = Some d -> DAY_MAP ((n + 1) mod 7) = Some (tomorrow d).
Proof.
  intros Hn.
  assert (n = 0 \/ n = 1 \/ n = 2 \/ n = 3 \/ n = 4 \/ n = 5 \/ n = 6) as Hc by lia.
  destruct Hc as [->|[->|[->|[->|[->|[->| ->]]]]]]; cbn; intros [= <-]; reflexivity.
Qed.

Lemma Day_next t : Day (t + msPerDay) = Day t + 1.
Proof. unfold Day, msPerDay. Z.to_euclidean_division_equations; lia. Qed.

Lemma WeekDay_next t : WeekDay (t + msPerDay) = (WeekDay t + 1) mod 7.
Proof. unfold WeekDay. rewrite Day_next. Z.to_euclidean_division_equations; lia. Qed.

Lemma HourFromTime_next t : HourFromTime (t + msPerDay) = HourFromTime t.
Proof. unfold HourFromTime, msPerDay, msPerHour. Z.to_euclidean_division_equations; lia. Qed.

Lemma MinFromTime_next t : MinFromTime (t + msPerDay) = MinFromTime t.
Proof. unfold MinFromTime, msPerDay, msPerMinute. Z.to_euclidean_division_equations; lia. Qed.

Lemma year_window d :
  DayFromYear (1970 + (400 * d) / 146097 - 1) <= d
  /\ d < DayFromYear (1970 + (400 * d) / 146097 + 2).
Proof. unfold DayFromYear. Z.to_euclidean_division_equations; lia. Qed.

Lemma YearFromTime_spec t :
  DayFromYear (YearFromTime t) <= Day t < DayFromYear (YearFromTime t + 1).
Proof.
  unfold YearFromTime. cbv zeta. destruct (year_window (Day t)) as [Hlo Hhi].
  destruct (DayFromYear (1970 + 400 * Day t / 146097 + 1) <=? Day t) eqn:H1.
  - apply Z.leb_le in H1. split; [exact H1|].
    replace (1970 + 400 * Day t / 146097 + 1 + 1) with (1970 + 400 * Day t / 146097 + 2) by lia.
    exact Hhi.
  - apply Z.leb_gt in H1.
    destruct (DayFromYear (1970 + 400 * Day t / 146097) <=? Day t) eqn:H2.
    + apply Z.leb_le in H2. split; assumption.
    + apply Z.leb_gt in H2. split; [exact Hlo|].
      replace (1970 + 400 * Day t / 146097 - 1 + 1) with (1970 + 400 * Day t / 146097) by lia.
      exact H2.
Qed.

Lemma DayFromYear_succ y : DayFromYear (y + 1) = DayFromYear y + DaysInYear y.
Proof.
  unfold DayFromYear, DaysInYear.
  destruct (y mod 4 =? 0) eqn:H4; destruct (y mod 100 =? 0) eqn:H100;
    destruct (y mod 400 =? 0) eqn:H400; cbn;
    rewrite ?Z.eqb_eq, ?Z.eqb_neq in *;
    Z.to_euclidean_division_equations; lia.
Qed.

Lemma InLeapYear_days t : DaysInYear (YearFromTime t) = 365 + InLeapYear t.
Proof.
  unfold InLeapYear, DaysInYear.
  destruct (negb (YearFromTime t mod 4 =? 0)); [reflexivity|].
  destruct (negb (YearFromTime t mod 100 =? 0)); [reflexivity|].
  destruct (negb (YearFromTime t mod 400 =? 0)); reflexivity.
Qed.

Lemma InLeapYear_range t : InLeapYear t = 0 \/ InLeapYear t = 1.
Proof. unfold InLeapYear. destruct (_ =? _); auto. Qed.

Lemma DayWithinYear_range t : 0 <= DayWithinYear t < 365 + InLeapYear t.
Proof.
  unfold DayWithinYear. pose proof (YearFromTime_spec t) as H.
  rewrite DayFromYear_succ, InLeapYear_days in H. lia.
Qed.

Lemma MonthFromTime_range t : 0 <= MonthFromTime t <= 11.
Proof. unfold MonthFromTime. cbv zeta. split_ifs; lia. Qed.

Lemma DateFromTime_range t : 1 <= DateFromTime t <= 31.
Proof.
  pose proof (DayWithinYear_range t) as Hd. pose proof (InLeapYear_range t) as Hl.
  unfold DateFromTime, MonthFromTime. cbv zeta. split_ifs; cbn; lia.
Qed.

(** Year, month and date together fix the day number. *)
Lemma civil_inj t t' :
  YearFromTime t = YearFromTime t' ->
  MonthFromTime t = MonthFromTime t' ->
  DateFromTime t = DateFromTime t' ->
  Day t = Day t'.
Proof.
  intros Hy Hm Hd.
  assert (InLeapYear t = InLeapYear t') as Hl by (unfold InLeapYear; rewrite Hy; reflexivity).
  assert (DayWithinYear t = DayWithinYear t') as Hw.
  { pose proof (DayWithinYear_range t) as Hr. pose proof (DayWithinYear_range t') as Hr'.
    pose proof (InLeapYear_range t) as Hc.
    unfold DateFromTime in Hd. rewrite <- Hm in Hd. rewrite <- Hl in Hd, Hr'.
    clear Hm. revert Hd. unfold MonthFromTime. cbv zeta.
    generalize (DayWithinYear t') (DayWithinYear t) (InLeapYear t) Hr Hr' Hc.
    clear. intros d' d l Hr Hr' Hc. split_ifs; cbn; lia. }
  unfold DayWithinYear in Hw. rewrite Hy in Hw. lia.
Qed.

Lemma YearFromTime_Day t t' : Day t = Day t' -> YearFromTime t = YearFromTime t'.
Proof. intros H. unfold YearFromTime. rewrite H. reflexivity. Qed.

Lemma MonthFromTime_Day t t' : Day t = Day t' -> MonthFromTime t = MonthFromTime t'.
Proof.
  intros H. unfold MonthFromTime, DayWithinYear, InLeapYear.
  rewrite (YearFromTime_Day _ _ H), H. reflexivity.
Qed.

Lemma DateFromTime_Day t t' : Day t = Day t' -> DateFromTime t = DateFromTime t'.
Proof.
  intros H. unfold DateFromTime. rewrite (MonthFromTime_Day _ _ H).
  unfold DayWithinYear, InLeapYear. rewrite (YearFromTime_Day _ _ H), H. reflexivity.
Qed.

(** Two-digit fields. *)
Lemma pad2_table :
  forallb (fun i =>
    Nat.eqb (String.length (padStart 2 "0" (toString (Z.of_nat i)))) 2
    && forallb (fun j =>
         implb (String.eqb (padStart 2 "0" (toString (Z.of_nat i)))
                           (padStart 2 "0" (toString (Z.of_nat j))))
               (Nat.eqb i j))
         (seq 0 100))
    (seq 0 100) = true.
Proof. vm_compute. reflexivity. Qed.

Lemma pad2_length n :
  0 <= n < 100 -> String.length (padStart 2 "0" (toString n)) = 2%nat.
Proof.
  intros Hn. pose proof pad2_table as H. rewrite forallb_forall in H.
  specialize (H (Z.to_nat n)). rewrite Z2Nat.id in H by lia.
  destruct (proj1 (andb_true_iff _ _) (H ltac:(apply in_seq; lia))) as [Hlen _].
  apply Nat.eqb_eq in Hlen. exact Hlen.
Qed.

Lemma pad2_inj n m :
  0 <= n < 100 -> 0 <= m < 100 ->
  padStart 2 "0" (toString n) = padStart 2 "0" (toString m) -> n = m.
Proof.
  intros Hn Hm Heq. pose proof pad2_table as H. rewrite forallb_forall in H.
  specialize (H (Z.to_nat n)). rewrite Z2Nat.id in H by lia.
  destruct (proj1 (andb_true_iff _ _) (H ltac:(apply in_seq; lia))) as [_ Hall].
  rewrite forallb_forall in Hall.
  pose proof (Hall (Z.to_nat m) ltac:(apply in_seq; lia)) as Hi.
  rewrite Z2Nat.id in Hi by lia. rewrite Heq, String.eqb_refl in Hi.
  cbn [implb] in Hi. apply Nat.eqb_eq in Hi. lia.
Qed.

(** Splitting an equation between concatenations. *)
Lemma append_prefix_inj a a' b b' :
  String.length a = String.length a' ->
  a +:+ b = a' +:+ b' -> a = a' /\ b = b'.
Proof.
  revert a'. induction a as [|c a IH]; intros [|c' a'] Hlen Heq;
    try discriminate Hlen.
  - split; [reflexivity|exact Heq].
  - cbn in Heq. injection Heq as <- Heq. injection Hlen as Hlen.
    destruct (IH a' Hlen Heq) as [-> ->]. split; reflexivity.
Qed.

Lemma length_append a b :
  String.length (a +:+ b) = (String.length a + String.length b)%nat.
Proof.
  induction a as [|c a IH]; [reflexivity|].
  change (String c a +:+ b) with (String c (a +:+ b)).
  cbn [String.length Nat.add]. f_equal. exact IH.
Qed.

Lemma append_suffix_inj a a' b b' :
  String.length b = String.length b' ->
  a +:+ b = a' +:+ b' -> a = a' /\ b = b'.
Proof.
  intros Hlen Heq. apply append_prefix_inj; [|exact Heq].
  apply (f_equal String.length) in Heq.
  rewrite !length_append in Heq. lia.
Qed.


Lemma minute_of_day x :
  HourFromTime x = ((x / msPerMinute) mod 1440) / 60
  /\ MinFromTime x = ((x / msPerMinute) mod 1440) mod 60.
Proof.
  unfold HourFromTime, MinFromTime, msPerHour, msPerMinute.
  Z.to_euclidean_division_equations; lia.
Qed.

Lemma HourFromTime_range t : 0 <= HourFromTime t < 24.
Proof. unfold HourFromTime. apply Z.mod_pos_bound. lia. Qed.

Lemma MinFromTime_range t : 0 <= MinFromTime t < 60.
Proof. unfold MinFromTime. apply Z.mod_pos_bound. lia. Qed.

Lemma getIST_total t :
  validTime (t + IST_OFFSET_MS) = true ->
  exists day,
    DAY_MAP (WeekDay (t + IST_OFFSET_MS)) = Some day
    /\ getIST t
       = Some {| ist_time :=
                   padStart 2 "0" (toString (HourFromTime (t + IST_OFFSET_MS)))
                     +:+ ":" +:+
                     padStart 2 "0" (toString (MinFromTime (t + IST_OFFSET_MS)));
                 ist_day := day;
                 ist_dateStr :=
                   toString (YearFromTime (t + IST_OFFSET_MS)) +:+ "-" +:+
                     padStart 2 "0" (toString (MonthFromTime (t + IST_OFFSET_MS) + 1))
                     +:+ "-" +:+
                     padStart 2 "0" (toString (DateFromTime (t + IST_OFFSET_MS))) |}.
Proof.
  intros Hv.
  destruct (DAY_MAP_defined _ (WeekDay_range (t + IST_OFFSET_MS))) as [day Hday].
  exists day. split; [exact Hday|]. unfold getIST. cbv zeta.
  rewrite Hv, Hday. reflexivity.
Qed.

Lemma getIST_invalid t : validTime (t + IST_OFFSET_MS) = false -> getIST t = None.
Proof. intros Hv. unfold getIST. cbv zeta. rewrite Hv. reflexivity. Qed.

Lemma validTime_range v : validTime v = true <-> - maxTime <= v <= maxTime.
Proof. unfold validTime. rewrite andb_true_iff, !Z.leb_le. reflexivity. Qed.

Lemma time_key_inj x x' :
  padStart 2 "0" (toString (HourFromTime x)) +:+ ":" +:+
    padStart 2 "0" (toString (MinFromTime x))
  = padStart 2 "0" (toString (HourFromTime x')) +:+ ":" +:+
      padStart 2 "0" (toString (MinFromTime x')) ->
  HourFromTime x = HourFromTime x' /\ MinFromTime x = MinFromTime x'.
Proof.
  intros Heq.
  pose proof (HourFromTime_range x). pose proof (HourFromTime_range x').
  pose proof (MinFromTime_range x). pose proof (MinFromTime_range x').
  apply append_prefix_inj in Heq as [Hh Hm].
  2: { rewrite !pad2_length by lia. reflexivity. }
  apply append_prefix_inj in Hm as [_ Hm]; [|reflexivity].
  split; apply pad2_inj; try lia; assumption.
Qed.

Lemma date_key_inj x x' :
  toString (YearFromTime x) +:+ "-" +:+
    padStart 2 "0" (toString (MonthFromTime x + 1)) +:+ "-" +:+
    padStart 2 "0" (toString (DateFromTime x))
  = toString (YearFromTime x') +:+ "-" +:+
      padStart 2 "0" (toString (MonthFromTime x' + 1)) +:+ "-" +:+
      padStart 2 "0" (toString (DateFromTime x')) ->
  Day x = Day x'.
Proof.
  intros Heq.
  pose proof (MonthFromTime_range x). pose proof (MonthFromTime_range x').
  pose proof (DateFromTime_range x). pose proof (DateFromTime_range x').
  apply append_suffix_inj in Heq as [Hy Hrest].
  2: { rewrite !length_append.
       rewrite (pad2_length (MonthFromTime x + 1)) by lia.
       rewrite (pad2_length (MonthFromTime x' + 1)) by lia.
       rewrite (pad2_length (DateFromTime x)) by lia.
       rewrite (pad2_length (DateFromTime x')) by lia. reflexivity. }
  apply (inj pretty) in Hy.
  apply append_prefix_inj in Hrest as [_ Hrest]; [|reflexivity].
  apply append_prefix_inj in Hrest as [Hm Hd].
  2: { rewrite !pad2_length by lia. reflexivity. }
  apply append_prefix_inj in Hd as [_ Hd]; [|reflexivity].
  apply pad2_inj in Hm; [|lia|lia]. apply pad2_inj in Hd; [|lia|lia].
  apply civil_inj; [exact Hy | lia | exact Hd].
Qed.

Lemma getIST_time t :
  validTime (t + IST_OFFSET_MS) = true ->
  ist_time <$> getIST t
  = Some (padStart 2 "0" (toString (HourFromTime (t + IST_OFFSET_MS))) +:+ ":" +:+
          padStart 2 "0" (toString (MinFromTime (t + IST_OFFSET_MS)))).
Proof. intros Hv. destruct (getIST_total t Hv) as (day & _ & ->). reflexivity. Qed.

Lemma getIST_dateStr t :
  validTime (t + IST_OFFSET_MS) = true ->
  ist_dateStr <$> getIST t
  = Some (toString (YearFromTime (t + IST_OFFSET_MS)) +:+ "-" +:+
          padStart 2 "0" (toString (MonthFromTime (t + IST_OFFSET_MS) + 1)) +:+ "-" +:+
          padStart 2 "0" (toString (DateFromTime (t + IST_OFFSET_MS)))).
Proof. intros Hv. destruct (getIST_total t Hv) as (day & _ & ->). reflexivity. Qed.

Lemma getIST_day t :
  validTime (t + IST_OFFSET_MS) = true ->
  ist_day <$> getIST t = DAY_MAP (WeekDay (t + IST_OFFSET_MS)).
Proof. intros Hv. destruct (getIST_total t Hv) as (day & -> & ->). reflexivity. Qed.

Lemma getIST_date_iff t t' :
  validTime (t + IST_OFFSET_MS) = true ->
  validTime (t' + IST_OFFSET_MS) = true ->
  ist_dateStr <$> getIST t = ist_dateStr <$> getIST t'
  <-> Day (t + IST_OFFSET_MS) = Day (t' + IST_OFFSET_MS).
Proof.
  intros Hv Hv'. rewrite !getIST_dateStr by assumption. split.
  - intros [= Heq]. apply date_key_inj. exact Heq.
  - intros Heq.
    rewrite (YearFromTime_Day _ _ Heq), (MonthFromTime_Day _ _ Heq),
      (DateFromTime_Day _ _ Heq). reflexivity.
Qed.

(** X1. [getIST] yields a reading, its [day] defined, exactly for the
    instants whose shifted time is within the range of a [Date]; and the
    reading taken 24 hours later has the same time, the next day of the
    week and another date string. *)
Theorem getIST_a_day_later t :
  (is_Some (getIST t) <-> validTime (t + IST_OFFSET_MS) = true)
  /\ (validTime (t + IST_OFFSET_MS) = true ->
      validTime (t + msPerDay + IST_OFFSET_MS) = true ->
      exists i j,
        getIST t = Some i
        /\ getIST (t + msPerDay) = Some j
        /\ ist_time j = ist_time i
        /\ ist_day j = tomorrow (ist_day i)
        /\ ist_dateStr j <> ist_dateStr i).
Proof.
  split.
  - destruct (validTime (t + IST_OFFSET_MS)) eqn:Hv.
    + destruct (getIST_total t Hv) as (day & _ & ->). split; eauto.
    + rewrite (getIST_invalid t Hv). split; [intros [i [=]]|discriminate].
  - intros Hv Hv'.
    destruct (getIST_total t Hv) as (day & Hday & Hi).
    destruct (getIST_total (t + msPerDay) Hv') as (day' & Hday' & Hj).
    eexists _, _. split; [exact Hi|]. split; [exact Hj|].
    replace (t + msPerDay + IST_OFFSET_MS) with (t + IST_OFFSET_MS + msPerDay) in *
      by lia.
    cbn [ist_time ist_day ist_dateStr]. split; [|split].
    + rewrite HourFromTime_next, MinFromTime_next. reflexivity.
    + rewrite WeekDay_next in Hday'.
      rewrite (DAY_MAP_next _ _ (WeekDay_range _) Hday) in Hday'. congruence.
    + intros Heq. apply date_key_inj in Heq. rewrite Day_next in Heq. lia.
Qed.

Lemma getIST_a_day_later_witness :
  exists i j,
    getIST 1704079800000 = Some i
    /\ getIST (1704079800000 + msPerDay) = Some j
    /\ ist_time j = ist_time i
    /\ ist_day j = tomorrow (ist_day i)
    /\ ist_dateStr j <> ist_dateStr i.
Proof.
  apply (proj2 (getIST_a_day_later 1704079800000)); vm_compute; reflexivity.
Defined.

(** X2. The time of a reading is five characters long; two readings have
    the same time exactly when their instants fall on the same minute of
    the IST day; and two instants of one minute give the same reading. *)
Theorem getIST_time_is_the_minute_of_the_day t t' :
  validTime (t + IST_OFFSET_MS) = true ->
  validTime (t' + IST_OFFSET_MS) = true ->
  (exists i, getIST t = Some i /\ String.length (ist_time i) = 5%nat)
  /\ (ist_time <$> getIST t = ist_time <$> getIST t'
      <-> ((t + IST_OFFSET_MS) / msPerMinute) mod 1440
          = ((t' + IST_OFFSET_MS) / msPerMinute) mod 1440)
  /\ (t / msPerMinute = t' / msPerMinute -> getIST t = getIST t').
Proof.
  intros Hv Hv'. split; [|split].
  - destruct (getIST_total t Hv) as (day & _ & Hi). eexists. split; [exact Hi|].
    cbn [ist_time]. rewrite !length_append.
    rewrite !pad2_length; [reflexivity| |].
    + pose proof (MinFromTime_range (t + IST_OFFSET_MS)). lia.
    + pose proof (HourFromTime_range (t + IST_OFFSET_MS)). lia.
  - rewrite !getIST_time by assumption.
    destruct (minute_of_day (t + IST_OFFSET_MS)) as [Hh Hm].
    destruct (minute_of_day (t' + IST_OFFSET_MS)) as [Hh' Hm'].
    split.
    + intros [= Heq]. apply time_key_inj in Heq as [Eh Em].
      rewrite Hh, Hh' in Eh. rewrite Hm, Hm' in Em.
      revert Eh Em.
      generalize (((t + IST_OFFSET_MS) / msPerMinute) mod 1440)
                 (((t' + IST_OFFSET_MS) / msPerMinute) mod 1440).
      intros a b. Z.to_euclidean_division_equations; lia.
    + intros Heq. rewrite Hh, Hh', Hm, Hm', Heq. reflexivity.
  - intros Heq.
    assert ((t + IST_OFFSET_MS) / msPerMinute = (t' + IST_OFFSET_MS) / msPerMinute)
      as Hmin.
    { revert Heq. unfold msPerMinute, IST_OFFSET_MS.
      Z.to_euclidean_division_equations; lia. }
    assert (Day (t + IST_OFFSET_MS) = Day (t' + IST_OFFSET_MS)) as Hday.
    { revert Hmin. unfold Day, msPerDay, msPerMinute.
      Z.to_euclidean_division_equations; lia. }
    assert (HourFromTime (t + IST_OFFSET_MS) = HourFromTime (t' + IST_OFFSET_MS)) as Hh.
    { rewrite (proj1 (minute_of_day _)), (proj1 (minute_of_day (t' + _))), Hmin.
      reflexivity. }
    assert (MinFromTime (t + IST_OFFSET_MS) = MinFromTime (t' + IST_OFFSET_MS)) as Hm.
    { unfold MinFromTime. rewrite Hmin. reflexivity. }
    unfold getIST. cbv zeta.
    rewrite Hv, Hv', Hh, Hm, (YearFromTime_Day _ _ Hday), (MonthFromTime_Day _ _ Hday),
      (DateFromTime_Day _ _ Hday).
    unfold WeekDay. rewrite Hday. reflexivity.
Qed.

Lemma getIST_time_is_the_minute_of_the_day_witness :
  getIST 1704079800000 = getIST 1704079859999.
Proof.
  apply (getIST_time_is_the_minute_of_the_day 1704079800000 1704079859999);
    vm_compute; reflexivity.
Defined.

(** X3. Two readings have the same date string exactly when their
    instants fall on the same IST calendar day, and then they have the same
    day of the week. *)
Theorem getIST_date_is_the_IST_day t t' :
  validTime (t + IST_OFFSET_MS) = true ->
  validTime (t' + IST_OFFSET_MS) = true ->
  (ist_dateStr <$> getIST t = ist_dateStr <$> getIST t'
   <-> Day (t + IST_OFFSET_MS) = Day (t' + IST_OFFSET_MS))
  /\ (Day (t + IST_OFFSET_MS) = Day (t' + IST_OFFSET_MS) ->
      ist_day <$> getIST t = ist_day <$> getIST t').
Proof.
  intros Hv Hv'. split; [apply getIST_date_iff; assumption|].
  intros Heq. rewrite !getIST_day by assumption. unfold WeekDay. rewrite Heq.
  reflexivity.
Qed.

Lemma getIST_date_is_the_IST_day_witness :
  ist_dateStr <$> getIST 1704079800000 = ist_dateStr <$> getIST 1704133799999.
Proof.
  apply (getIST_date_is_the_IST_day 1704079800000 1704133799999);
    vm_compute; reflexivity.
Defined.

(** X4. Readings are five and a half hours ahead of UTC: UTC midnight
    reads 05:30, 18:30 UTC reads 00:00, and the date string changes exactly
    there. *)
Theorem getIST_is_five_and_a_half_hours_ahead k :
  - 100000000 <= k < 99999999 ->
  ist_time <$> getIST (k * msPerDay) = Some "05:30"
  /\ ist_time <$> getIST (k * msPerDay + 66600000) = Some "00:00"
  /\ ist_dateStr <$> getIST (k * msPerDay + 66599999)
     = ist_dateStr <$> getIST (k * msPerDay)
  /\ ist_dateStr <$> getIST (k * msPerDay + 66600000)
     <> ist_dateStr <$> getIST (k * msPerDay).
Proof.
  intros Hk.
  assert (forall d, 0 <= d < msPerDay ->
            validTime (k * msPerDay + d + IST_OFFSET_MS) = true) as Hvalid.
  { intros d Hd. apply validTime_range. revert Hd.
    unfold maxTime, msPerDay, IST_OFFSET_MS. lia. }
  assert (validTime (k * msPerDay + IST_OFFSET_MS) = true) as Hv0.
  { replace (k * msPerDay) with (k * msPerDay + 0) by lia. apply Hvalid.
    unfold msPerDay. lia. }
  assert (validTime (k * msPerDay + 66600000 + IST_OFFSET_MS) = true) as Hv1
    by (apply Hvalid; unfold msPerDay; lia).
  assert (validTime (k * msPerDay + 66599999 + IST_OFFSET_MS) = true) as Hv2
    by (apply Hvalid; unfold msPerDay; lia).
  split; [|split; [|split]].
  - rewrite getIST_time by exact Hv0.
    replace (HourFromTime (k * msPerDay + IST_OFFSET_MS)) with 5.
    2: { unfold HourFromTime, msPerDay, msPerHour, IST_OFFSET_MS.
         Z.to_euclidean_division_equations; lia. }
    replace (MinFromTime (k * msPerDay + IST_OFFSET_MS)) with 30.
    2: { unfold MinFromTime, msPerDay, msPerMinute, IST_OFFSET_MS.
         Z.to_euclidean_division_equations; lia. }
    reflexivity.
  - rewrite getIST_time by exact Hv1.
    replace (HourFromTime (k * msPerDay + 66600000 + IST_OFFSET_MS)) with 0.
    2: { unfold HourFromTime, msPerDay, msPerHour, IST_OFFSET_MS.
         Z.to_euclidean_division_equations; lia. }
    replace (MinFromTime (k * msPerDay + 66600000 + IST_OFFSET_MS)) with 0.
    2: { unfold MinFromTime, msPerDay, msPerMinute, IST_OFFSET_MS.
         Z.to_euclidean_division_equations; lia. }
    reflexivity.
  - apply getIST_date_iff; [exact Hv2|exact Hv0|].
    unfold Day, msPerDay, IST_OFFSET_MS. Z.to_euclidean_division_equations; lia.
  - rewrite getIST_date_iff by assumption. unfold Day, msPerDay, IST_OFFSET_MS.
    Z.to_euclidean_division_equations; lia.
Qed.

Lemma getIST_is_five_and_a_half_hours_ahead_witness :
  ist_time <$> getIST (19723 * msPerDay) = Some "05:30".
Proof.
  apply (getIST_is_five_and_a_half_hours_ahead 19723). lia.
Defined.

(** ** The run as a whole *)

Lemma loop_counts E docs :
  forall st,
    let st' := loop E docs st in
    (st_skipped st' + st_processed st'
     = st_skipped st + st_processed st + length docs)%nat
    /\ (st_succeeded st' + st_failed st' + st_processed st
        = st_succeeded st + st_failed st + st_processed st')%nat
    /\ (length (st_errors st') + st_failed st
        = length (st_errors st) + st_failed st')%nat.
Proof.
  induction docs as [|[autoOrderId autoOrder] docs IH]; intros st; cbn zeta.
  - cbn. lia.
  - rewrite loop_cons. specialize (IH (processCandidate E st (autoOrderId, autoOrder))).
    cbn zeta in IH.
    destruct (processCandidate_cases E st autoOrderId autoOrder)
      as [[_ Heq]|[(_ & ur & mr & u & m & t & _ & _ & _ & _ & _ & _ & Heq)
                  |(_ & err & Heq)]];
      cbv zeta in Heq; rewrite Heq in *;
      cbn [skip succeed fail markProcessed st_skipped st_processed st_succeeded
             st_failed st_errors] in IH;
      rewrite ?length_app in IH; cbn [length]; cbn [length] in IH; lia.
Qed.

(** X7. In every summary the candidates are the skipped plus the
    processed ones and the processed ones are the succeeded plus the failed
    ones; in a summary that reports success there is one error line per
    failed candidate. *)
Theorem run_counters_add_up E overrideTime db :
  let r := fst (executeAutoOrders E overrideTime db) in
  candidates r = (skipped r + processed r)%nat
  /\ processed r = (succeeded r + failed r)%nat
  /\ (success r = true -> length (errors r) = failed r).
Proof.
  cbv zeta. unfold executeAutoOrders.
  destruct (adminDb_fault E); [cbn; repeat split; discriminate|].
  destruct (query_fault E); [cbn; repeat split; discriminate|].
  destruct (query (queryTimeOf E overrideTime) db) as [|c docs] eqn:Hq;
    [cbn; repeat split; reflexivity|].
  cbn [fst candidates skipped processed succeeded failed errors success].
  destruct (loop_counts E (c :: docs) (initial db)) as (H1 & H2 & H3).
  cbn [initial st_skipped st_processed st_succeeded st_failed st_errors length] in *.
  repeat split; lia.
Qed.

(** X8. A run that reports [success = false] has left the store as it
    was and reports zero in every counter, exactly one error line and a
    message. After a startup failure the time, day and date are the
    placeholders ??:??, Mon and unknown; after a failed query they are the
    query time and the clock's day and date, and the message is the error
    line. *)
Theorem fatal_run_shape E overrideTime db :
  let r := executeAutoOrders E overrideTime db in
  success (fst r) = false ->
  snd r = db
  /\ candidates (fst r) = 0%nat /\ skipped (fst r) = 0%nat
  /\ processed (fst r) = 0%nat /\ succeeded (fst r) = 0%nat
  /\ failed (fst r) = 0%nat
  /\ (exists line, errors (fst r) = [line])
  /\ (exists text, message (fst r) = Some text)
  /\ (adminDb_fault E <> None ->
      time (fst r) = "??:??" /\ day (fst r) = Mon /\ date (fst r) = "unknown"
      /\ message (fst r) = Some "Firebase Admin SDK is not working")
  /\ (adminDb_fault E = None ->
      time (fst r) = queryTimeOf E overrideTime
      /\ day (fst r) = ist_day (ist E)
      /\ date (fst r) = ist_dateStr (ist E)
      /\ exists text, errors (fst r) = [text] /\ message (fst r) = Some text).
Proof.
  cbv zeta. unfold executeAutoOrders.
  destruct (adminDb_fault E) as [e|].
  { intros _. cbn. repeat split; eauto; try discriminate; try congruence. }
  destruct (query_fault E) as [e|].
  { intros _. cbn. repeat split; eauto; try congruence. }
  destruct (query (queryTimeOf E overrideTime) db); cbn; discriminate.
Qed.

Lemma fatal_run_shape_witness :
  snd (executeAutoOrders Cafe.offline None Cafe.open_shop) = Cafe.open_shop
  /\ candidates (fst (executeAutoOrders Cafe.offline None Cafe.open_shop)) = 0%nat.
Proof.
  destruct (fatal_run_shape Cafe.offline None Cafe.open_shop eq_refl)
    as (Hdb & Hc & _).
  split; assumption.
Defined.

(** X6. An empty override string is ignored, the run being the one
    without override; a non-empty override makes the run independent of
    the clock's time of day, the day and the date still being the
    clock's. *)
Theorem override_time_replaces_clock E overrideTime db :
  executeAutoOrders E (Some "") db = executeAutoOrders E None db
  /\ (overrideTime <> "" ->
      forall E',
        adminDb_fault E' = adminDb_fault E -> query_fault E' = query_fault E ->
        commit_rejection E' = commit_rejection E -> now_iso E' = now_iso E ->
        fresh E' = fresh E ->
        ist_day (ist E') = ist_day (ist E) ->
        ist_dateStr (ist E') = ist_dateStr (ist E) ->
        executeAutoOrders E' (Some overrideTime) db
        = executeAutoOrders E (Some overrideTime) db).
Proof.
  split; [reflexivity|].
  intros Hne E' Ha Hq Hc Hn Hf Hd Hs.
  destruct E as [a q c n [t d s] f], E' as [a' q' c' n' [t' d' s'] f'].
  cbn in *. subst. unfold executeAutoOrders, queryTimeOf, or_str. cbn.
  destruct (String.eqb_spec overrideTime ""); [contradiction|]. reflexivity.
Qed.

(** X9. A run creates and deletes no user, menu item or recurring order,
    and only appends to the other collections: as many orders, wallet
    transactions, notifications and execution logs as candidates
    succeeded. Every appended execution log is a success log, every
    appended order is a pending Wallet auto order, every appended wallet
    transaction a debit. *)
Theorem run_only_appends E overrideTime db :
  let r := executeAutoOrders E overrideTime db in
  dom (users (snd r)) = dom (users db)
  /\ dom (menuItems (snd r)) = dom (menuItems db)
  /\ dom (autoOrders (snd r)) = dom (autoOrders db)
  /\ exists os ws ns xs,
       orders (snd r) = orders db ++ os
       /\ walletTransactions (snd r) = walletTransactions db ++ ws
       /\ notifications (snd r) = notifications db ++ ns
       /\ autoOrderExecutions (snd r) = autoOrderExecutions db ++ xs
       /\ length os = succeeded (fst r)
       /\ length ws = succeeded (fst r)
       /\ length ns = succeeded (fst r)
       /\ length xs = succeeded (fst r)
       /\ Forall (fun x => ex_success (snd x) = true) xs
       /\ Forall (fun o => o_status (snd o) = "pending"
                           /\ o_paymentMode (snd o) = "Wallet"
                           /\ o_isAutoOrder (snd o) = true) os
       /\ Forall (fun w => wt_type (snd w) = "debit") ws.
Proof.
  assert (forall r0 : AutoOrderResult, succeeded r0 = 0%nat ->
            let r := (r0, db) in
            dom (users (snd r)) = dom (users db)
            /\ dom (menuItems (snd r)) = dom (menuItems db)
            /\ dom (autoOrders (snd r)) = dom (autoOrders db)
            /\ exists os ws ns xs,
                 orders (snd r) = orders db ++ os
                 /\ walletTransactions (snd r) = walletTransactions db ++ ws
                 /\ notifications (snd r) = notifications db ++ ns
                 /\ autoOrderExecutions (snd r) = autoOrderExecutions db ++ xs
                 /\ length os = succeeded (fst r)
                 /\ length ws = succeeded (fst r)
                 /\ length ns = succeeded (fst r)
                 /\ length xs = succeeded (fst r)
                 /\ Forall (fun x => ex_success (snd x) = true) xs
                 /\ Forall (fun o => o_status (snd o) = "pending"
                                     /\ o_paymentMode (snd o) = "Wallet"
                                     /\ o_isAutoOrder (snd o) = true) os
                 /\ Forall (fun w => wt_type (snd w) = "debit") ws) as Hidle.
  { intros r0 H0. cbn. repeat split. exists [], [], [], []. rewrite !app_nil_r, H0.
    repeat split; constructor. }
  cbv zeta. unfold executeAutoOrders.
  destruct (adminDb_fault E); [apply Hidle; reflexivity|].
  destruct (query_fault E); [apply Hidle; reflexivity|].
  destruct (query (queryTimeOf E overrideTime) db) as [|c docs];
    [apply Hidle; reflexivity|].
  cbn [fst snd succeeded].
  destruct (loop_only_appends E (c :: docs) (initial db))
    as (Iu & Im & Ia & os & ws & ns & xs
        & Ho & Hw & Hn & Hx & Hs & Lw & Ln & Lx & Fx & Fo & Fw).
  cbn [initial st_db st_succeeded] in *.
  repeat split; try assumption.
  exists os, ws, ns, xs. repeat split; try assumption; lia.
Qed.

(** Each recurring order is left alone or served once. *)
Lemma loop_tracking E docs :
  NoDup (map fst docs) ->
  forall st,
    (forall id d, In (id, d) docs -> autoOrders (st_db st) !! id = Some d) ->
    forall id d0,
      autoOrders (st_db st) !! id = Some d0 ->
      autoOrders (st_db (loop E docs st)) !! id = Some d0
      \/ (autoOrders (st_db (loop E docs st)) !! id
          = Some (patch_autoOrder (successTracking E) d0)
          /\ In (id, d0) docs /\ attemptable E d0 = true).
Proof.
  induction docs as [|[id1 d1] docs IH]; intros Hnd st Hsnap id d0 Hd0.
  { left. exact Hd0. }
  cbn [map fst] in Hnd. apply NoDup_cons in Hnd as [Hfresh Hnd].
  assert (Forall (fun c => fst c <> id1) docs) as Hothers.
  { apply Forall_forall. intros c Hc Heq. apply Hfresh. rewrite <- Heq.
    apply list_elem_of_In, in_map, list_elem_of_In, Hc. }
  rewrite loop_cons.
  assert (forall id d, In (id, d) docs ->
            autoOrders (st_db (processCandidate E st (id1, d1))) !! id = Some d)
    as Hsnap'.
  { intros id' d' Hin. rewrite processCandidate_other.
    - apply Hsnap. right. exact Hin.
    - cbn. intros ->. rewrite Forall_forall in Hothers.
      apply (Hothers (id', d')); [apply list_elem_of_In, Hin|reflexivity]. }
  destruct (decide (id = id1)) as [->|Hne].
  - assert (d0 = d1) as <-.
    { specialize (Hsnap id1 d1 (or_introl eq_refl)). congruence. }
    rewrite (loop_others E docs id1 Hothers).
    destruct (processCandidate_cases E st id1 d0)
      as [[_ Heq]|[(Hatt & ur & mr & u & m & t & _ & _ & Ht & _ & _ & _ & Heq)
                  |(_ & err & Heq)]];
      cbv zeta in Heq; rewrite Heq.
    + left. exact Hd0.
    + right. cbn [succeed st_db]. unfold committedAt. cbn [autoOrders].
      rewrite lookup_insert_eq. rewrite Hd0 in Ht. injection Ht as <-.
      split; [reflexivity|]. split; [left; reflexivity|exact Hatt].
    + left. exact Hd0.
  - destruct (IH Hnd (processCandidate E st (id1, d1)) Hsnap' id d0) as [H|(H & Hin & Hatt)].
    + rewrite processCandidate_other; [exact Hd0|]. cbn. congruence.
    + left. exact H.
    + right. split; [exact H|]. split; [right; exact Hin|exact Hatt].
Qed.

(** X10. A run leaves each recurring order untouched or applies one
    success tracking update to it, the latter only to an active order of
    the query time that was due today and not yet run today. It never
    changes the failure fields (failure counter, last failure time and
    reason) nor the order's configuration. *)
Theorem run_serves_each_order_at_most_once E overrideTime db autoOrderId d0 :
  autoOrders db !! autoOrderId = Some d0 ->
  exists d',
    autoOrders (snd (executeAutoOrders E overrideTime db)) !! autoOrderId = Some d'
    /\ (d' = d0
        \/ (d' = patch_autoOrder (successTracking E) d0
            /\ ao_lastExecutedDate d' = Some (ist_dateStr (ist E))
            /\ ao_totalExecutions d' = Some (nullish (ao_totalExecutions d0) 0 + 1)
            /\ ao_status d0 = "active"
            /\ ao_time d0 = queryTimeOf E overrideTime
            /\ shouldRun (ist_day (ist E)) d0 = true
            /\ alreadyRan (ist_dateStr (ist E)) d0 = false))
    /\ ao_totalFailures d' = ao_totalFailures d0
    /\ ao_lastFailedAt d' = ao_lastFailedAt d0
    /\ ao_lastFailureReason d' = ao_lastFailureReason d0
    /\ ao_status d' = ao_status d0
    /\ ao_time d' = ao_time d0
    /\ ao_frequency d' = ao_frequency d0
    /\ ao_customDays d' = ao_customDays d0
    /\ ao_userId d' = ao_userId d0
    /\ ao_itemId d' = ao_itemId d0
    /\ ao_itemName d' = ao_itemName d0
    /\ ao_itemPrice d' = ao_itemPrice d0
    /\ ao_quantity d' = ao_quantity d0.
Proof.
  intros Hd0.
  assert (autoOrders (snd (executeAutoOrders E overrideTime db)) !! autoOrderId
          = Some d0
          \/ (autoOrders (snd (executeAutoOrders E overrideTime db)) !! autoOrderId
              = Some (patch_autoOrder (successTracking E) d0)
              /\ In (autoOrderId, d0) (query (queryTimeOf E overrideTime) db)
              /\ attemptable E d0 = true)) as Hcases.
  { unfold executeAutoOrders.
    destruct (adminDb_fault E); [left; exact Hd0|].
    destruct (query_fault E); [left; exact Hd0|].
    destruct (query (queryTimeOf E overrideTime) db) as [|c docs] eqn:Hq;
      [left; exact Hd0|].
    cbn [snd]. rewrite <- Hq.
    apply loop_tracking; [apply query_NoDup| |exact Hd0].
    intros id d Hin. apply query_In in Hin as [Hlook _]. exact Hlook. }
  destruct Hcases as [H|(H & Hin & Hatt)].
  - exists d0. split; [exact H|]. split; [left; reflexivity|]. repeat split.
  - exists (patch_autoOrder (successTracking E) d0). split; [exact H|].
    apply query_In in Hin as [_ Hsel]. apply selected_true in Hsel as [Hs Ht].
    unfold attemptable in Hatt. apply andb_true_iff in Hatt as [Hdue Hg].
    apply negb_true_iff in Hg.
    split; [|repeat split].
    right. repeat split; assumption.
Qed.

Lemma run_serves_each_order_at_most_once_witness :
  exists d',
    autoOrders (snd (executeAutoOrders Cafe.env None Cafe.busy_shop)) !! "ao0"
    = Some d'
    /\ ao_totalFailures d' = None.
Proof.
  destruct (run_serves_each_order_at_most_once Cafe.env None Cafe.busy_shop "ao0"
              Cafe.orphan_tea) as (d' & Hlook & _ & Hfail & _).
  - vm_compute. reflexivity.
  - exists d'. split; [exact Hlook|exact Hfail].
Defined.

(** Replacing a value in a map changes a sum over it by the difference. *)
Lemma map_sum_replace {A : Type} (f : A -> Z) (m : gmap string A) i x x' :
  m !! i = Some x ->
  map_fold (fun _ a acc => f a + acc) 0 (<[i := x']> m)
  = map_fold (fun _ a acc => f a + acc) 0 m - f x + f x'.
Proof.
  intros Hi.
  rewrite (map_fold_delete_L (fun _ a acc => f a + acc) 0 i x m); [|intros; lia|exact Hi].
  rewrite <- (insert_delete_eq m i x').
  rewrite (map_fold_insert_L (fun _ a acc => f a + acc) 0 i x' (delete i m));
    [lia|intros; lia|apply lookup_delete_eq].
Qed.

Lemma debited_app l l' : debited (l ++ l') = debited l + debited l'.
Proof. unfold debited. induction l as [|d l IH]; cbn; [reflexivity|]. rewrite IH. lia. Qed.

Lemma billed_app l l' : billed (l ++ l') = billed l + billed l'.
Proof. unfold billed. induction l as [|d l IH]; cbn; [reflexivity|]. rewrite IH. lia. Qed.

Lemma unitsOrdered_app l l' : unitsOrdered (l ++ l') = unitsOrdered l + unitsOrdered l'.
Proof.
  unfold unitsOrdered. induction l as [|d l IH]; cbn; [reflexivity|]. rewrite IH. lia.
Qed.

Lemma isSafeInteger_range x :
  isSafeInteger x = true <-> - MAX_SAFE_INTEGER <= x <= MAX_SAFE_INTEGER.
Proof.
  unfold isSafeInteger. rewrite andb_true_iff, !Z.leb_le. reflexivity.
Qed.

Lemma committedAt_totals E autoOrderId autoOrder total userRef menuItemRef userData
    menuItemData tracked db :
  users db !! userRef = Some userData ->
  menuItems db !! menuItemRef = Some menuItemData ->
  isSafeInteger total = true ->
  isSafeInteger (nullish (mi_quantity menuItemData) 0 - ao_quantity autoOrder) = true ->
  let db' := committedAt E autoOrderId autoOrder total userRef menuItemRef userData
               menuItemData tracked db in
  walletTotal db' = walletTotal db - total
  /\ stockTotal db' = stockTotal db - ao_quantity autoOrder.
Proof.
  intros Hu Hm Stotal Sstock. cbv zeta. unfold walletTotal, stockTotal, committedAt.
  cbn [users menuItems].
  rewrite (map_sum_replace (fun u => nullish (u_walletBalance u) 0) _ _ _ _ Hu).
  rewrite (map_sum_replace (fun m => nullish (mi_quantity m) 0) _ _ _ _ Hm).
  cbn [u_walletBalance mi_quantity].
  rewrite increment_safe by (rewrite isSafeInteger_opp; exact Stotal).
  rewrite (minus_safe _ _ Sstock). cbn [nullish]. split; lia.
Qed.

Lemma committedAt_withinSafeRange E autoOrderId autoOrder total userRef menuItemRef
    userData menuItemData tracked db :
  isSafeInteger total = true ->
  isSafeInteger (nullish (mi_quantity menuItemData) 0 - ao_quantity autoOrder) = true ->
  isSafeInteger (nullish (u_walletBalance userData) 0 - total) = true ->
  withinSafeRange db ->
  withinSafeRange (committedAt E autoOrderId autoOrder total userRef menuItemRef
                     userData menuItemData tracked db).
Proof.
  intros Stotal Sstock Sbalance [Hstock Hbal]. unfold withinSafeRange, committedAt.
  cbn [users menuItems]. split.
  - intros id d Hlook.
    destruct (decide (menuItemRef = id)) as [<-|Hne].
    + rewrite lookup_insert_eq in Hlook. injection Hlook as <-.
      cbn [mi_quantity nullish]. rewrite (minus_safe _ _ Sstock). exact Sstock.
    + rewrite lookup_insert_ne in Hlook by exact Hne. eauto.
  - intros id d Hlook.
    destruct (decide (userRef = id)) as [<-|Hne].
    + rewrite lookup_insert_eq in Hlook. injection Hlook as <-.
      cbn [u_walletBalance increment nullish]. rewrite isSafeInteger_opp, Stotal.
      replace (nullish (u_walletBalance userData) 0 + - total)
        with (nullish (u_walletBalance userData) 0 - total) by lia.
      exact Sbalance.
    + rewrite lookup_insert_ne in Hlook by exact Hne. eauto.
Qed.

Lemma loop_conserves E docs :
  Forall (fun c => plainOrder (snd c)) docs ->
  forall st,
    withinSafeRange (st_db st) ->
    let st' := loop E docs st in
    exists os ws,
      orders (st_db st') = orders (st_db st) ++ os
      /\ walletTransactions (st_db st') = walletTransactions (st_db st) ++ ws
      /\ walletTotal (st_db st') + debited ws = walletTotal (st_db st)
      /\ debited ws = billed os
      /\ stockTotal (st_db st') + unitsOrdered os = stockTotal (st_db st).
Proof.
  induction 1 as [|[autoOrderId autoOrder] docs Hplain _ IH]; intros st Hsafe;
    cbn zeta.
  - exists [], []. cbn. rewrite !app_nil_r. repeat split; lia.
  - rewrite loop_cons. specialize (IH (processCandidate E st (autoOrderId, autoOrder))).
    cbn zeta in IH. cbn [snd] in Hplain. destruct Hplain as (Hprice & Hquantity & Stotal).
    destruct (processCandidate_cases E st autoOrderId autoOrder)
      as [[_ Heq]|[(_ & ur & mr & u & m & t & Hu & Hm & Ht & _ & Hq & Hb & Heq)
                  |(_ & err & Heq)]];
      cbv zeta in Heq; rewrite Heq in *; clear Heq.
    + exact (IH Hsafe).
    + rewrite (times_safe _ _ Stotal) in *.
      destruct Hsafe as [Hstocks Hbalances].
      pose proof (proj1 (isSafeInteger_range _) (Hstocks _ _ Hm)) as Rstock.
      pose proof (proj1 (isSafeInteger_range _) (Hbalances _ _ Hu)) as Rbalance.
      assert (0 <= ao_itemPrice autoOrder * ao_quantity autoOrder) as Hpos
        by (apply Z.mul_nonneg_nonneg; assumption).
      assert (isSafeInteger (nullish (mi_quantity m) 0 - ao_quantity autoOrder) = true)
        as Sstock by (apply isSafeInteger_range; unfold MAX_SAFE_INTEGER in *; lia).
      assert (isSafeInteger (nullish (u_walletBalance u) 0
                             - ao_itemPrice autoOrder * ao_quantity autoOrder) = true)
        as Sbalance by (apply isSafeInteger_range; unfold MAX_SAFE_INTEGER in *; lia).
      destruct (committedAt_totals E autoOrderId autoOrder
                  (ao_itemPrice autoOrder * ao_quantity autoOrder) ur mr u m t
                  (st_db st) Hu Hm Stotal Sstock) as (Hw & Hs).
      cbn [succeed markProcessed st_db] in IH.
      destruct IH as (os & ws & Ho & Hwt & Hbal & Hbill & Hstock).
      { apply committedAt_withinSafeRange; try assumption. split; assumption. }
      rewrite Hw in Hbal. rewrite Hs in Hstock.
      unfold committedAt in Ho, Hwt. cbn [orders walletTransactions] in Ho, Hwt.
      rewrite <- app_assoc in Ho, Hwt.
      eexists _, _. split; [exact Ho|]. split; [exact Hwt|].
      rewrite debited_app, billed_app, unitsOrdered_app. cbn. repeat split; lia.
    + exact (IH Hsafe).
Qed.

(** X11. Take a run on a store whose stock and balances are safe
    integers, all of whose candidates have a price and a quantity that are
    not negative and an exact total that is a safe integer. The money
    that left the wallets is the sum of the appended wallet transactions,
    which is the sum of the totals of the appended orders; and the stock
    that left the menu is the number of units on the appended orders. *)
Theorem run_conserves_money_and_stock E overrideTime db :
  withinSafeRange db ->
  (forall autoOrderId d,
     autoOrders db !! autoOrderId = Some d ->
     ao_status d = "active" -> ao_time d = queryTimeOf E overrideTime ->
     plainOrder d) ->
  let db' := snd (executeAutoOrders E overrideTime db) in
  exists os ws,
    orders db' = orders db ++ os
    /\ walletTransactions db' = walletTransactions db ++ ws
    /\ walletTotal db' + debited ws = walletTotal db
    /\ debited ws = billed os
    /\ stockTotal db' + unitsOrdered os = stockTotal db.
Proof.
  intros Hsafe Hplain.
  assert (exists os ws,
            orders db = orders db ++ os
            /\ walletTransactions db = walletTransactions db ++ ws
            /\ walletTotal db + debited ws = walletTotal db
            /\ debited ws = billed os
            /\ stockTotal db + unitsOrdered os = stockTotal db) as Hidle.
  { exists [], []. rewrite !app_nil_r. cbn. repeat split; lia. }
  assert (Forall (fun c => plainOrder (snd c)) (query (queryTimeOf E overrideTime) db))
    as Hdocs.
  { apply Forall_forall. intros [autoOrderId d] Hin.
    apply list_elem_of_In, query_In in Hin as [Hlook Hsel].
    apply selected_true in Hsel as [Hs Ht]. exact (Hplain _ _ Hlook Hs Ht). }
  cbv zeta. unfold executeAutoOrders.
  destruct (adminDb_fault E); [exact Hidle|].
  destruct (query_fault E); [exact Hidle|].
  destruct (query (queryTimeOf E overrideTime) db) as [|c docs]; [exact Hidle|].
  cbn [snd]. apply (loop_conserves E (c :: docs) Hdocs (initial db)). exact Hsafe.
Qed.

Lemma run_conserves_money_and_stock_witness :
  exists os ws,
    orders (snd (executeAutoOrders Cafe.env None Cafe.open_shop))
    = orders Cafe.open_shop ++ os
    /\ walletTransactions (snd (executeAutoOrders Cafe.env None Cafe.open_shop))
       = walletTransactions Cafe.open_shop ++ ws
    /\ walletTotal (snd (executeAutoOrders Cafe.env None Cafe.open_shop)) + debited ws
       = walletTotal Cafe.open_shop
    /\ debited ws = billed os
    /\ stockTotal (snd (executeAutoOrders Cafe.env None Cafe.open_shop))
       + unitsOrdered os
       = stockTotal Cafe.open_shop.
Proof.
  apply (run_conserves_money_and_stock Cafe.env None Cafe.open_shop).
  - unfold withinSafeRange, Cafe.open_shop, Cafe.shop. cbn [users menuItems]. split.
    + intros id d Hlook. apply lookup_singleton_Some in Hlook as [_ <-]. reflexivity.
    + intros id d Hlook. apply lookup_singleton_Some in Hlook as [_ <-]. reflexivity.
  - intros autoOrderId d Hlook _ _.
    unfold Cafe.open_shop, Cafe.shop in Hlook. cbn [autoOrders] in Hlook.
    apply lookup_singleton_Some in Hlook as [_ <-].
    unfold plainOrder. cbn. repeat split; try reflexivity; lia.
Defined.

(** X12. A committed order that takes all the stock there is leaves the
    item with quantity 0 and [available] false; from then on every attempt
    for that item by an existing user fails as item unavailable, whatever
    quantity it asks for. *)
Theorem last_unit_marks_item_unavailable E st autoOrderId autoOrder db'
    menuItemData :
  menuItems (st_db st) !! ao_itemId autoOrder = Some menuItemData ->
  nullish (mi_quantity menuItemData) 0 = ao_quantity autoOrder ->
  runTransaction (commit_rejection E)
    (transactionBody E autoOrderId autoOrder
       (Js.times (ao_itemPrice autoOrder) (ao_quantity autoOrder))) (st_db st)
  = (inr tt, db') ->
  (exists m', menuItems db' !! ao_itemId autoOrder = Some m'
              /\ mi_quantity m' = Some 0 /\ mi_available m' = Some false)
  /\ forall E2 st2 id2 order2,
       st_db st2 = db' ->
       ao_itemId order2 = ao_itemId autoOrder ->
       is_Some (users db' !! ao_userId order2) ->
       shouldRun (ist_day (ist E2)) order2 = true ->
       alreadyRan (ist_dateStr (ist E2)) order2 = false ->
       processCandidate E2 st2 (id2, order2)
       = fail db' (id2 +:+ ": item unavailable") (markProcessed st2).
Proof.
  intros Hm Hlast Hrun.
  apply runTransaction_commit in Hrun
    as (userRef & menuItemRef & userData & menuItemData' & tracked
        & _ & Hu & Hi & Hm' & Ht & _ & _ & _ & ->).
  rewrite (doc_found _ _ _ Hm) in Hi. injection Hi as <-.
  rewrite Hm in Hm'. injection Hm' as <-.
  assert (menuItems
            (committedAt E autoOrderId autoOrder
               (Js.times (ao_itemPrice autoOrder) (ao_quantity autoOrder))
               userRef (ao_itemId autoOrder) userData menuItemData
               tracked (st_db st)) !! ao_itemId autoOrder
          = Some {| mi_name := mi_name menuItemData;
                    mi_quantity := Some 0;
                    mi_available := Some false;
                    mi_updatedAt := Some (now_iso E) |}) as Hafter.
  { unfold committedAt. cbn [menuItems]. rewrite lookup_insert_eq, Hlast.
    unfold Js.minus. rewrite Z.sub_diag. reflexivity. }
  split; [eexists; split; [exact Hafter|split; reflexivity]|].
  intros E2 st2 id2 order2 Hst Hitem [u2 Hu2] Hd Hg.
  rewrite <- Hst in Hafter, Hu2. rewrite <- Hitem in Hafter.
  rewrite (processCandidate_throw E2 st2 id2 order2 _ _ Hd Hg
             (body_item_unavailable _ _ _ _ _ _ _ Hu2 Hafter eq_refl)).
  rewrite Hst. reflexivity.
Qed.

Lemma last_unit_marks_item_unavailable_witness :
  exists m',
    menuItems
      (committed Cafe.env "ao1" Cafe.daily_tea 80 (Cafe.account (Some 500))
         (Cafe.item (Some 2) (Some true)) Cafe.daily_tea Cafe.last_two) !! "tea"
    = Some m'
    /\ mi_quantity m' = Some 0 /\ mi_available m' = Some false.
Proof.
  refine (proj1 (last_unit_marks_item_unavailable Cafe.env (initial Cafe.last_two)
                   "ao1" Cafe.daily_tea _ (Cafe.item (Some 2) (Some true)) _ _ _));
    vm_compute; reflexivity.
Defined.

(** X13. Validation does not reject a quantity that is zero or negative:
    with a price that is not negative, an available item and stock and
    balance that are not negative, the attempt commits, and neither the
    stock nor the balance, being doubles, goes down. When the exact total,
    the new stock and the new balance are safe integers, the new stock is
    the old one less the quantity and the new balance the old one less
    price * quantity. *)
Theorem non_positive_quantity_is_accepted E st autoOrderId autoOrder userData
    menuItemData tracked :
  shouldRun (ist_day (ist E)) autoOrder = true ->
  alreadyRan (ist_dateStr (ist E)) autoOrder = false ->
  users (st_db st) !! ao_userId autoOrder = Some userData ->
  menuItems (st_db st) !! ao_itemId autoOrder = Some menuItemData ->
  autoOrders (st_db st) !! autoOrderId = Some tracked ->
  mi_available menuItemData <> Some false ->
  0 <= nullish (mi_quantity menuItemData) 0 ->
  0 <= nullish (u_walletBalance userData) 0 ->
  ao_quantity autoOrder <= 0 ->
  0 <= ao_itemPrice autoOrder ->
  exists db' m' u',
    processCandidate E st (autoOrderId, autoOrder) = succeed db' (markProcessed st)
    /\ menuItems db' !! ao_itemId autoOrder = Some m'
    /\ mi_quantity m'
       = Some (Js.minus (nullish (mi_quantity menuItemData) 0) (ao_quantity autoOrder))
    /\ users db' !! ao_userId autoOrder = Some u'
    /\ u_walletBalance u'
       = increment
           (Some (- Js.times (ao_itemPrice autoOrder) (ao_quantity autoOrder)))
           (u_walletBalance userData)
    /\ (Js.double (nullish (mi_quantity menuItemData) 0)
        = nullish (mi_quantity menuItemData) 0 ->
        nullish (mi_quantity menuItemData) 0 <= nullish (mi_quantity m') 0)
    /\ (Js.double (nullish (u_walletBalance userData) 0)
        = nullish (u_walletBalance userData) 0 ->
        nullish (u_walletBalance userData) 0 <= nullish (u_walletBalance u') 0)
    /\ (isSafeInteger (ao_itemPrice autoOrder * ao_quantity autoOrder) = true ->
        isSafeInteger (nullish (mi_quantity menuItemData) 0 - ao_quantity autoOrder)
        = true ->
        isSafeInteger (nullish (u_walletBalance userData) 0
                       - ao_itemPrice autoOrder * ao_quantity autoOrder) = true ->
        mi_quantity m'
        = Some (nullish (mi_quantity menuItemData) 0 - ao_quantity autoOrder)
        /\ u_walletBalance u'
           = Some (nullish (u_walletBalance userData) 0
                   - ao_itemPrice autoOrder * ao_quantity autoOrder)
        /\ nullish (mi_quantity menuItemData) 0 <= nullish (mi_quantity m') 0
        /\ nullish (u_walletBalance userData) 0 <= nullish (u_walletBalance u') 0).
Proof.
  intros Hd Hg Hu Hm Ht Ha Hs Hb Hq Hp.
  assert (Js.times (ao_itemPrice autoOrder) (ao_quantity autoOrder) <= 0) as Htot
    by (apply double_nonpos; nia).
  eexists _, _, _.
  rewrite (processCandidate_attempt _ _ _ _ Hd Hg).
  rewrite (runTransaction_valid E autoOrderId autoOrder _ (st_db st) _ _ userData
             menuItemData tracked (doc_found _ _ _ Hu) Hu (doc_found _ _ _ Hm) Hm
             Ht Ha) by lia.
  split; [reflexivity|]. unfold committedAt. cbn [users menuItems].
  rewrite !lookup_insert_eq. cbn [mi_quantity u_walletBalance].
  split; [reflexivity|]. split; [reflexivity|]. split; [reflexivity|].
  split; [reflexivity|]. split; [|split].
  - intros Hdouble. cbn [nullish mi_quantity]. rewrite <- Hdouble at 1.
    apply double_mono. lia.
  - intros Hdouble. unfold increment. cbn [nullish u_walletBalance].
    destruct (isSafeInteger _); [lia|].
    rewrite <- Hdouble at 1. apply double_mono. lia.
  - intros Stotal Sstock Sbalance.
    rewrite (minus_safe _ _ Sstock).
    rewrite increment_safe
      by (rewrite isSafeInteger_opp, (times_safe _ _ Stotal); exact Stotal).
    rewrite (times_safe _ _ Stotal) in *. cbn [nullish mi_quantity u_walletBalance].
    repeat split; try reflexivity; lia.
Qed.

Lemma non_positive_quantity_is_accepted_witness :
  exists db' m' u',
    processCandidate Cafe.env (initial Cafe.refund_shop) ("ao1", Cafe.negative_tea)
    = succeed db' (markProcessed (initial Cafe.refund_shop))
    /\ menuItems db' !! "tea" = Some m' /\ mi_quantity m' = Some 11
    /\ users db' !! "asha" = Some u' /\ u_walletBalance u' = Some 540.
Proof.
  destruct (non_positive_quantity_is_accepted Cafe.env (initial Cafe.refund_shop)
              "ao1" Cafe.negative_tea (Cafe.account (Some 500))
              (Cafe.item (Some 10) (Some true)) Cafe.negative_tea
              ltac:(vm_compute; reflexivity) ltac:(vm_compute; reflexivity)
              ltac:(vm_compute; reflexivity) ltac:(vm_compute; reflexivity)
              ltac:(vm_compute; reflexivity) ltac:(discriminate)
              ltac:(cbn; lia) ltac:(cbn; lia) ltac:(cbn; lia) ltac:(cbn; lia))
    as (db' & m' & u' & Hstep & Hm & Hq & Hu & Hb & _).
  exists db', m', u'. repeat split; assumption.
Defined.

(** *** Running again on the same day *)

Lemma loop_processed E docs :
  forall st,
    st_processed (loop E docs st)
    = (st_processed st
       + length (List.filter (fun c => attemptable E (snd c)) docs))%nat.
Proof.
  induction docs as [|[autoOrderId autoOrder] docs IH]; intros st.
  - cbn. lia.
  - rewrite loop_cons, IH. cbn [List.filter snd].
    destruct (processCandidate_cases E st autoOrderId autoOrder)
      as [[Ha Heq]|[(Ha & ur & mr & u & m & t & _ & _ & _ & _ & _ & _ & Heq)
                   |(Ha & err & Heq)]];
      cbv zeta in Heq; rewrite Heq, Ha; cbn; lia.
Qed.

Lemma filter_length_Permutation {A : Type} (f : A -> bool) (l l' : list A) :
  l ≡ₚ l' -> length (List.filter f l) = length (List.filter f l').
Proof.
  induction 1 as [|x l l' _ IH|x y l|l l' l'' _ IH1 _ IH2]; cbn.
  - reflexivity.
  - destruct (f x); cbn; rewrite IH; reflexivity.
  - destruct (f x), (f y); reflexivity.
  - rewrite IH1. exact IH2.
Qed.

Lemma filter_fuse {A : Type} (f g : A -> bool) (l : list A) :
  List.filter f (List.filter g l) = List.filter (fun c => g c && f c) l.
Proof.
  induction l as [|c l IH]; [reflexivity|]. cbn [List.filter].
  destruct (g c); cbn [andb List.filter]; [|exact IH].
  destruct (f c); rewrite IH; reflexivity.
Qed.

(** Replacing one recurring order in the store, seen from the query. *)
Lemma query_replace (f : string * AutoOrder -> bool) queryTime db db' id d d' :
  autoOrders db !! id = Some d ->
  autoOrders db' = <[id := d']> (autoOrders db) ->
  (length (List.filter f (query queryTime db'))
   + (if selected queryTime d && f (id, d) then 1 else 0)
   = length (List.filter f (query queryTime db))
     + (if selected queryTime d' && f (id, d') then 1 else 0))%nat.
Proof.
  intros Hd Hdb'. unfold query. rewrite Hdb', !filter_fuse.
  set (g := fun c : string * AutoOrder => selected queryTime (snd c) && f c).
  rewrite (filter_length_Permutation g _
             ((id, d') :: map_to_list (delete id (autoOrders db)))).
  2: { rewrite snapshot_Permutation, <- (insert_delete_eq (autoOrders db)).
       apply map_to_list_insert, lookup_delete_eq. }
  rewrite (filter_length_Permutation g (merge_sort byId (map_to_list (autoOrders db)))
             ((id, d) :: map_to_list (delete id (autoOrders db)))).
  2: { rewrite snapshot_Permutation. symmetry. apply map_to_list_delete, Hd. }
  cbn [List.filter].
  change (g (id, d')) with (selected queryTime d' && f (id, d')).
  change (g (id, d)) with (selected queryTime d && f (id, d)).
  destruct (selected queryTime d' && f (id, d')), (selected queryTime d && f (id, d));
    cbn [length]; lia.
Qed.

Lemma filter_all {A : Type} (l : list A) : List.filter (fun _ => true) l = l.
Proof. induction l as [|x l IH]; cbn; [reflexivity|]. rewrite IH. reflexivity. Qed.

Lemma served_not_attemptable E d :
  attemptable E (patch_autoOrder (successTracking E) d) = false.
Proof.
  unfold attemptable, alreadyRan. cbn. rewrite String.eqb_refl.
  apply andb_false_r.
Qed.

(** Every success takes one document out of those a run of the same day
    would attempt, and nothing else changes what the query finds. *)
Lemma loop_serves E queryTime docs :
  NoDup (map fst docs) ->
  forall st,
    (forall id d, In (id, d) docs ->
       autoOrders (st_db st) !! id = Some d /\ selected queryTime d = true) ->
    let st' := loop E docs st in
    length (query queryTime (st_db st')) = length (query queryTime (st_db st))
    /\ (length (List.filter (fun c => attemptable E (snd c))
                  (query queryTime (st_db st')))
        + st_succeeded st'
        = length (List.filter (fun c => attemptable E (snd c))
                    (query queryTime (st_db st)))
          + st_succeeded st)%nat.
Proof.
  induction docs as [|[id1 d1] docs IH]; intros Hnd st Hsnap; cbn zeta.
  { split; reflexivity. }
  cbn [map fst] in Hnd. apply NoDup_cons in Hnd as [Hfresh Hnd].
  rewrite loop_cons.
  destruct (Hsnap id1 d1 (or_introl eq_refl)) as [Hd1 Hsel].
  assert (forall id d, In (id, d) docs -> id <> id1) as Hother.
  { intros id d Hin ->. apply Hfresh.
    apply list_elem_of_In, (in_map fst _ (id1, d)), Hin. }
  destruct (processCandidate_cases E st id1 d1)
    as [[_ Heq]|[(Hatt & ur & mr & u & m & t & _ & _ & Ht & _ & _ & _ & Heq)
                |(_ & err & Heq)]];
    cbv zeta in Heq; rewrite Heq; clear Heq.
  - apply (IH Hnd (skip st)). intros id d Hin. apply Hsnap. right. exact Hin.
  - rewrite Hd1 in Ht. injection Ht as <-.
    set (db' := committedAt E id1 d1 (Js.times (ao_itemPrice d1) (ao_quantity d1))
                  ur mr u m d1 (st_db st)).
    assert (autoOrders db'
            = <[id1 := patch_autoOrder (successTracking E) d1]> (autoOrders (st_db st)))
      as Hdb' by reflexivity.
    destruct (IH Hnd (succeed db' (markProcessed st))) as [Hlen Hatt'].
    { intros id d Hin. cbn [succeed st_db]. rewrite Hdb'.
      rewrite lookup_insert_ne by (intros Heq; exact (Hother id d Hin (eq_sym Heq))).
      apply Hsnap. right. exact Hin. }
    cbn [succeed markProcessed st_db st_succeeded] in Hlen, Hatt'.
    pose proof (query_replace (fun _ => true) queryTime (st_db st) db' id1 d1 _
                  Hd1 Hdb') as Hq1.
    rewrite !filter_all in Hq1.
    pose proof (query_replace (fun c => attemptable E (snd c)) queryTime (st_db st)
                  db' id1 d1 _ Hd1 Hdb') as Hq2.
    cbn [snd] in Hq2. rewrite Hatt, served_not_attemptable in Hq2.
    change (selected queryTime (patch_autoOrder (successTracking E) d1))
      with (selected queryTime d1) in Hq1, Hq2.
    rewrite Hsel in Hq1, Hq2. cbn [andb] in Hq1, Hq2.
    split; lia.
  - apply (IH Hnd (fail (st_db st) (errorLine id1 err) (markProcessed st))).
    intros id d Hin. apply Hsnap. right. exact Hin.
Qed.

Lemma attemptable_same_day E1 E2 d :
  ist_day (ist E2) = ist_day (ist E1) ->
  ist_dateStr (ist E2) = ist_dateStr (ist E1) ->
  attemptable E2 d = attemptable E1 d.
Proof. intros Hd Hs. unfold attemptable. rewrite Hd, Hs. reflexivity. Qed.

Lemma filter_ext_length {A : Type} (f g : A -> bool) (l : list A) :
  (forall x, f x = g x) -> length (List.filter f l) = length (List.filter g l).
Proof.
  intros Hfg. induction l as [|x l IH]; cbn; [reflexivity|].
  rewrite Hfg. destruct (g x); cbn; rewrite IH; reflexivity.
Qed.

(** X14. A second run on the same day, date and query time selects as
    many candidates as the first, attempts exactly as many as had failed
    in the first, and skips the rest: those the first run skipped and
    those it served. *)
Theorem rerun_retries_the_failures E1 E2 overrideTime db :
  adminDb_fault E1 = None -> query_fault E1 = None ->
  adminDb_fault E2 = None -> query_fault E2 = None ->
  ist_day (ist E2) = ist_day (ist E1) ->
  ist_dateStr (ist E2) = ist_dateStr (ist E1) ->
  queryTimeOf E2 overrideTime = queryTimeOf E1 overrideTime ->
  let first := executeAutoOrders E1 overrideTime db in
  let second := executeAutoOrders E2 overrideTime (snd first) in
  candidates (fst second) = candidates (fst first)
  /\ processed (fst second) = failed (fst first)
  /\ skipped (fst second) = (skipped (fst first) + succeeded (fst first))%nat.
Proof.
  intros Ha1 Hq1 Ha2 Hq2 Hday Hdate Htime. cbv zeta.
  assert (query (queryTimeOf E1 overrideTime) db = []
          \/ query (queryTimeOf E1 overrideTime) db <> []) as [Hnil|Hne]
    by (destruct (query (queryTimeOf E1 overrideTime) db); [left|right]; congruence).
  { assert (executeAutoOrders E1 overrideTime db
            = (fst (executeAutoOrders E1 overrideTime db), db)) as H1.
    { unfold executeAutoOrders. rewrite Ha1, Hq1, Hnil. reflexivity. }
    rewrite H1. cbn [snd fst].
    unfold executeAutoOrders. rewrite Ha1, Hq1, Ha2, Hq2, Htime, Hnil.
    cbn. repeat split. }
  rewrite (executeAutoOrders_loop E1 overrideTime db Ha1 Hq1 Hne). cbv zeta.
  cbn [fst snd].
  set (docs1 := query (queryTimeOf E1 overrideTime) db) in *.
  set (st1 := loop E1 docs1 (initial db)).
  destruct (loop_serves E1 (queryTimeOf E1 overrideTime) docs1 (query_NoDup _ _)
              (initial db)) as [Hlen Hatt].
  { intros id d Hin. apply query_In in Hin. exact Hin. }
  fold st1 in Hlen, Hatt. cbn [initial st_db st_succeeded] in Hlen, Hatt.
  fold docs1 in Hlen, Hatt.
  assert (query (queryTimeOf E2 overrideTime) (st_db st1) <> []) as Hne2.
  { rewrite Htime. intros Hnil. rewrite Hnil in Hlen.
    destruct docs1; [contradiction|discriminate Hlen]. }
  rewrite (executeAutoOrders_loop E2 overrideTime (st_db st1) Ha2 Hq2 Hne2). cbv zeta.
  cbn [fst candidates processed skipped failed succeeded].
  rewrite Htime.
  set (docs2 := query (queryTimeOf E1 overrideTime) (st_db st1)) in *.
  pose proof (loop_processed E2 docs2 (initial (st_db st1))) as Hp2.
  pose proof (loop_processed E1 docs1 (initial db)) as Hp1. fold st1 in Hp1.
  destruct (loop_counts E2 docs2 (initial (st_db st1))) as (Hc2 & _ & _).
  destruct (loop_counts E1 docs1 (initial db)) as (Hc1 & Hs1 & _). fold st1 in Hc1, Hs1.
  cbn [initial st_processed st_skipped st_succeeded st_failed] in *.
  rewrite (filter_ext_length (fun c => attemptable E2 (snd c))
             (fun c => attemptable E1 (snd c))) in Hp2
    by (intros x; apply attemptable_same_day; assumption).
  repeat split; lia.
Qed.

Lemma rerun_retries_the_failures_witness :
  processed
    (fst (executeAutoOrders Cafe.env None
            (snd (executeAutoOrders Cafe.env None Cafe.busy_shop))))
  = failed (fst (executeAutoOrders Cafe.env None Cafe.busy_shop)).
Proof.
  exact (proj1 (proj2 (rerun_retries_the_failures Cafe.env Cafe.env None
                         Cafe.busy_shop eq_refl eq_refl eq_refl eq_refl eq_refl
                         eq_refl eq_refl))).
Defined.

(** *** Known instants, read *)

(** 2024-01-01T03:30:00Z, the leap day of 2024, the last millisecond of
    2024 in India, the years 2000 and 2100, and the eve of the epoch. *)
Example getIST_known_instants :
  map getIST [ 1704079800000; 1709188200000; 1735669799999;
               951762600000; 4107475800000; -19800001 ]
  = [ Some {| ist_time := "09:00"; ist_day := Mon; ist_dateStr := "2024-01-01" |};
      Some {| ist_time := "12:00"; ist_day := Thu; ist_dateStr := "2024-02-29" |};
      Some {| ist_time := "23:59"; ist_day := Tue; ist_dateStr := "2024-12-31" |};
      Some {| ist_time := "00:00"; ist_day := Tue; ist_dateStr := "2000-02-29" |};
      Some {| ist_time := "11:00"; ist_day := Sun; ist_dateStr := "2100-02-28" |};
      Some {| ist_time := "23:59"; ist_day := Wed; ist_dateStr := "1969-12-31" |} ].
Proof. vm_compute. reflexivity. Qed.

(** The last five and a half hours of the range of a [Date] have no
    reading. *)
Example getIST_beyond_range :
  getIST (maxTime - IST_OFFSET_MS) <> None /\ getIST (maxTime - IST_OFFSET_MS + 1) = None.
Proof. vm_compute. split; [discriminate|reflexivity]. Qed.
